(** * PySyft: project event log and low/high state reconciliation

    A shallow embedding of

    - [syft/client/syncing.py]: [resolve],
      [get_sync_decisions_for_batch_items], [ask_user_input_permission],
      [get_user_input_for_resolve];
    - [syft/service/project/project_service.py]: [validate_project_leader],
      [validate_user_permission_for_project], [validate_project_event_seq],
      [add_event], [broadcast_event], [sync], [check_for_project_request].

    Python exceptions are values of [Exception]; a Python function that
    reads or writes mutable state is a function in the monad [M S] that
    threads the state [S] and keeps it when an exception is raised. *)

From Stdlib Require Import ZArith String Ascii List Lia.
From stdpp Require Import base option list strings gmap pretty.

Open Scope string_scope.
Open Scope list_scope.

(** ** Exceptions and the state/exception monad *)

Inductive Exception : Type :=
| ValueError (msg : string)
| AttributeError (msg : string)
| TypeError (msg : string)
| EOFError
| SyftException (public_message : string)
| NotFoundException (public_message : string).

#[global] Instance Exception_eq_dec : EqDecision Exception.
Proof. solve_decision. Defined.

(** A computation over a state [S]: the outcome is an exception or a value,
    and the state reached is returned in both cases (a [raise] does not undo
    the writes made before it). *)
Definition M (S A : Type) : Type := S -> (Exception + A) * S.

Definition ret {S A} (a : A) : M S A := fun s => (inr a, s).

Definition raise {S A} (e : Exception) : M S A := fun s => (inl e, s).

Definition bind {S A B} (m : M S A) (k : A -> M S B) : M S B :=
  fun s =>
    match m s with
    | (inl e, s') => (inl e, s')
    | (inr a, s') => k a s'
    end.

Declare Scope py_scope.
Delimit Scope py_scope with py.

Notation "x <- m ;; k" := (bind m (fun x => k))
  (at level 100, m at next level, right associativity) : py_scope.
Notation "m ;;; k" := (bind m (fun _ => k))
  (at level 100, right associativity) : py_scope.

Definition modify {S} (f : S -> S) : M S unit := fun s => (inr tt, f s).

(** The outcome of a run. *)
Definition outcome {S A} (r : (Exception + A) * S) : Exception + A := fst r.

Definition is_ok {A} (r : Exception + A) : bool :=
  match r with inr _ => true | inl _ => false end.

Definition UID : Type := string.
Definition SyftVerifyKey : Type := string.

(** ** syft/client/syncing.py *)

Module Syncing.

(** *** Data model *)

(** [UserCode] objects carry the verify key of the user who submitted them. *)
Record UserCode : Type := { user_verify_key : SyftVerifyKey }.

(** The class of a synced object, as far as [isinstance] is asked in
    syncing.py: [UserCode], [Job], or any other class (by name). *)
Inductive ObjectClass : Type :=
| IsUserCode (code : UserCode)
| IsJob
| IsOther (class_name : string).

(** A syncable object: its class and the answer of the capability query
    [_has_private_sync_attrs()]. *)
Record SyncableObject : Type := {
  obj_class : ObjectClass;
  has_private_sync_attrs : bool
}.

Record ObjectDiff : Type := {
  object_id : UID;
  object_type : string;
  status : string;
  low_obj : option SyncableObject;
  high_obj : option SyncableObject
}.

Record ObjectDiffBatch : Type := { diffs : list ObjectDiff }.

Record NodeDiff : Type := { hierarchies : list ObjectDiffBatch }.

(** [ActionPermission] is an enumeration declared in
    service/action/action_permissions.py; syncing.py only ever builds
    [READ]. *)
Inductive ActionPermission : Type := OWNER | READ | WRITE | EXECUTE.

Record ActionObjectPermission : Type := {
  uid : UID;
  permission : ActionPermission;
  credentials : SyftVerifyKey
}.

Record SyncDecision : Type := {
  diff : ObjectDiff;
  decision : string;
  new_permissions_lowside : list ActionObjectPermission;
  mockify : bool
}.

#[global] Instance UserCode_eq_dec : EqDecision UserCode.
Proof. solve_decision. Defined.
#[global] Instance ObjectClass_eq_dec : EqDecision ObjectClass.
Proof. solve_decision. Defined.
#[global] Instance SyncableObject_eq_dec : EqDecision SyncableObject.
Proof. solve_decision. Defined.
#[global] Instance ObjectDiff_eq_dec : EqDecision ObjectDiff.
Proof. solve_decision. Defined.
#[global] Instance ObjectDiffBatch_eq_dec : EqDecision ObjectDiffBatch.
Proof. solve_decision. Defined.
#[global] Instance ActionPermission_eq_dec : EqDecision ActionPermission.
Proof. solve_decision. Defined.
#[global] Instance ActionObjectPermission_eq_dec :
  EqDecision ActionObjectPermission.
Proof. solve_decision. Defined.
#[global] Instance SyncDecision_eq_dec : EqDecision SyncDecision.
Proof. solve_decision. Defined.

(** Modelled from the spec: [ResolvedSyncState] and its method
    [add_sync_decision] live in service/sync/diff_state.py, which lies
    outside the files verified here.  The spec describes it as an
    accumulator, one per side ([alias] is "low" or "high"), holding the
    ordered list of [SyncDecision]s to be applied, append-only via
    [add_sync_decision]. *)
Record ResolvedSyncState : Type := {
  alias : string;
  decisions : list SyncDecision
}.

(** Modelled from the spec: [ResolvedSyncState(alias=...)], the empty
    accumulator of a side. *)
Definition new_ResolvedSyncState (a : string) : ResolvedSyncState :=
  {| alias := a; decisions := [] |}.

(** Modelled from the spec: [add_sync_decision] appends the decision to
    the accumulator; no conflict detection is performed at this layer. *)
Definition add_sync_decision (st : ResolvedSyncState) (sd : SyncDecision)
  : ResolvedSyncState :=
  {| alias := alias st; decisions := decisions st ++ [sd] |}.

(** *** The console *)

(** What one call of [print] writes.  Literal messages are kept as they
    are; formatted messages keep the values they are formatted from. *)
Inductive Printed : Type :=
| Line (s : string)
| BatchRepr (b : ObjectDiffBatch)
| DecisionLine (b : ObjectDiffBatch) (side : string)
| ShareIntro (key : SyftVerifyKey)
| ShareQuestion (objects_str : string)
| ShareConfirmation (obj_type : string) (obj_id : UID) (key : SyftVerifyKey).

(** Standard input is the list of lines still to be read; [input()] on an
    exhausted input raises [EOFError].  Standard output is the list of
    [print] calls made so far. *)
Record Console : Type := {
  stdin : list string;
  stdout : list Printed
}.

Definition print (p : Printed) : M Console unit :=
  modify (fun c => {| stdin := stdin c; stdout := stdout c ++ [p] |}).

(** [str.lower()] on ASCII text. *)
Definition lower_ascii (c : ascii) : ascii :=
  let n := nat_of_ascii c in
  if Nat.leb 65 n && Nat.leb n 90 then ascii_of_nat (n + 32) else c.

Fixpoint lower (s : string) : string :=
  match s with
  | EmptyString => EmptyString
  | String c s' => String (lower_ascii c) (lower s')
  end.

(** ["=" * 100] *)
Definition rule : string := String.concat "" (replicate 100 "=").

(** [list.remove(x)]: drops the first element equal to [x]; raises
    [ValueError] when there is none. *)
Fixpoint list_remove {A} `{EqDecision A} (x : A) (l : list A)
  : option (list A) :=
  match l with
  | [] => None
  | y :: l' =>
      if decide (y = x) then Some l'
      else match list_remove x l' with
           | Some r => Some (y :: r)
           | None => None
           end
  end.

(** *** get_user_input_for_resolve *)

(** The [while True] loop: one iteration per line read. *)
Fixpoint get_user_input_loop (ins : list string) (out : list Printed)
  : (Exception + string) * Console :=
  match ins with
  | [] => (inl EOFError, {| stdin := []; stdout := out |})
  | l :: ins' =>
      let decision := lower l in
      if bool_decide (decision ∈ ["low"; "high"]) then
        (inr decision, {| stdin := ins'; stdout := out |})
      else
        get_user_input_loop ins'
          (out ++ [Line "Please choose between `low` or `high`"])
  end.

Definition get_user_input_for_resolve : M Console string :=
  (print (Line "Do you want to keep the low state or the high state for these objects? choose 'low' or 'high'") ;;;
   fun c => get_user_input_loop (stdin c) (stdout c))%py.

(** *** ask_user_input_permission *)

Definition objects_str (remaining : list ObjectDiff) : string :=
  String.concat (String (ascii_of_nat 10) EmptyString)
    (map (fun d => object_type d +:+ " #" +:+ object_id d) remaining).

(** The prefix test [str(diff.object_id).startswith(res)]. *)
Definition startswith (s res : string) : bool := String.prefix res s.

Definition matches_of (res : string) (remaining : list ObjectDiff)
  : list ObjectDiff :=
  List.filter (fun d => startswith (object_id d) res) remaining.

(** The [while len(remaining_private_high_diffs)] loop.  Its state is the
    pair of lists [remaining] and [to_share]; every iteration prints the
    question and reads one line.  ([sleep(0.1)] has no counterpart.) *)
Fixpoint share_loop (key : SyftVerifyKey)
    (remaining to_share : list ObjectDiff)
    (ins : list string) (out : list Printed)
  : (Exception + list ObjectDiff) * Console :=
  match remaining with
  | [] => (inr to_share, {| stdin := ins; stdout := out |})
  | _ :: _ =>
      let out1 := out ++ [ShareQuestion (objects_str remaining)] in
      match ins with
      | [] => (inl EOFError, {| stdin := []; stdout := out1 |})
      | res :: ins' =>
          if String.eqb res "no" then
            (inr to_share, {| stdin := ins'; stdout := out1 |})
          else if Nat.leb 3 (String.length res) then
            match matches_of res remaining with
            | [] =>
                share_loop key remaining to_share ins'
                  (out1 ++ [Line "Invalid input"])
            | [d] =>
                let out2 :=
                  out1 ++ [Line ""; Line rule; Line "";
                           ShareConfirmation (object_type d) (object_id d) key]
                in
                match list_remove d remaining with
                | None =>
                    (inl (ValueError "list.remove(x): x not in list"),
                     {| stdin := ins'; stdout := out2 |})
                | Some remaining' =>
                    share_loop key remaining' (to_share ++ [d]) ins' out2
                end
            | _ :: _ :: _ =>
                (inr to_share,
                 {| stdin := ins';
                    stdout := out1 ++ [Line "Found multiple matches for provided id, exiting"] |})
            end
          else
            share_loop key remaining to_share ins'
              (out1 ++ [Line "invalid input"])
      end
  end.

Definition ask_user_input_permission (user_code : option UserCode)
    (all_private_high_diffs : list ObjectDiff)
  : M Console (list ObjectDiff) :=
  match all_private_high_diffs with
  | [] => ret []
  | _ :: _ =>
      match user_code with
      | None =>
          raise (AttributeError
                   "'NoneType' object has no attribute 'user_verify_key'")
      | Some code =>
          let key := user_verify_key code in
          (print (ShareIntro key) ;;;
           fun c => share_loop key all_private_high_diffs [] (stdin c) (stdout c))%py
      end
  end.

(** *** get_sync_decisions_for_batch_items *)

Definition lift {S A} (r : Exception + A) : M S A := fun s => (r, s).

(** [diff.high_obj is not None and diff.high_obj._has_private_sync_attrs()] *)
Definition is_private_high (d : ObjectDiff) : bool :=
  match high_obj d with
  | Some o => has_private_sync_attrs o
  | None => false
  end.

Definition unpublished_private_high_diffs (batch_diff : ObjectDiffBatch)
  : list ObjectDiff :=
  List.filter is_private_high (diffs batch_diff).

(** [diff.high_obj] when [isinstance(diff.high_obj, UserCode)]. *)
Definition high_user_code (d : ObjectDiff) : option UserCode :=
  match high_obj d with
  | Some o =>
      match obj_class o with
      | IsUserCode code => Some code
      | _ => None
      end
  | None => None
  end.

Definition user_codes_high (batch_diff : ObjectDiffBatch) : list UserCode :=
  omap high_user_code (diffs batch_diff).

(** [isinstance(diff.high_obj, Job)] *)
Definition high_is_job (d : ObjectDiff) : bool :=
  match high_obj d with
  | Some o =>
      match obj_class o with
      | IsJob => true
      | _ => false
      end
  | None => false
  end.

Definition read_permission (d : ObjectDiff) (code : UserCode)
  : ActionObjectPermission :=
  {| uid := object_id d;
     permission := READ;
     credentials := user_verify_key code |}.

(** The body of the second [for diff in batch_diff.diffs] loop: the
    [SyncDecision] appended for [d], or the exception raised.  The two
    [diff in ...] tests compare diffs field by field. *)
Definition decide_diff (user_code_high : option UserCode)
    (unpublished to_share : list ObjectDiff) (side : string) (d : ObjectDiff)
  : Exception + SyncDecision :=
  let is_unpublished_private_diff := bool_decide (d ∈ unpublished) in
  let has_share_decision := bool_decide (d ∈ to_share) in
  let mk perms m :=
    {| diff := d; decision := side;
       new_permissions_lowside := perms; mockify := m |} in
  if high_is_job d then
    match user_code_high with
    | None => inl (ValueError "Job without user code")
    | Some code => inr (mk [read_permission d code] false)
    end
  else if is_unpublished_private_diff && has_share_decision then
    match user_code_high with
    | None =>
        inl (AttributeError
               "'NoneType' object has no attribute 'user_verify_key'")
    | Some code => inr (mk [read_permission d code] false)
    end
  else if is_unpublished_private_diff && negb has_share_decision then
    inr (mk [] true)
  else
    inr (mk [] false).

(** The loop itself, appending to [sync_decisions]. *)
Fixpoint decisions_loop (user_code_high : option UserCode)
    (unpublished to_share : list ObjectDiff) (side : string)
    (ds : list ObjectDiff) (sync_decisions : list SyncDecision)
  : Exception + list SyncDecision :=
  match ds with
  | [] => inr sync_decisions
  | d :: rest =>
      match decide_diff user_code_high unpublished to_share side d with
      | inl e => inl e
      | inr sd =>
          decisions_loop user_code_high unpublished to_share side rest
            (sync_decisions ++ [sd])
      end
  end.

(** The statement that chooses [private_high_diffs_to_share]. *)
Definition private_high_diffs_to_share (share_private_objects : bool)
    (user_code_high : option UserCode) (unpublished : list ObjectDiff)
  : M Console (list ObjectDiff) :=
  if share_private_objects then ret unpublished
  else ask_user_input_permission user_code_high unpublished.

Definition get_sync_decisions_for_batch_items (batch_diff : ObjectDiffBatch)
    (side : string) (share_private_objects : bool)
  : M Console (list SyncDecision) :=
  let unpublished := unpublished_private_high_diffs batch_diff in
  let codes := user_codes_high batch_diff in
  if Nat.ltb 1 (length codes) then
    raise (ValueError "too many user codes")
  else
    let user_code_high := head codes in
    if bool_decide (user_code_high = None)
       && negb (Nat.eqb (length unpublished) 0) then
      raise (ValueError "Found unpublished private objects without user code")
    else
      (to_share <- private_high_diffs_to_share share_private_objects
                     user_code_high unpublished ;;
       lift (decisions_loop user_code_high unpublished to_share side
               (diffs batch_diff) []))%py.

(** *** resolve *)

(** [all(diff.status == "SAME" for diff in batch_diff.diffs)] *)
Definition all_same (batch_diff : ObjectDiffBatch) : bool :=
  forallb (fun d => String.eqb (status d) "SAME") (diffs batch_diff).

(** The inner [for sync_decision in sync_decisions] loop. *)
Definition add_all (st : ResolvedSyncState) (sds : list SyncDecision)
  : ResolvedSyncState :=
  fold_left add_sync_decision sds st.

(** The [for batch_diff in state.hierarchies] loop. *)
Fixpoint resolve_loop (hs : list ObjectDiffBatch) (given : option string)
    (share_private_objects : bool)
    (resolved_state_low resolved_state_high : ResolvedSyncState)
  : M Console (ResolvedSyncState * ResolvedSyncState) :=
  match hs with
  | [] => ret (resolved_state_low, resolved_state_high)
  | batch_diff :: rest =>
      if all_same batch_diff then
        resolve_loop rest given share_private_objects
          resolved_state_low resolved_state_high
      else
        (print (BatchRepr batch_diff) ;;;
         batch_decision <- match given with
                           | Some side => ret side
                           | None => get_user_input_for_resolve
                           end ;;
         sync_decisions <- get_sync_decisions_for_batch_items batch_diff
                             batch_decision share_private_objects ;;
         print (DecisionLine batch_diff batch_decision) ;;;
         print (Line "") ;;;
         print (Line rule) ;;;
         print (Line "") ;;;
         resolve_loop rest given share_private_objects
           (add_all resolved_state_low sync_decisions)
           (add_all resolved_state_high sync_decisions))%py
  end.

Definition resolve (state : NodeDiff) (given : option string)
    (share_private_objects : bool)
  : M Console (ResolvedSyncState * ResolvedSyncState) :=
  resolve_loop (hierarchies state) given share_private_objects
    (new_ResolvedSyncState "low") (new_ResolvedSyncState "high").

(** *** The governing object *)

(** The governing object of a batch, in the words of the specification: the
    one [UserCode] among the high-side objects of the batch.  [code] is the
    high-side object of a diff of the batch, and no diff at another
    position has a [UserCode] as its high-side object. *)
Definition governing_code (batch_diff : ObjectDiffBatch) (code : UserCode)
  : Prop :=
  exists i d o,
    diffs batch_diff !! i = Some d /\
    high_obj d = Some o /\
    obj_class o = IsUserCode code /\
    forall j d' o' code',
      diffs batch_diff !! j = Some d' ->
      high_obj d' = Some o' ->
      obj_class o' = IsUserCode code' ->
      j = i.

End Syncing.

(** ** syft/service/project/project_service.py *)

Module ProjectService.

(** *** syft.types.result *)

(** The value a method decorated with [as_result] returns. *)
Inductive Result (A : Type) : Type :=
| Ok (value : A)
| Err (error : Exception).
Arguments Ok {A} value.
Arguments Err {A} error.

(** [isinstance(e, SyftException)]: [NotFoundException] and the stash
    errors derive from [SyftException]. *)
Definition isinstance_SyftException (e : Exception) : bool :=
  match e with
  | SyftException _ | NotFoundException _ => true
  | _ => false
  end.

(** Modelled from the spec: the decorator [as_result] and the method
    [Result.unwrap] are defined in syft/types/result.py, which lies outside
    the files verified here, and the spec does not describe them.  The
    model follows their use in project_service.py: a decorated method whose
    body returns [None] or raises hands its callers an object on which they
    call [.unwrap(...)], [.is_err()], [.ok()] and [.err()]; so a [raise] of
    a listed exception class inside the body ends the body and becomes the
    value [Err], a normal return becomes [Ok], and nothing is raised to the
    caller until the caller unwraps.  The writes made by the body before
    the [raise] stay. *)
Definition as_result {S A} (catches : Exception -> bool) (body : M S A)
  : M S (Result A) :=
  fun s =>
    match body s with
    | (inr a, s') => (inr (Ok a), s')
    | (inl e, s') => if catches e then (inr (Err e), s') else (inl e, s')
    end.

(** Modelled from the spec: [Result.unwrap(public_message=...)], from the
    same module and on the same grounds, returns the value of an [Ok] and
    raises the error of an [Err]; a given [public_message] replaces the one
    of a [SyftException]. *)
Definition with_public_message (e : Exception) (msg : option string)
  : Exception :=
  match msg, e with
  | Some m, SyftException _ => SyftException m
  | Some m, NotFoundException _ => NotFoundException m
  | _, _ => e
  end.

(** Modelled from the spec: see [with_public_message]. *)
Definition unwrap {S A} (r : Result A) (public_message : option string)
  : M S A :=
  match r with
  | Ok a => ret a
  | Err e => raise (with_public_message e public_message)
  end.

(** *** Data model *)

(** Modelled from the spec: [ServerIdentity], the class of
    [project.state_sync_leader] and of the elements of [project.members],
    lies outside the files verified here, and the spec speaks of it only
    as the identity of a member.  The record holds what the service reads
    of it with success, the verify key.  The class names a server by
    [server_name] and [server_id]; it has no attribute [name]. *)
Record ServerIdentity : Type := {
  verify_key : SyftVerifyKey
}.

(** The variants of [ProjectEvent] that the service tells apart:
    [ProjectRequest], with [linked_request.server_uid], and the others. *)
Inductive EventClass : Type :=
| ProjectRequest (linked_request_server_uid : UID)
| OtherEvent (class_name : string).

Record ProjectEvent : Type := {
  event_id : UID;
  event_project_id : UID;
  seq_no : option Z;
  event_class : EventClass
}.

Record Project : Type := {
  project_id : UID;
  project_name : string;
  state_sync_leader : ServerIdentity;
  members : list ServerIdentity;
  events : list ProjectEvent;
  event_id_hashmap : gmap UID ProjectEvent
}.

Record Server : Type := {
  server_id : UID;
  server_verify_key : SyftVerifyKey
}.

Record AuthedServiceContext : Type := {
  credentials : SyftVerifyKey;
  server : Server
}.

Record LinkedObject : Type := {
  linked_object_uid : UID;
  linked_server_uid : UID
}.

Record CreateNotification : Type := {
  subject : string;
  from_user_verify_key : SyftVerifyKey;
  to_user_verify_key : SyftVerifyKey;
  linked_obj : LinkedObject
}.

Record ServerPeer : Type := { peer_id : UID }.

(** What [NotificationService.send] hands back when it returns: a
    [SyftError] or anything else. *)
Inductive Response : Type :=
| SyftError (message : string)
| Sent.

Record SyftSuccess : Type := {
  message : string;
  value : Project
}.

#[global] Instance ServerIdentity_eq_dec : EqDecision ServerIdentity.
Proof. solve_decision. Defined.
#[global] Instance EventClass_eq_dec : EqDecision EventClass.
Proof. solve_decision. Defined.
#[global] Instance ProjectEvent_eq_dec : EqDecision ProjectEvent.
Proof. solve_decision. Defined.

(** The collaborators the service reaches through the context and the
    project, none of which is defined in the files verified here: the
    permission predicate of a project, the printed form of an event, the
    peer table of the network service, the opening of a remote session, and
    the notification service, which returns a response or raises. *)
Record Collaborators : Type := {
  has_permission : Project -> SyftVerifyKey -> bool;
  repr : ProjectEvent -> string;
  network_get_by_verify_key : SyftVerifyKey -> SyftVerifyKey -> Result ServerPeer;
  client_with_context : ServerPeer -> AuthedServiceContext -> Result unit;
  notification_send : AuthedServiceContext -> CreateNotification -> Exception + Response
}.

(** The state the service works on: the projects in the stash, and the
    traces of the two outgoing effects, notifications handed to the
    notification service and [add_event] calls made on remote peers. *)
Record World : Type := {
  stash : gmap UID Project;
  notifications : list CreateNotification;
  remote_add_events : list (UID * ProjectEvent)
}.

(** Modelled from the spec: [ProjectStash] (project_stash.py) lies outside
    the files verified here.  The spec gives its contract as
    [get_by_uid(credentials, uid) -> Project | NotFound] and
    [update(credentials, project) -> Project | Error]: a key-value store of
    projects by id.  A project fetched is a copy; only [update] writes. *)
Definition stash_get_by_uid (creds : SyftVerifyKey) (u : UID)
  : M World (Result Project) :=
  fun w =>
    match stash w !! u with
    | Some p => (inr (Ok p), w)
    | None => (inr (Err (NotFoundException "Project not found")), w)
    end.

(** Modelled from the spec: [ProjectStash.update], the writing half of the
    contract above; it fails when no project is stored under the id. *)
Definition stash_update (creds : SyftVerifyKey) (p : Project)
  : M World (Result Project) :=
  fun w =>
    match stash w !! project_id p with
    | Some _ =>
        (inr (Ok p),
         {| stash := <[project_id p := p]> (stash w);
            notifications := notifications w;
            remote_add_events := remote_add_events w |})
    | None => (inr (Err (NotFoundException "Project not found")), w)
    end.

Section Service.

Variable svc : Collaborators.

(** *** The validators *)

Definition validate_project_leader {S} (context : AuthedServiceContext)
    (project : Project) : M S (Result unit) :=
  as_result isinstance_SyftException
    (if bool_decide (verify_key (state_sync_leader project)
                     <> server_verify_key (server context))
     then raise (SyftException "Only the project leader can do this operation")
     else ret tt).

Definition validate_user_permission_for_project {S}
    (context : AuthedServiceContext) (project : Project)
  : M S (Result unit) :=
  as_result isinstance_SyftException
    (if negb (has_permission svc project (credentials context))
     then raise (SyftException "User does not have permission to sync events")
     else ret tt).

(** [len(project.events)] *)
Definition len_events (project : Project) : Z :=
  Z.of_nat (length (events project)).

Definition validate_project_event_seq {S} (project_event : ProjectEvent)
    (project : Project) : M S (Result unit) :=
  as_result isinstance_SyftException
    (match seq_no project_event with
     | None =>
         raise (SyftException (repr svc project_event +:+ ".seq_no is None"))
     | Some n =>
         if (n <=? len_events project)%Z && (0 <? len_events project)%Z then
           raise (SyftException "Project events are out of sync")
         else if (len_events project + 1 <? n)%Z then
           raise (SyftException "Project events are out of order!")
         else ret tt
     end).

Definition is_project_leader (context : AuthedServiceContext)
    (project : Project) : bool :=
  bool_decide (credentials context = verify_key (state_sync_leader project)).

(** *** check_for_project_request *)

(** [method(context=context, notification=message)]: the notification is
    handed to the notification service, whose answer is taken from the
    collaborators. *)
Definition send_notification (context : AuthedServiceContext)
    (n : CreateNotification) : M World Response :=
  fun w =>
    (notification_send svc context n,
     {| stash := stash w;
        notifications := notifications w ++ [n];
        remote_add_events := remote_add_events w |}).

(** Modelled from the spec: the constructor of [SyftException] is defined
    in syft/types/errors.py, outside the files verified here, and the spec
    does not describe it.  It takes a string as [public_message]; in
    [SyftException(public_message=result)] it is handed the [SyftError]
    object, and what the expression raises is the [TypeError] of the
    constructor, not a [SyftException]. *)
Definition SyftException_of_response (result : Response) : Exception :=
  TypeError "public message should be a string".

(** The decorator catches [SyftException] only: not what the body raises
    on a [SyftError] answer, but a [SyftException] that the notification
    service itself raises. *)
Definition check_for_project_request (project : Project)
    (project_event : ProjectEvent) (context : AuthedServiceContext)
  : M World (Result unit) :=
  as_result isinstance_SyftException
    (match event_class project_event with
     | ProjectRequest linked_request_server_uid =>
         if bool_decide (linked_request_server_uid = server_id (server context))
         then
           let link :=
             {| linked_object_uid := project_id project;
                linked_server_uid := server_id (server context) |} in
           let message :=
             {| subject := "A new request has been added to the project "
                           +:+ project_name project;
                from_user_verify_key := credentials context;
                to_user_verify_key := server_verify_key (server context);
                linked_obj := link |} in
           (result <- send_notification context message ;;
            match result with
            | SyftError _ => raise (SyftException_of_response result)
            | Sent => ret tt
            end)%py
         else ret tt
     | OtherEvent _ => ret tt
     end).

(** [project.events.append(project_event)] followed by
    [project.event_id_hashmap[project_event.id] = project_event]. *)
Definition append_event (project : Project) (project_event : ProjectEvent)
  : Project :=
  {| project_id := project_id project;
     project_name := project_name project;
     state_sync_leader := state_sync_leader project;
     members := members project;
     events := events project ++ [project_event];
     event_id_hashmap :=
       <[event_id project_event := project_event]> (event_id_hashmap project) |}.

(** *** add_event *)

(** The argument is a [ProjectEvent] by its type, so the [isinstance] test
    that opens the Python method always passes. *)
Definition add_event (context : AuthedServiceContext)
    (project_event : ProjectEvent) : M World SyftSuccess :=
  (found <- stash_get_by_uid (server_verify_key (server context))
              (event_project_id project_event) ;;
   project <- unwrap found None ;;
   checked <- validate_project_leader context project ;;
   unwrap checked
     (Some "Project Events should be passed to leader by broadcast endpoint") ;;;
   if negb (is_project_leader context project) then
     raise (SyftException "Only the leader of the project can add events")
   else
     let project := append_event project project_event in
     (check_for_project_request project project_event context ;;;
      updated <- stash_update (server_verify_key (server context)) project ;;
      updated_project <- unwrap updated None ;;
      ret {| message := "Project event " +:+ event_id project_event
                        +:+ " added successfully";
             value := updated_project |}))%py.

(** *** broadcast_event *)

Definition str_exception (e : Exception) : string :=
  match e with
  | ValueError m | AttributeError m | TypeError m | SyftException m
  | NotFoundException m => m
  | EOFError => ""
  end.

(** [remote_client.api.services.project.add_event(project_event)]: the call
    made on the peer is recorded; what the peer answers is not looked at. *)
Definition remote_add_event (peer : ServerPeer) (project_event : ProjectEvent)
  : M World unit :=
  modify (fun w =>
    {| stash := stash w;
       notifications := notifications w;
       remote_add_events := remote_add_events w ++ [(peer_id peer, project_event)] |}).

(** The [for member in project.members] loop.  For a member without peer
    the message of the [SyftException] is built first, and its f-string
    reads [member.name], which a [ServerIdentity] does not have: the
    [AttributeError] of that access is what the branch raises. *)
Fixpoint broadcast_loop (context : AuthedServiceContext)
    (project_event : ProjectEvent) (ms : list ServerIdentity)
  : M World unit :=
  match ms with
  | [] => ret tt
  | member :: rest =>
      if bool_decide (verify_key member <> server_verify_key (server context))
      then
        match network_get_by_verify_key svc
                (server_verify_key (server context)) (verify_key member) with
        | Err _ =>
            raise (AttributeError
                     "'ServerIdentity' object has no attribute 'name'")
        | Ok peer =>
            match client_with_context svc peer context with
            | Err e =>
                raise (SyftException
                         ("Failed to create remote client for peer: "
                          +:+ peer_id peer +:+ ". Error: "
                          +:+ str_exception e))
            | Ok _ =>
                (remote_add_event peer project_event ;;;
                 broadcast_loop context project_event rest)%py
            end
        end
      else broadcast_loop context project_event rest
  end.

Definition str_seq_no (n : option Z) : string :=
  match n with
  | Some z => pretty z
  | None => "None"
  end.

Definition broadcast_event (context : AuthedServiceContext)
    (project_event : ProjectEvent) : M World SyftSuccess :=
  (found <- stash_get_by_uid (server_verify_key (server context))
              (event_project_id project_event) ;;
   project <- unwrap found None ;;
   checked <- validate_project_leader context project ;;
   unwrap checked
     (Some "Only the leader of the project can broadcast events") ;;;
   validate_user_permission_for_project context project ;;;
   in_sequence <- validate_project_event_seq project_event project ;;
   unwrap in_sequence None ;;;
   let project := append_event project project_event in
   (check_for_project_request project project_event context ;;;
    broadcast_loop context project_event (members project) ;;;
    updated <- stash_update (server_verify_key (server context)) project ;;
    updated_project <- unwrap updated None ;;
    ret {| message := "Event #" +:+ str_seq_no (seq_no project_event)
                      +:+ " of " +:+ project_name project
                      +:+ " broadcasted successfully";
           value := updated_project |}))%py.

(** *** sync *)

(** [project.events[seq_no:]] for a [seq_no] that is not negative. *)
Definition events_from (project : Project) (seq_no : Z) : list ProjectEvent :=
  drop (Z.to_nat seq_no) (events project).

Definition sync (context : AuthedServiceContext) (project_uid : UID)
    (seq_no : Z) : M World (list ProjectEvent) :=
  if (seq_no <? 0)%Z then
    raise (SyftException "Input seq_no should be a non negative integer")
  else
    (found <- stash_get_by_uid (server_verify_key (server context)) project_uid ;;
     project <- unwrap found None ;;
     validate_project_leader context project ;;;
     validate_user_permission_for_project context project ;;;
     ret (events_from project seq_no))%py.

End Service.

End ProjectService.

(** ** Concrete inputs *)

Module SyncingExamples.
Import Syncing.

Definition code_alice : UserCode := {| user_verify_key := "key-alice" |}.
Definition code_bob : UserCode := {| user_verify_key := "key-bob" |}.

Definition mk_diff (i t st : string) (cls : ObjectClass) (private : bool)
  : ObjectDiff :=
  {| object_id := i; object_type := t; status := st;
     low_obj := None;
     high_obj := Some {| obj_class := cls; has_private_sync_attrs := private |} |}.

Definition d_code : ObjectDiff :=
  mk_diff "c0de0001" "UserCode" "NEW" (IsUserCode code_alice) false.
Definition d_code_bob : ObjectDiff :=
  mk_diff "c0de0002" "UserCode" "NEW" (IsUserCode code_bob) false.
Definition d_job : ObjectDiff := mk_diff "70b00001" "Job" "NEW" IsJob false.
Definition d_result : ObjectDiff :=
  mk_diff "abc10001" "ActionObject" "NEW" (IsOther "ActionObject") true.
Definition d_log : ObjectDiff :=
  mk_diff "abc20002" "SyftLog" "NEW" (IsOther "SyftLog") true.
Definition d_same : ObjectDiff :=
  mk_diff "5a5e0001" "Request" "SAME" (IsOther "Request") false.
(** A private result that is the same on both sides. *)
Definition d_result_same : ObjectDiff :=
  mk_diff "abc30003" "ActionObject" "SAME" (IsOther "ActionObject") true.

(** A result that depends on a job that depends on approved code. *)
Definition batch_run : ObjectDiffBatch :=
  {| diffs := [d_result; d_job; d_code] |}.
(** The same with a private log next to the result. *)
Definition batch_run_log : ObjectDiffBatch :=
  {| diffs := [d_result; d_log; d_job; d_code] |}.
Definition batch_two_codes : ObjectDiffBatch :=
  {| diffs := [d_code; d_code_bob] |}.
Definition batch_ungoverned : ObjectDiffBatch :=
  {| diffs := [d_result] |}.
Definition batch_same : ObjectDiffBatch :=
  {| diffs := [d_same; d_same] |}.
(** A private result without user code, in a batch without differences. *)
Definition batch_ungoverned_same : ObjectDiffBatch :=
  {| diffs := [d_result_same] |}.

Definition console (lines : list string) : Console :=
  {| stdin := lines; stdout := [] |}.

End SyncingExamples.

Module ProjectExamples.
Import ProjectService.

Definition leader : ServerIdentity := {| verify_key := "key-leader" |}.
Definition follower : ServerIdentity := {| verify_key := "key-follower" |}.

Definition leader_server : Server :=
  {| server_id := "1eade700"; server_verify_key := "key-leader" |}.
Definition follower_server : Server :=
  {| server_id := "f0110e00"; server_verify_key := "key-follower" |}.

(** The leader's node acting for itself, and the follower's node acting for
    itself. *)
Definition ctx_leader : AuthedServiceContext :=
  {| credentials := "key-leader"; server := leader_server |}.
Definition ctx_follower : AuthedServiceContext :=
  {| credentials := "key-follower"; server := follower_server |}.
(** The leader's node serving a user who is not the leader. *)
Definition ctx_mallory : AuthedServiceContext :=
  {| credentials := "key-mallory"; server := leader_server |}.

Definition event (i : UID) (n : Z) (cls : EventClass) : ProjectEvent :=
  {| event_id := i; event_project_id := "p0000001"; seq_no := Some n;
     event_class := cls |}.

Definition e0 : ProjectEvent := event "e0000000" 0 (OtherEvent "ProjectMessage").
Definition e1 : ProjectEvent := event "e0000001" 1 (OtherEvent "ProjectMessage").
Definition e2 : ProjectEvent := event "e0000002" 2 (OtherEvent "ProjectMessage").
(** A request addressed to the leader's node. *)
Definition e_request : ProjectEvent :=
  event "e0000003" 2 (ProjectRequest "1eade700").

Definition project_with (evs : list ProjectEvent) : Project :=
  {| project_id := "p0000001"; project_name := "demo";
     state_sync_leader := leader; members := [leader; follower];
     events := evs;
     event_id_hashmap := list_to_map (map (fun ev => (event_id ev, ev)) evs) |}.

Definition world_with (evs : list ProjectEvent) : World :=
  {| stash := {[ "p0000001" := project_with evs ]};
     notifications := []; remote_add_events := [] |}.

(** Collaborators: whether the project grants permission, and what the
    notification service answers. *)
Definition services (permits : bool) (answer : Exception + Response)
  : Collaborators :=
  {| has_permission := fun _ _ => permits;
     repr := fun ev => "ProjectEvent(" +:+ event_id ev +:+ ")";
     network_get_by_verify_key := fun _ key =>
       if decide (key = "key-follower") then Ok {| peer_id := "f0110e00" |}
       else Err (NotFoundException "no such peer");
     client_with_context := fun _ _ => Ok tt;
     notification_send := fun _ _ => answer |}.

End ProjectExamples.

(** ** project_service.py: the queries *)

Module ProjectQueries.
Import ProjectService.

Definition SyftSigningKey : Type := string.

(** What the service reads of a user. *)
Record User : Type := { signing_key : SyftSigningKey }.

(** The project with the attribute [user_signing_key] that
    [add_signing_key_to_project] sets on it. *)
Record SignedProject : Type := {
  signed : Project;
  user_signing_key : SyftSigningKey
}.

Record ProjectSubmit : Type := { submit_id : UID }.

(** The collaborators of the queries, none of which is defined in the files
    verified here: the lookup of a user by verify key in the stash of the
    user service, and the two listing operations of the project stash,
    which answer from the state for the credentials they are given. *)
Record Directory : Type := {
  user_get_by_verify_key : SyftVerifyKey -> SyftVerifyKey -> Result User;
  stash_get_all : SyftVerifyKey -> World -> Result (list Project);
  stash_get_by_name : SyftVerifyKey -> string -> World -> Result Project
}.

Section Queries.

Variable dir : Directory.

(** [isinstance(e, StashException)]: the class is a subclass of
    [SyftException] that none of the exceptions raised here belongs to. *)
Definition isinstance_StashException (e : Exception) : bool := false.

(** [project_exists], decorated with [as_result(StashException)]: the
    [try] turns a [NotFoundException] into [False]. *)
Definition project_exists (context : AuthedServiceContext)
    (project : ProjectSubmit) : M World (Result bool) :=
  as_result isinstance_StashException
    (found <- stash_get_by_uid (server_verify_key (server context))
                (submit_id project) ;;
     match found with
     | Ok _ => ret true
     | Err (NotFoundException _) => ret false
     | Err e => raise e
     end)%py.

(** [add_signing_key_to_project] is not decorated: the [as_result(...)]
    that precedes it in the file is a statement of its own.  Only a
    [NotFoundException] of the lookup is caught and raised anew. *)
Definition add_signing_key_to_project (context : AuthedServiceContext)
    (project : Project) : M World SignedProject :=
  match user_get_by_verify_key dir (credentials context)
          (credentials context) with
  | Ok user =>
      ret {| signed := project; user_signing_key := signing_key user |}
  | Err (NotFoundException _) =>
      raise (NotFoundException
               "User not found! Please register the user first")
  | Err e => raise e
  end.

(** The [for idx, project in enumerate(projects)] loop of [get_all]. *)
Fixpoint add_signing_keys (context : AuthedServiceContext)
    (projects : list Project) : M World (list SignedProject) :=
  match projects with
  | [] => ret []
  | project :: rest =>
      (first <- add_signing_key_to_project context project ;;
       others <- add_signing_keys context rest ;;
       ret (first :: others))%py
  end.

Definition get_all (context : AuthedServiceContext)
  : M World (list SignedProject) :=
  (projects <- (fun w => unwrap (stash_get_all dir (credentials context) w)
                           None w) ;;
   add_signing_keys context projects)%py.

(** The message of [get_by_name] is not an f-string: the braces and the
    word between them are part of the text. *)
Definition get_by_name (context : AuthedServiceContext) (name : string)
  : M World SignedProject :=
  (project <- (fun w =>
                 match stash_get_by_name dir (credentials context) name w with
                 | Ok project => ret project w
                 | Err (NotFoundException _) =>
                     raise (NotFoundException
                              "Project '{name}' does not exist") w
                 | Err e => raise e w
                 end) ;;
   add_signing_key_to_project context project)%py.

Definition get_by_uid (context : AuthedServiceContext) (uid : UID)
  : M World Project :=
  (found <- stash_get_by_uid (server_verify_key (server context)) uid ;;
   match found with
   | Ok project => ret project
   | Err (NotFoundException _) =>
       raise (NotFoundException ("Project " +:+ uid +:+ " not found"))
   | Err e => raise e
   end)%py.

End Queries.

End ProjectQueries.

(** ** service/user/user_service.py: _paginate *)

Module UserService.

(** The one exception [_paginate] can raise. *)
Inductive IndexError : Type := index_out_of_range.

(** [bool(page_size)]: neither [None] nor 0. *)
Definition truthy (n : option Z) : bool :=
  match n with
  | Some z => negb (z =? 0)%Z
  | None => false
  end.

(** [range(0, stop, step)] for a [stop] that is not negative and a [step]
    that is not 0: the multiples of a positive [step] below [stop], and
    nothing for a negative [step]. *)
Definition py_range (stop step : Z) : list Z :=
  if (0 <? step)%Z then
    map (fun k => (Z.of_nat k * step)%Z)
      (seq 0 (Z.to_nat ((stop + step - 1) / step)))
  else [].

(** [l[i : j]] for [0 <= i]. *)
Definition py_slice {A} (l : list A) (i j : Z) : list A :=
  take (Z.to_nat (j - i)) (drop (Z.to_nat i) l).

(** [l[k]]: a negative [k] counts from the end. *)
Definition py_getitem {A} (l : list A) (k : Z) : IndexError + A :=
  let n := Z.of_nat (length l) in
  let k' := if (k <? 0)%Z then (k + n)%Z else k in
  if (0 <=? k')%Z && (k' <? n)%Z then
    match l !! Z.to_nat k' with
    | Some x => inr x
    | None => inl index_out_of_range
    end
  else inl index_out_of_range.

Definition _paginate {A} (list_objs : list A) (page_size page_index : option Z)
  : IndexError + list A :=
  if truthy page_size then
    let size := default 0%Z page_size in
    let _list_objs :=
      map (fun i => py_slice list_objs i (i + size))
        (py_range (Z.of_nat (length list_objs)) size) in
    match page_index with
    | Some index => py_getitem _list_objs index
    | None => py_getitem _list_objs 0
    end
  else inr list_objs.

End UserService.

(** ** Running a computation step by step *)

Lemma bind_ret {S A B} (a : A) (k : A -> M S B) (s : S) :
  bind (ret a) k s = k a s.
Proof. reflexivity. Qed.

Lemma bind_value {S A B} (m : M S A) (k : A -> M S B) (s s' : S) (a : A) :
  m s = (inr a, s') -> bind m k s = k a s'.
Proof. intros Hm. unfold bind. by rewrite Hm. Qed.

Lemma bind_raise {S A B} (m : M S A) (k : A -> M S B) (s s' : S)
    (e : Exception) :
  m s = (inl e, s') -> bind m k s = (inl e, s').
Proof. intros Hm. unfold bind. by rewrite Hm. Qed.

Lemma bind_modify {S B} (f : S -> S) (k : unit -> M S B) (s : S) :
  bind (modify f) k s = k tt (f s).
Proof. reflexivity. Qed.

(** ** Properties of syncing.py *)

Module SyncingProofs.
Import Syncing.

(** *** The decision loop *)

(** The loop appends to [sync_decisions] one decision per diff, in order,
    each the outcome of the loop body on that diff. *)
Lemma decisions_loop_Forall2 code unpublished to_share side ds acc sds :
  decisions_loop code unpublished to_share side ds acc = inr sds ->
  exists new,
    sds = acc ++ new /\
    Forall2 (fun d sd => decide_diff code unpublished to_share side d = inr sd)
      ds new.
Proof.
  revert acc. induction ds as [|d ds IH]; intros acc Hloop; simpl in Hloop.
  - exists []. split; [|constructor]. rewrite app_nil_r. congruence.
  - destruct (decide_diff code unpublished to_share side d) as [e|sd] eqn:Hd;
      [discriminate|].
    apply IH in Hloop as (new & -> & Hall).
    exists (sd :: new). split.
    + by rewrite <- app_assoc.
    + by constructor.
Qed.

(** The loop fails as soon as its body fails on one diff. *)
Lemma decisions_loop_total code unpublished to_share side ds acc :
  Forall (fun d => is_ok (decide_diff code unpublished to_share side d) = true) ds ->
  is_ok (decisions_loop code unpublished to_share side ds acc) = true.
Proof.
  revert acc. induction ds as [|d ds IH]; intros acc Hall; simpl; [done|].
  inversion Hall as [|? ? Hd Hds]; subst.
  destruct (decide_diff code unpublished to_share side d); [done|].
  by apply IH.
Qed.

(** Every decision the body builds is for the diff it was given and carries
    the side it was given. *)
Lemma decide_diff_diff_side code unpublished to_share side d sd :
  decide_diff code unpublished to_share side d = inr sd ->
  diff sd = d /\ decision sd = side.
Proof.
  unfold decide_diff. intros H.
  repeat (match type of H with
          | context [if ?b then _ else _] => destruct b
          | context [match ?c with Some _ => _ | None => _ end] => destruct c
          end; try discriminate);
    injection H as <-; done.
Qed.

(** What a successful call went through: at most one user code, a governing
    code whenever something is private, the choice of what to share, and the
    loop body on every diff. *)
Lemma get_sync_decisions_inv batch side share c sds c' :
  get_sync_decisions_for_batch_items batch side share c = (inr sds, c') ->
  length (user_codes_high batch) <= 1 /\
  (head (user_codes_high batch) = None ->
   unpublished_private_high_diffs batch = []) /\
  exists to_share,
    private_high_diffs_to_share share (head (user_codes_high batch))
      (unpublished_private_high_diffs batch) c = (inr to_share, c') /\
    Forall2
      (fun d sd =>
         decide_diff (head (user_codes_high batch))
           (unpublished_private_high_diffs batch) to_share side d = inr sd)
      (diffs batch) sds.
Proof.
  unfold get_sync_decisions_for_batch_items. intros H.
  destruct (Nat.ltb 1 (length (user_codes_high batch))) eqn:Hlen;
    [discriminate|].
  apply Nat.ltb_ge in Hlen. split; [done|].
  destruct (bool_decide (head (user_codes_high batch) = None)
            && negb (Nat.eqb (length (unpublished_private_high_diffs batch)) 0))
    eqn:Hgov; [discriminate|].
  split.
  - intros Hnone. rewrite bool_decide_eq_true_2 in Hgov by done.
    simpl in Hgov. apply negb_false_iff, Nat.eqb_eq in Hgov.
    by apply length_zero_iff_nil.
  - unfold bind in H.
    destruct (private_high_diffs_to_share share (head (user_codes_high batch))
                (unpublished_private_high_diffs batch) c)
      as [[e|to_share] c1] eqn:Hshare; [discriminate|].
    unfold lift in H. injection H as Hloop <-.
    exists to_share. split; [done|].
    apply decisions_loop_Forall2 in Hloop as (new & -> & Hall).
    done.
Qed.

(** With one user code in the batch and everything shared, the call returns
    and reads and prints nothing. *)
Lemma get_sync_decisions_succeeds batch side code c :
  user_codes_high batch = [code] ->
  exists sds,
    get_sync_decisions_for_batch_items batch side true c = (inr sds, c).
Proof.
  intros Hcode. unfold get_sync_decisions_for_batch_items.
  rewrite Hcode. simpl. rewrite bind_ret. unfold lift.
  pose proof (decisions_loop_total (Some code)
                (unpublished_private_high_diffs batch)
                (unpublished_private_high_diffs batch) side (diffs batch) [])
    as Htotal.
  destruct (decisions_loop _ _ _ _ _ _) as [e|sds].
  - exfalso. enough (false = true) by done. apply Htotal.
    apply Forall_forall. intros d _. unfold decide_diff.
    by repeat (match goal with
               | |- context [if ?b then _ else _] => destruct b
               end).
  - by eexists.
Qed.

(** Membership in the list of unpublished private diffs. *)
Lemma elem_of_unpublished batch d :
  d ∈ unpublished_private_high_diffs batch <->
  d ∈ diffs batch /\ is_private_high d = true.
Proof.
  unfold unpublished_private_high_diffs.
  rewrite !list_elem_of_In. apply filter_In.
Qed.

(** With at most one user code in the batch, the governing code is the only
    one. *)
Lemma head_singleton {A} (l : list A) (x : A) :
  length l <= 1 -> head l = Some x -> l = [x].
Proof.
  destruct l as [|y [|z l]]; simpl; intros Hlen Hhead; try discriminate.
  - by injection Hhead as ->.
  - lia.
Qed.

(** A successful call on a batch that holds a private diff had exactly one
    user code to govern it. *)
Lemma governing_code_of_private batch side share c sds c' d :
  get_sync_decisions_for_batch_items batch side share c = (inr sds, c') ->
  d ∈ diffs batch -> is_private_high d = true ->
  exists code, user_codes_high batch = [code].
Proof.
  intros Hrun Hin Hpriv.
  apply get_sync_decisions_inv in Hrun as (Hlen & Hgov & _).
  destruct (head (user_codes_high batch)) as [code|] eqn:Hhead.
  - exists code. by apply head_singleton.
  - assert (Hd : d ∈ unpublished_private_high_diffs batch)
      by by apply elem_of_unpublished.
    rewrite Hgov in Hd by done. by apply elem_of_nil in Hd.
Qed.

(** *** The governing code *)

Lemma high_user_code_spec d code :
  high_user_code d = Some code <->
  exists o, high_obj d = Some o /\ obj_class o = IsUserCode code.
Proof.
  unfold high_user_code. split.
  - destruct (high_obj d) as [o|]; [|discriminate].
    destruct (obj_class o) eqn:Hclass; try discriminate.
    intros [= <-]. by exists o.
  - intros (o & -> & ->). done.
Qed.

Lemma omap_nil_lookup {A B} (f : A -> option B) (l : list A) j x :
  omap f l = [] -> l !! j = Some x -> f x = None.
Proof.
  revert j. induction l as [|y l IH]; intros j Hnil Hj; [done|].
  simpl in Hnil. destruct (f y) eqn:Hy; [discriminate|].
  destruct j as [|j]; simpl in Hj.
  - by injection Hj as <-.
  - by eapply IH.
Qed.

Lemma omap_singleton_lookup {A B} (f : A -> option B) (l : list A) y :
  omap f l = [y] ->
  exists i x,
    l !! i = Some x /\ f x = Some y /\
    forall j x' y', l !! j = Some x' -> f x' = Some y' -> j = i.
Proof.
  induction l as [|x l IH]; intros Hone; [discriminate|].
  simpl in Hone. destruct (f x) as [y0|] eqn:Hx.
  - injection Hone as -> Hrest. exists 0, x.
    split; [done|]. split; [done|].
    intros [|j] x' y' Hj Hx'; [done|]. simpl in Hj.
    rewrite (omap_nil_lookup f l j x' Hrest Hj) in Hx'. discriminate.
  - destruct (IH Hone) as (i & x0 & Hi & Hx0 & Huniq).
    exists (S i), x0. split; [done|]. split; [done|].
    intros [|j] x' y' Hj Hx'; simpl in Hj.
    + injection Hj as <-. congruence.
    + f_equal. by eapply Huniq.
Qed.

(** When the high-side objects of a batch hold exactly one [UserCode], that
    code is the governing object of the batch. *)
Lemma user_codes_high_governing batch code :
  user_codes_high batch = [code] -> governing_code batch code.
Proof.
  intros Hone. unfold user_codes_high in Hone.
  apply omap_singleton_lookup in Hone as (i & d & Hi & Hd & Huniq).
  apply high_user_code_spec in Hd as (o & Ho & Hclass).
  exists i, d, o. repeat (split; [done|]).
  intros j d' o' code' Hj Ho' Hclass'.
  apply (Huniq j d' code' Hj). apply high_user_code_spec. by exists o'.
Qed.

(** A batch has one governing object at most. *)
Lemma governing_code_unique batch code j d o code' :
  governing_code batch code ->
  diffs batch !! j = Some d ->
  high_obj d = Some o ->
  obj_class o = IsUserCode code' ->
  code' = code.
Proof.
  intros (i & d0 & o0 & Hi & Ho0 & Hclass0 & Huniq) Hj Ho Hclass.
  assert (j = i) as -> by by eapply Huniq.
  congruence.
Qed.

(** *** One decision per diff *)

(** The decisions of a successful call, read back as diffs, are the diffs of
    the batch. *)
Lemma decisions_follow_diffs batch side share c sds c' :
  get_sync_decisions_for_batch_items batch side share c = (inr sds, c') ->
  map diff sds = diffs batch.
Proof.
  intros Hrun.
  apply get_sync_decisions_inv in Hrun as (_ & _ & to_share & _ & Hall).
  induction Hall as [|d sd ds sds Hd Hall IH]; simpl; [done|].
  apply decide_diff_diff_side in Hd as [-> _]. by rewrite IH.
Qed.

(** C10: when [get_sync_decisions_for_batch_items] returns, it returns one
    [SyncDecision] per diff of the batch, in the order of [batch.diffs];
    each decision refers to its diff and carries the side that was
    supplied. *)
Theorem one_decision_per_diff batch side share c sds c' :
  get_sync_decisions_for_batch_items batch side share c = (inr sds, c') ->
  length sds = length (diffs batch) /\
  map diff sds = diffs batch /\
  Forall (fun sd => decision sd = side) sds.
Proof.
  intros Hrun.
  pose proof (decisions_follow_diffs _ _ _ _ _ _ Hrun) as Hmap.
  split; [by rewrite <- Hmap, length_map|]. split; [done|].
  apply get_sync_decisions_inv in Hrun as (_ & _ & to_share & _ & Hall).
  clear Hmap. induction Hall as [|d sd ds sds Hd Hall IH]; constructor.
  - by apply decide_diff_diff_side in Hd as [_ Hside].
  - exact IH.
Qed.

(** *** Jobs *)

(** C7: in the result of a batch resolution, the decision for a diff whose
    high-side object is a [Job] has [mockify = false] and exactly one
    permission, [READ] on the diff's object for the user of the governing
    code, which is the one [UserCode] among the high-side objects of the
    batch, whatever [share_private_objects] is and whatever is typed at the
    prompts. *)
Theorem job_diff_always_shared batch side share c sds c' i d o :
  get_sync_decisions_for_batch_items batch side share c = (inr sds, c') ->
  diffs batch !! i = Some d ->
  high_obj d = Some o ->
  obj_class o = IsJob ->
  exists code sd,
    governing_code batch code /\
    sds !! i = Some sd /\
    diff sd = d /\
    mockify sd = false /\
    new_permissions_lowside sd =
      [ {| uid := object_id d; permission := READ;
           credentials := user_verify_key code |} ].
Proof.
  intros Hrun Hi Ho Hjob.
  apply get_sync_decisions_inv in Hrun as (Hlen & _ & to_share & _ & Hall).
  destruct (Forall2_lookup_l _ _ _ _ _ Hall Hi) as (sd & Hsd & Hd).
  unfold decide_diff in Hd.
  assert (Hisjob : high_is_job d = true)
    by (unfold high_is_job; by rewrite Ho, Hjob).
  rewrite Hisjob in Hd.
  destruct (head (user_codes_high batch)) as [code|] eqn:Hhead;
    [|discriminate].
  injection Hd as <-.
  exists code. eexists.
  split; [by apply user_codes_high_governing, head_singleton|].
  split; [exact Hsd|]. done.
Qed.

(** *** Private diffs *)

(** C6: in the result of a batch resolution, take a diff whose high-side
    object exists, has private sync attributes and is not a [Job].  If the
    diff is not among those chosen for sharing, its decision has
    [mockify = true] and no new permission; if it is, its decision has
    [mockify = false] and exactly one permission, [READ] on the diff's
    object for the user of the governing code, which is the one [UserCode]
    among the high-side objects of the batch.  The diffs chosen for sharing
    are those [private_high_diffs_to_share] selected in that run. *)
Theorem private_diff_shared_or_mockified batch side share c sds c' i d o :
  get_sync_decisions_for_batch_items batch side share c = (inr sds, c') ->
  diffs batch !! i = Some d ->
  high_obj d = Some o ->
  has_private_sync_attrs o = true ->
  obj_class o <> IsJob ->
  exists code to_share sd,
    governing_code batch code /\
    private_high_diffs_to_share share (Some code)
      (unpublished_private_high_diffs batch) c = (inr to_share, c') /\
    sds !! i = Some sd /\
    diff sd = d /\
    (d ∉ to_share ->
     mockify sd = true /\ new_permissions_lowside sd = []) /\
    (d ∈ to_share ->
     mockify sd = false /\
     new_permissions_lowside sd =
       [ {| uid := object_id d; permission := READ;
            credentials := user_verify_key code |} ]).
Proof.
  intros Hrun Hi Ho Hpriv Hnojob.
  assert (Hin : d ∈ diffs batch) by by eapply list_elem_of_lookup_2.
  assert (Hprivate : is_private_high d = true)
    by (unfold is_private_high; by rewrite Ho).
  destruct (governing_code_of_private _ _ _ _ _ _ _ Hrun Hin Hprivate)
    as [code Hcodes].
  apply get_sync_decisions_inv in Hrun as (_ & _ & to_share & Hshare & Hall).
  rewrite Hcodes in Hshare, Hall. simpl in Hshare, Hall.
  destruct (Forall2_lookup_l _ _ _ _ _ Hall Hi) as (sd & Hsd & Hd).
  destruct (decide_diff_diff_side _ _ _ _ _ _ Hd) as [Hdiff _].
  exists code, to_share, sd.
  split; [by apply user_codes_high_governing|].
  repeat (split; [done|]).
  unfold decide_diff in Hd.
  assert (Hisjob : high_is_job d = false).
  { unfold high_is_job. rewrite Ho. by destruct (obj_class o). }
  rewrite Hisjob in Hd.
  rewrite (bool_decide_eq_true_2 (d ∈ unpublished_private_high_diffs batch))
    in Hd by by apply elem_of_unpublished.
  simpl in Hd.
  split; intros Hsel.
  - rewrite bool_decide_eq_false_2 in Hd by done. simpl in Hd.
    by injection Hd as <-.
  - rewrite bool_decide_eq_true_2 in Hd by done. simpl in Hd.
    by injection Hd as <-.
Qed.

(** *** Runs on concrete batches *)

Import SyncingExamples.

(** The run batch, resolved for the high side with everything shared. *)
Lemma one_decision_per_diff_witness :
  exists sds c',
    get_sync_decisions_for_batch_items batch_run "high" true (console [])
      = (inr sds, c') /\
    length sds = 3 /\
    map diff sds = [d_result; d_job; d_code] /\
    Forall (fun sd => decision sd = "high") sds.
Proof.
  eexists _, _. split; [reflexivity|].
  eapply (one_decision_per_diff batch_run "high" true (console [])).
  reflexivity.
Defined.

(** The job of the run batch, when the user declines to share anything:
    the grant goes to the user of the code of the batch. *)
Lemma job_diff_always_shared_witness :
  exists sds c',
    get_sync_decisions_for_batch_items batch_run "low" false (console ["no"])
      = (inr sds, c') /\
    exists sd,
      sds !! 1 = Some sd /\
      diff sd = d_job /\
      mockify sd = false /\
      new_permissions_lowside sd =
        [ {| uid := "70b00001"; permission := READ;
             credentials := "key-alice" |} ].
Proof.
  eexists _, _. split; [vm_compute; reflexivity|].
  destruct (job_diff_always_shared batch_run "low" false (console ["no"])
              _ _ 1 d_job _ ltac:(vm_compute; reflexivity)
              eq_refl eq_refl eq_refl)
    as (code & sd & Hgov & Hsd & Hdiff & Hmock & Hperm).
  assert (code_alice = code) as <-
    by exact (governing_code_unique batch_run code 2 d_code _ code_alice
                Hgov eq_refl eq_refl eq_refl).
  exists sd. done.
Defined.

(** The log and the result of the run batch with a log, when the user
    shares the result only: the log is mockified, and the grant for the
    result goes to the user of the code of the batch. *)
Lemma private_diff_shared_or_mockified_witness :
  exists sds c',
    get_sync_decisions_for_batch_items batch_run_log "high" false
      (console ["abc1"; "no"]) = (inr sds, c') /\
    exists sd_result sd_log,
      sds !! 0 = Some sd_result /\
      diff sd_result = d_result /\
      mockify sd_result = false /\
      new_permissions_lowside sd_result =
        [ {| uid := "abc10001"; permission := READ;
             credentials := "key-alice" |} ] /\
      sds !! 1 = Some sd_log /\
      diff sd_log = d_log /\
      mockify sd_log = true /\
      new_permissions_lowside sd_log = [].
Proof.
  eexists _, _. split; [vm_compute; reflexivity|].
  destruct (private_diff_shared_or_mockified batch_run_log "high" false
              (console ["abc1"; "no"]) _ _ 0 d_result _
              ltac:(vm_compute; reflexivity) eq_refl eq_refl eq_refl
              ltac:(discriminate))
    as (code & to_share & sd & Hgov & Hshare & Hsd & Hdiff & _ & Hshared).
  assert (code_alice = code) as <-
    by exact (governing_code_unique batch_run_log code 3 d_code _ code_alice
                Hgov eq_refl eq_refl eq_refl).
  vm_compute in Hshare. injection Hshare as <-.
  destruct Hshared as [Hmock Hperm]; [set_solver|].
  destruct (private_diff_shared_or_mockified batch_run_log "high" false
              (console ["abc1"; "no"]) _ _ 1 d_log _
              ltac:(vm_compute; reflexivity) eq_refl eq_refl eq_refl
              ltac:(discriminate))
    as (code' & to_share' & sd' & Hgov' & Hshare' & Hsd' & Hdiff' & Hkept & _).
  assert (code_alice = code') as <-
    by exact (governing_code_unique batch_run_log code' 3 d_code _ code_alice
                Hgov' eq_refl eq_refl eq_refl).
  vm_compute in Hshare'. injection Hshare' as <-.
  destruct Hkept as [Hmock' Hperm'].
  { intros Hin. apply list_elem_of_In in Hin.
    destruct Hin as [Heq|[]]. discriminate Heq. }
  exists sd, sd'. done.
Defined.

(** *** Governing objects *)

Lemma too_many_user_codes_raise batch side share c :
  1 < length (user_codes_high batch) ->
  get_sync_decisions_for_batch_items batch side share c
    = (inl (ValueError "too many user codes"), c).
Proof.
  intros Hlen. unfold get_sync_decisions_for_batch_items.
  apply Nat.ltb_lt in Hlen. by rewrite Hlen.
Qed.

Lemma ungoverned_private_objects_raise batch side share c :
  user_codes_high batch = [] ->
  unpublished_private_high_diffs batch <> [] ->
  get_sync_decisions_for_batch_items batch side share c
    = (inl (ValueError "Found unpublished private objects without user code"), c).
Proof.
  intros Hnone Hpriv. unfold get_sync_decisions_for_batch_items.
  rewrite Hnone. simpl.
  destruct (unpublished_private_high_diffs batch); [done|]. done.
Qed.

(** The prompt for a side either returns a side or finds the input
    exhausted. *)
Lemma get_user_input_loop_outcome ins out :
  outcome (get_user_input_loop ins out) = inl EOFError \/
  exists side, outcome (get_user_input_loop ins out) = inr side /\
               side ∈ ["low"; "high"].
Proof.
  revert out. induction ins as [|l ins IH]; intros out; simpl; [by left|].
  case_bool_decide as Hside; [|apply IH].
  right. by eexists.
Qed.

(** The body of the [resolve] loop on a batch that is not all [SAME] has
    three steps that can end it: printing the batch, getting the side, and
    getting the decisions.  [batch_steps] follows a run through them and
    leaves the case where all three went through. *)
Ltac batch_steps b given share c :=
  unfold bind in *;
  let c1 := fresh "c1" in
  let c2 := fresh "c2" in
  let c3 := fresh "c3" in
  let side := fresh "side" in
  let sds := fresh "new" in
  let Hnew := fresh "Hnew" in
  destruct (print (BatchRepr b) c) as [[?|[]] c1]; [done|];
  destruct (match given with
            | Some side => ret side
            | None => get_user_input_for_resolve
            end c1) as [[?|side] c2]; [done|];
  destruct (get_sync_decisions_for_batch_items b side share c2)
    as [[?|sds] c3] eqn:Hnew; [done|];
  simpl in *.

(** Resolving a list of batches is resolving a first part and then, from
    the states and the console reached, the rest. *)
Lemma resolve_loop_app pre post given share low high c :
  resolve_loop (pre ++ post) given share low high c =
  match resolve_loop pre given share low high c with
  | (inl e, c1) => (inl e, c1)
  | (inr (l, h), c1) => resolve_loop post given share l h c1
  end.
Proof.
  revert low high c. induction pre as [|b pre IH]; intros low high c; simpl;
    [done|].
  destruct (all_same b); [apply IH|].
  batch_steps b given share c. apply IH.
Qed.

(** A batch whose one diff is a private result without user code and has
    the status [SAME]: resolving the batch raises, and [resolve] over the
    state that holds it returns two empty states and prints nothing. *)
Lemma ungoverned_same_batch_run :
  get_sync_decisions_for_batch_items batch_ungoverned_same "high" false
    (console [])
    = (inl (ValueError "Found unpublished private objects without user code"),
       console []) /\
  resolve {| hierarchies := [batch_ungoverned_same] |} (Some "high") false
    (console [])
    = (inr (new_ResolvedSyncState "low", new_ResolvedSyncState "high"),
       console []).
Proof. split; reflexivity. Qed.

(** C5, as stated, fails: a batch with unpublished private high-side diffs
    and no [UserCode] does not stop every [resolve] call over a state that
    holds it.  When all the diffs of the batch have the status [SAME],
    [resolve] skips the batch before it resolves it, and returns. *)
Lemma all_same_batch_with_error_is_skipped :
  ~ (forall batch pre post given share c,
       1 < length (user_codes_high batch) \/
       (user_codes_high batch = [] /\
        unpublished_private_high_diffs batch <> []) ->
       exists e,
         outcome (resolve {| hierarchies := pre ++ batch :: post |}
                    given share c) = inl e).
Proof.
  intros Hstops.
  destruct (Hstops batch_ungoverned_same [] [] (Some "high") false (console []))
    as [e He]; [right; split; [reflexivity|discriminate]|].
  simpl app in He. rewrite (proj2 ungoverned_same_batch_run) in He.
  discriminate He.
Qed.

(** C5, amended: resolving a batch raises [ValueError] when more than one
    [UserCode] is found among its high-side objects, and raises
    [ValueError] when it has unpublished private high-side diffs and no
    [UserCode]; nothing is read or printed before.  A [resolve] call over a
    state that holds such a batch, not all [SAME], ends with an exception
    and returns no resolved state: the exception is the one of that batch,
    unless the batches before it already raised it, or the prompt for the
    side of that batch found the input exhausted. *)
Theorem governing_object_errors_stop_resolve batch :
  (1 < length (user_codes_high batch) ->
   forall side share c,
     get_sync_decisions_for_batch_items batch side share c
       = (inl (ValueError "too many user codes"), c)) /\
  (user_codes_high batch = [] ->
   unpublished_private_high_diffs batch <> [] ->
   forall side share c,
     get_sync_decisions_for_batch_items batch side share c
       = (inl (ValueError
                 "Found unpublished private objects without user code"), c)) /\
  (1 < length (user_codes_high batch) \/
   (user_codes_high batch = [] /\
    unpublished_private_high_diffs batch <> []) ->
   all_same batch = false ->
   forall pre post given share c,
   exists e,
     outcome (resolve {| hierarchies := pre ++ batch :: post |} given share c)
       = inl e /\
     ((forall side sh c0,
         get_sync_decisions_for_batch_items batch side sh c0 = (inl e, c0)) \/
      outcome (resolve {| hierarchies := pre |} given share c) = inl e \/
      (given = None /\ e = EOFError))).
Proof.
  split; [intros; by apply too_many_user_codes_raise|].
  split; [intros; by apply ungoverned_private_objects_raise|].
  intros Hbad Hsame pre post given share c.
  assert (Hraise : exists e, forall side sh c0,
             get_sync_decisions_for_batch_items batch side sh c0 = (inl e, c0)).
  { destruct Hbad as [Hmany|[Hnone Hpriv]].
    - exists (ValueError "too many user codes"). intros.
      by apply too_many_user_codes_raise.
    - exists (ValueError "Found unpublished private objects without user code"). intros.
      by apply ungoverned_private_objects_raise. }
  destruct Hraise as [eb Hraise].
  unfold resolve. simpl hierarchies. rewrite resolve_loop_app.
  destruct (resolve_loop pre given share (new_ResolvedSyncState "low")
              (new_ResolvedSyncState "high") c) as [[e|[l h]] c1] eqn:Hpre.
  - exists e. split; [done|]. right. by left.
  - simpl resolve_loop. rewrite Hsame. unfold print at 1.
    rewrite bind_modify.
    set (c2 := {| stdin := stdin c1; stdout := _ |}).
    destruct given as [side|].
    + rewrite bind_ret, (bind_raise _ _ _ _ _ (Hraise side share c2)).
      exists eb. split; [done|]. by left.
    + unfold get_user_input_for_resolve at 1, print at 1.
      unfold bind at 1. rewrite bind_modify.
      set (c3 := {| stdin := stdin c2; stdout := _ |}).
      destruct (get_user_input_loop_outcome (stdin c3) (stdout c3))
        as [Heof|(side & Hside & _)];
        destruct (get_user_input_loop (stdin c3) (stdout c3)) as [r c4];
        simpl in *; subst r.
      * exists EOFError. split; [done|]. right. by right.
      * rewrite (bind_raise _ _ _ _ _ (Hraise side share c4)).
        exists eb. split; [done|]. by left.
Qed.

(** Two user codes; a private result with no user code; and a state that
    holds the first of these batches after a batch with no diffs. *)
Lemma governing_object_errors_stop_resolve_witness :
  get_sync_decisions_for_batch_items batch_two_codes "high" false (console [])
    = (inl (ValueError "too many user codes"), console []) /\
  get_sync_decisions_for_batch_items batch_ungoverned "high" true (console [])
    = (inl (ValueError "Found unpublished private objects without user code"),
       console []) /\
  exists e,
    outcome (resolve
               {| hierarchies := [batch_same] ++ batch_two_codes :: [batch_run] |}
               (Some "high") false (console [])) = inl e /\
    ((forall side sh c0,
        get_sync_decisions_for_batch_items batch_two_codes side sh c0
          = (inl e, c0)) \/
     outcome (resolve {| hierarchies := [batch_same] |} (Some "high") false
                (console [])) = inl e \/
     (Some "high" = None /\ e = EOFError)).
Proof.
  destruct (governing_object_errors_stop_resolve batch_two_codes)
    as (Hmany & _ & Hstop).
  destruct (governing_object_errors_stop_resolve batch_ungoverned)
    as (_ & Hnone & _).
  split; [apply Hmany; simpl; lia|].
  split; [apply Hnone; [reflexivity|discriminate]|].
  apply Hstop; [left; simpl; lia|reflexivity].
Defined.

(** *** Batches without diffs *)

Lemma all_same_spec batch :
  all_same batch = true <->
  forall d, d ∈ diffs batch -> status d = "SAME".
Proof.
  unfold all_same. rewrite forallb_forall.
  split; intros H d Hd.
  - apply String.eqb_eq, H. by apply list_elem_of_In.
  - apply String.eqb_eq, H. by apply list_elem_of_In.
Qed.

(** The loop behaves on a list of batches as on the list without its
    all-[SAME] batches: same outcome, same console. *)
Lemma resolve_loop_skips_same hs given share low high c :
  resolve_loop hs given share low high c =
  resolve_loop (List.filter (fun b => negb (all_same b)) hs)
    given share low high c.
Proof.
  revert low high c. induction hs as [|b hs IH]; intros low high c; simpl;
    [done|].
  destruct (all_same b) eqn:Hsame; simpl; [apply IH|].
  rewrite Hsame. batch_steps b given share c. apply IH.
Qed.

Lemma add_all_decisions st sds :
  decisions (add_all st sds) = decisions st ++ sds /\
  alias (add_all st sds) = alias st.
Proof.
  unfold add_all. revert st. induction sds as [|sd sds IH]; intros st; simpl.
  - by rewrite app_nil_r.
  - destruct (IH (add_sync_decision st sd)) as [-> ->]. simpl.
    by rewrite <- app_assoc.
Qed.

(** What a successful loop added to the two states: the same decisions to
    both, each for a diff of a batch that is not all [SAME]. *)
Lemma resolve_loop_decisions hs given share low high c low' high' c' :
  resolve_loop hs given share low high c = (inr (low', high'), c') ->
  exists sds,
    decisions low' = decisions low ++ sds /\
    decisions high' = decisions high ++ sds /\
    Forall (fun sd => exists b, b ∈ hs /\ all_same b = false /\
                                diff sd ∈ diffs b) sds.
Proof.
  revert low high c. induction hs as [|b hs IH]; intros low high c Hrun;
    simpl in Hrun.
  - injection Hrun as <- <- <-. exists []. by rewrite !app_nil_r.
  - destruct (all_same b) eqn:Hsame.
    + apply IH in Hrun as (sds & Hlow & Hhigh & Hall).
      exists sds. repeat (split; [done|]).
      eapply Forall_impl; [exact Hall|].
      intros sd (b' & Hb' & Hns & Hd). exists b'. split; [|done].
      by apply list_elem_of_further.
    + batch_steps b given share c.
      apply IH in Hrun as (sds & Hlow & Hhigh & Hall).
      destruct (add_all_decisions low new) as [Hl _].
      destruct (add_all_decisions high new) as [Hh _].
      rewrite Hl in Hlow. rewrite Hh in Hhigh.
      exists (new ++ sds). rewrite !app_assoc.
      repeat (split; [done|]).
      apply Forall_app. split.
      * apply decisions_follow_diffs in Hnew as Hmap.
        apply Forall_forall. intros sd Hsd. exists b.
        split; [apply list_elem_of_here|]. split; [done|].
        rewrite <- Hmap. by apply list_elem_of_fmap_2.
      * eapply Forall_impl; [exact Hall|].
        intros sd (b' & Hb' & Hns & Hd). exists b'. split; [|done].
        by apply list_elem_of_further.
Qed.

(** C8: [resolve] on a state gives the outcome and leaves the console
    (lines read, lines printed) that it gives and leaves on the state
    without its all-[SAME] batches.  When every batch is all [SAME] it
    returns the two empty states without reading or printing.  Every
    decision in a returned state is for a diff of a batch that is not all
    [SAME]. *)
Theorem all_same_batches_are_skipped state given share c :
  resolve state given share c =
    resolve
      {| hierarchies :=
           List.filter (fun b => negb (all_same b)) (hierarchies state) |}
      given share c /\
  ((forall b d, b ∈ hierarchies state -> d ∈ diffs b -> status d = "SAME") ->
   resolve state given share c =
     (inr (new_ResolvedSyncState "low", new_ResolvedSyncState "high"), c)) /\
  (forall low high c',
     resolve state given share c = (inr (low, high), c') ->
     forall sd, sd ∈ decisions low \/ sd ∈ decisions high ->
     exists b,
       b ∈ hierarchies state /\ diff sd ∈ diffs b /\
       ~ (forall d, d ∈ diffs b -> status d = "SAME")).
Proof.
  split; [apply resolve_loop_skips_same|]. split.
  - intros Hsame. unfold resolve. rewrite resolve_loop_skips_same.
    replace (List.filter _ (hierarchies state)) with (@nil ObjectDiffBatch);
      [done|].
    symmetry. induction (hierarchies state) as [|b hs IH]; simpl; [done|].
    assert (Hb : all_same b = true).
    { apply all_same_spec. intros d Hd. apply (Hsame b d); [|done].
      apply list_elem_of_here. }
    rewrite Hb. simpl. apply IH. intros b' d Hb' Hd.
    apply (Hsame b' d); [|done]. by apply list_elem_of_further.
  - intros low high c' Hrun sd Hsd.
    apply resolve_loop_decisions in Hrun as (sds & Hlow & Hhigh & Hall).
    simpl in Hlow, Hhigh. rewrite Hlow, Hhigh in Hsd.
    assert (Hin : sd ∈ sds) by by destruct Hsd.
    rewrite Forall_forall in Hall.
    destruct (Hall sd Hin) as (b & Hb & Hns & Hd).
    exists b. repeat (split; [done|]).
    intros Hall_same. apply all_same_spec in Hall_same. congruence.
Qed.

(** Two batches without diffs; and a batch without diffs before the run
    batch. *)
Lemma all_same_batches_are_skipped_witness :
  resolve {| hierarchies := [batch_same; batch_same] |} None false
    (console ["high"])
  = (inr (new_ResolvedSyncState "low", new_ResolvedSyncState "high"),
     console ["high"]) /\
  resolve {| hierarchies := [batch_same; batch_run] |} (Some "high") true
    (console [])
  = resolve {| hierarchies := [batch_run] |} (Some "high") true (console []).
Proof.
  split.
  - apply (all_same_batches_are_skipped
             {| hierarchies := [batch_same; batch_same] |} None false
             (console ["high"])).
    intros b d Hb Hd. simpl in Hb.
    repeat (apply elem_of_cons in Hb as [->|Hb]);
      try (by apply elem_of_nil in Hb);
      simpl in Hd;
      repeat (apply elem_of_cons in Hd as [->|Hd]);
      try (by apply elem_of_nil in Hd); reflexivity.
  - apply (all_same_batches_are_skipped
             {| hierarchies := [batch_same; batch_run] |} (Some "high") true
             (console [])).
Defined.

(** *** Selections at the sharing prompt *)

Lemma list_remove_elem_of {A} `{EqDecision A} (x : A) (l : list A) :
  x ∈ l -> exists l', list_remove x l = Some l'.
Proof.
  induction l as [|y l IH]; intros Hin; [by apply elem_of_nil in Hin|].
  simpl. destruct (decide (y = x)); [by eexists|].
  apply elem_of_cons in Hin as [->|Hin]; [done|].
  destruct (IH Hin) as [l' ->]. by eexists.
Qed.

Lemma matches_of_elem_of res remaining d :
  d ∈ matches_of res remaining -> d ∈ remaining.
Proof.
  unfold matches_of. rewrite !list_elem_of_In, filter_In. tauto.
Qed.

(** One iteration of the sharing loop, on a non-empty list of candidates
    and a line of input. *)
Lemma share_loop_step key d0 rem to_share res ins out :
  share_loop key (d0 :: rem) to_share (res :: ins) out =
  let remaining := d0 :: rem in
  let out1 := out ++ [ShareQuestion (objects_str remaining)] in
  if String.eqb res "no" then
    (inr to_share, {| stdin := ins; stdout := out1 |})
  else if Nat.leb 3 (String.length res) then
    match matches_of res remaining with
    | [] => share_loop key remaining to_share ins (out1 ++ [Line "Invalid input"])
    | [d] =>
        let out2 :=
          out1 ++ [Line ""; Line rule; Line "";
                   ShareConfirmation (object_type d) (object_id d) key] in
        match list_remove d remaining with
        | None =>
            (inl (ValueError "list.remove(x): x not in list"),
             {| stdin := ins; stdout := out2 |})
        | Some remaining' =>
            share_loop key remaining' (to_share ++ [d]) ins out2
        end
    | _ :: _ :: _ =>
        (inr to_share,
         {| stdin := ins;
            stdout := out1 ++ [Line "Found multiple matches for provided id, exiting"] |})
    end
  else share_loop key remaining to_share ins (out1 ++ [Line "invalid input"]).
Proof. reflexivity. Qed.

(** The sharing loop raises nothing but [EOFError]: the [remove] it makes
    is always of an element of the list. *)
Lemma share_loop_raises_only_eof key remaining to_share ins out e :
  outcome (share_loop key remaining to_share ins out) = inl e ->
  e = EOFError.
Proof.
  revert remaining to_share out.
  induction ins as [|res ins IH]; intros remaining to_share out;
    destruct remaining as [|d0 rem]; try (simpl; congruence).
  rewrite share_loop_step. cbv zeta.
  destruct (String.eqb res "no"); [done|].
  destruct (Nat.leb 3 (String.length res)); [|apply IH].
  destruct (matches_of res (d0 :: rem)) as [|d [|d' ms]] eqn:Hm;
    [apply IH| |done].
  assert (Hd : d ∈ d0 :: rem).
  { apply (matches_of_elem_of res). rewrite Hm. apply list_elem_of_here. }
  destruct (list_remove_elem_of d (d0 :: rem) Hd) as [l' ->].
  apply IH.
Qed.

(** With two candidates whose ids both start with "abc", the line "abc"
    ends the prompt: the lines after it are left unread and nothing is
    shared. *)
Lemma ambiguous_prefix_run :
  ask_user_input_permission (Some code_alice) [d_result; d_log]
    (console ["abc"; "abc1"; "no"])
  = (inr [],
     {| stdin := ["abc1"; "no"];
        stdout :=
          [ShareIntro "key-alice";
           ShareQuestion (objects_str [d_result; d_log]);
           Line "Found multiple matches for provided id, exiting"] |}).
Proof. reflexivity. Qed.

(** C9, as stated, fails: a line that is a prefix of more than one remaining
    id does not put the loop back where it was to read the next line.  With
    the candidates "abc10001" and "abc20002" and the lines "abc", "abc1",
    "no", re-prompting would share the first candidate; the loop returns
    after "abc" with nothing shared. *)
Lemma ambiguous_prefix_is_not_reprompted :
  ~ (forall key remaining to_share res rest out,
       res <> "no" ->
       3 <= String.length res ->
       1 < length (matches_of res remaining) ->
       exists out',
         share_loop key remaining to_share (res :: rest) out =
         share_loop key remaining to_share rest out').
Proof.
  intros Hreprompt.
  destruct (Hreprompt "key-alice" [d_result; d_log] [] "abc" ["abc1"; "no"] [])
    as [out' Hrun]; [discriminate | simpl; lia | vm_compute; lia |].
  vm_compute in Hrun. discriminate Hrun.
Qed.

(** C9, amended: in the sharing loop, with candidates remaining, a line
    other than "no" of at least 3 characters that is a prefix of more than
    one remaining id ends the loop: the selections made so far are returned
    as they are, no further line is read, and no exception is raised.  A
    line of at least 3 characters that is a prefix of no remaining id, and a
    line of fewer than 3 characters, leave the candidates and the
    selections as they were and the loop asks again.  The only exception
    the loop can raise is [EOFError], when the input is exhausted. *)
Theorem ambiguous_selection_ends_the_loop key remaining to_share res rest out :
  remaining <> [] ->
  res <> "no" ->
  let asked := out ++ [ShareQuestion (objects_str remaining)] in
  (3 <= String.length res ->
   1 < length (matches_of res remaining) ->
   share_loop key remaining to_share (res :: rest) out =
     (inr to_share,
      {| stdin := rest;
         stdout := asked ++ [Line "Found multiple matches for provided id, exiting"] |})) /\
  (3 <= String.length res ->
   matches_of res remaining = [] ->
   share_loop key remaining to_share (res :: rest) out =
     share_loop key remaining to_share rest (asked ++ [Line "Invalid input"])) /\
  (String.length res < 3 ->
   share_loop key remaining to_share (res :: rest) out =
     share_loop key remaining to_share rest (asked ++ [Line "invalid input"])) /\
  (forall e,
     outcome (share_loop key remaining to_share (res :: rest) out) = inl e ->
     e = EOFError).
Proof.
  intros Hrem Hno asked. subst asked.
  destruct remaining as [|d0 rem]; [done|].
  assert (Heof : forall e,
             outcome (share_loop key (d0 :: rem) to_share (res :: rest) out)
               = inl e -> e = EOFError)
    by (intros e; apply share_loop_raises_only_eof).
  apply String.eqb_neq in Hno.
  rewrite share_loop_step. cbv zeta. rewrite Hno.
  split; [|split; [|split]].
  - intros Hlen Hmany. apply Nat.leb_le in Hlen. rewrite Hlen.
    destruct (matches_of res (d0 :: rem)) as [|d [|d' ms]];
      simpl in Hmany; [lia|lia|done].
  - intros Hlen Hnone. apply Nat.leb_le in Hlen. by rewrite Hlen, Hnone.
  - intros Hlen. apply Nat.leb_gt in Hlen. by rewrite Hlen.
  - intros e He. apply Heof. rewrite share_loop_step. cbv zeta.
    by rewrite Hno.
Qed.

(** The same candidates: "abc" is ambiguous, "zzz" matches nothing, "x" is
    too short. *)
Lemma ambiguous_selection_ends_the_loop_witness :
  share_loop "key-alice" [d_result; d_log] [] ("abc" :: ["abc1"]) [] =
    (inr [],
     {| stdin := ["abc1"];
        stdout := [ShareQuestion (objects_str [d_result; d_log]);
                   Line "Found multiple matches for provided id, exiting"] |}) /\
  share_loop "key-alice" [d_result; d_log] [] ("zzz" :: ["abc1"]) [] =
    share_loop "key-alice" [d_result; d_log] [] ["abc1"]
      [ShareQuestion (objects_str [d_result; d_log]); Line "Invalid input"] /\
  share_loop "key-alice" [d_result; d_log] [] ("x" :: ["abc1"]) [] =
    share_loop "key-alice" [d_result; d_log] [] ["abc1"]
      [ShareQuestion (objects_str [d_result; d_log]); Line "invalid input"].
Proof.
  split; [|split].
  - apply (ambiguous_selection_ends_the_loop "key-alice" [d_result; d_log] []
             "abc" ["abc1"] []);
      [discriminate | discriminate | simpl; lia | vm_compute; lia].
  - apply (ambiguous_selection_ends_the_loop "key-alice" [d_result; d_log] []
             "zzz" ["abc1"] []);
      [discriminate | discriminate | simpl; lia | reflexivity].
  - apply (ambiguous_selection_ends_the_loop "key-alice" [d_result; d_log] []
             "x" ["abc1"] []);
      [discriminate | discriminate | simpl; lia].
Defined.

End SyncingProofs.

(** ** Properties of project_service.py *)

Module ProjectServiceProofs.
Import ProjectService.
Import ProjectExamples.

(** *** The validators *)

Lemma validate_project_leader_result {S} context project (s : S) :
  validate_project_leader context project s =
  (inr (if bool_decide (verify_key (state_sync_leader project)
                        <> server_verify_key (server context))
        then Err (SyftException "Only the project leader can do this operation")
        else Ok tt), s).
Proof. unfold validate_project_leader. by case_bool_decide. Qed.

Lemma validate_user_permission_result {S} svc context project (s : S) :
  validate_user_permission_for_project svc context project s =
  (inr (if has_permission svc project (credentials context)
        then Ok tt
        else Err (SyftException "User does not have permission to sync events")),
   s).
Proof.
  unfold validate_user_permission_for_project.
  by destruct (has_permission svc project (credentials context)).
Qed.

(** The validators hand back a value and leave the state alone: nothing is
    raised until a caller unwraps. *)
Lemma validators_never_raise {S} svc context project ev (s : S) :
  (exists r, validate_project_leader context project s = (inr r, s)) /\
  (exists r, validate_user_permission_for_project svc context project s
             = (inr r, s)) /\
  (exists r, validate_project_event_seq svc ev project s = (inr r, s)).
Proof.
  split; [|split].
  - rewrite validate_project_leader_result. by eexists.
  - rewrite validate_user_permission_result. by eexists.
  - unfold validate_project_event_seq, as_result.
    destruct (seq_no ev) as [n|]; [|by eexists].
    destruct ((n <=? len_events project)%Z && (0 <? len_events project)%Z);
      [by eexists|].
    destruct (len_events project + 1 <? n)%Z; by eexists.
Qed.

(** The three outcomes of the sequence check on an event that has a
    [seq_no]. *)
Lemma validate_project_event_seq_cases {S} svc ev project n (s : S) :
  seq_no ev = Some n ->
  let N := len_events project in
  ((n <= N)%Z /\ (0 < N)%Z /\
   validate_project_event_seq svc ev project s = (inr (Err (SyftException "Project events are out of sync")), s)) \/
  ((N + 1 < n)%Z /\ ~ ((n <= N)%Z /\ (0 < N)%Z) /\
   validate_project_event_seq svc ev project s = (inr (Err (SyftException "Project events are out of order!")), s)) \/
  ((n <= N + 1)%Z /\ ~ ((n <= N)%Z /\ (0 < N)%Z) /\
   validate_project_event_seq svc ev project s = (inr (Ok tt), s)).
Proof.
  intros Hn N. unfold validate_project_event_seq, as_result. rewrite Hn.
  fold N.
  destruct (Z.leb_spec n N) as [Hle|Hgt];
    destruct (Z.ltb_spec 0 N) as [Hpos|Hzero]; simpl.
  - left. done.
  - right. destruct (Z.ltb_spec (N + 1) n); [left|right];
      repeat split; (done || lia).
  - right. destruct (Z.ltb_spec (N + 1) n); [left|right];
      repeat split; (done || lia).
  - right. destruct (Z.ltb_spec (N + 1) n); [left|right];
      repeat split; (done || lia).
Qed.

Lemma len_events_nil project :
  len_events project = 0%Z <-> events project = [].
Proof.
  unfold len_events. destruct (events project); simpl; [done|].
  split; [lia|discriminate].
Qed.

(** *** Sequence numbers *)

(** C1, as stated, fails: on a project without events the check accepts the
    [seq_no] 0, which is not [len(events) + 1]. *)
Lemma seq_no_zero_accepted_on_empty_log :
  ~ (forall (svc : Collaborators) (project : Project) (ev : ProjectEvent)
            (n : Z) (w : World),
       seq_no ev = Some n ->
       (validate_project_event_seq svc ev project w = (inr (Ok tt), w) <->
        n = (len_events project + 1)%Z)).
Proof.
  intros Hclaim.
  destruct (Hclaim (services true (inr Sent)) (project_with []) e0 0%Z
              (world_with []) eq_refl) as [Haccepted _].
  discriminate (Haccepted eq_refl).
Qed.

(** C1, amended: for a project whose log has N events and an event whose
    [seq_no] is n, the check fails with "out of sync" when n <= N and the
    log is not empty, fails with "out of order" when n > N + 1, and accepts
    otherwise.  So on a log that is not empty the accepted [seq_no] is
    exactly N + 1, and on an empty log every [seq_no] up to 1 is accepted;
    among the [seq_no] from 1 on, the accepted one is exactly N + 1 on
    every log.  The check leaves the state as it is. *)
Theorem validate_project_event_seq_accepts {S} svc project ev n (s : S) :
  seq_no ev = Some n ->
  let N := len_events project in
  let check := validate_project_event_seq svc ev project s in
  (events project <> [] -> (check = (inr (Ok tt), s) <-> n = (N + 1)%Z)) /\
  (events project = [] -> (check = (inr (Ok tt), s) <-> (n <= 1)%Z)) /\
  ((1 <= n)%Z -> (check = (inr (Ok tt), s) <-> n = (N + 1)%Z)) /\
  ((n <= N)%Z -> events project <> [] ->
   check = (inr (Err (SyftException "Project events are out of sync")), s)) /\
  ((N + 1 < n)%Z ->
   check = (inr (Err (SyftException "Project events are out of order!")), s)).
Proof.
  intros Hn N check.
  pose proof (len_events_nil project) as Hnil. fold N in Hnil.
  assert (HN : (0 <= N)%Z) by (unfold N, len_events; lia).
  destruct (validate_project_event_seq_cases svc ev project n s Hn)
    as [(H1 & H2 & Hr)|[(H1 & H2 & Hr)|(H1 & H2 & Hr)]];
    fold N in H1, H2; fold check in Hr; rewrite Hr.
  - split; [|split; [|split; [|split]]].
    + intros _. split; [discriminate|lia].
    + intros Hempty. apply Hnil in Hempty. lia.
    + intros _. split; [discriminate|lia].
    + done.
    + lia.
  - split; [|split; [|split; [|split]]].
    + intros _. split; [discriminate|lia].
    + intros Hempty. apply Hnil in Hempty. split; [discriminate|lia].
    + intros _. split; [discriminate|lia].
    + intros Hle Hne. assert (N <> 0%Z) by tauto. lia.
    + done.
  - split; [|split; [|split; [|split]]].
    + intros Hne. assert (N <> 0%Z) by tauto. split; [lia|done].
    + intros Hempty. apply Hnil in Hempty. split; [lia|done].
    + intros Hpos. split; [lia|done].
    + intros Hle Hne. assert (N <> 0%Z) by tauto. lia.
    + lia.
Qed.

(** A log of one event and an event numbered 2. *)
Lemma validate_project_event_seq_accepts_witness :
  validate_project_event_seq (services true (inr Sent)) e2 (project_with [e1])
    (world_with [e1]) = (inr (Ok tt), world_with [e1]).
Proof.
  destruct (validate_project_event_seq_accepts (services true (inr Sent))
              (project_with [e1]) e2 2 (world_with [e1]) eq_refl)
    as (Hnonempty & _).
  apply Hnonempty; [discriminate | reflexivity].
Defined.

(** *** Broadcast by a node that is not the leader *)

(** The leader's node serves a caller who is not the leader and to whom the
    project grants no permission: the second event is appended, stored and
    passed to the follower's node. *)
Lemma non_leader_caller_run :
  credentials ctx_mallory <> verify_key (state_sync_leader (project_with [e1])) /\
  has_permission (services false (inr Sent)) (project_with [e1])
    (credentials ctx_mallory) = false /\
  exists reply w',
    broadcast_event (services false (inr Sent)) ctx_mallory e2 (world_with [e1])
      = (inr reply, w') /\
    message reply = "Event #2 of demo broadcasted successfully" /\
    events (value reply) = [e1; e2] /\
    stash w' !! "p0000001" = Some (value reply) /\
    remote_add_events w' = [("f0110e00", e2)].
Proof.
  split; [discriminate|]. split; [reflexivity|].
  eexists _, _. split; [vm_compute; reflexivity|].
  repeat split.
Qed.

(** C2, as stated, fails: [broadcast_event] does not fail for every caller
    whose verify key differs from the key of the project's
    [state_sync_leader].  The identity that is compared is the one of the
    node that serves the call; on the leader's node a caller who is not the
    leader broadcasts, and the log grows. *)
Lemma non_leader_caller_broadcasts_on_leader_node :
  ~ (forall svc context ev w project,
       stash w !! event_project_id ev = Some project ->
       credentials context <> verify_key (state_sync_leader project) ->
       exists e,
         outcome (broadcast_event svc context ev w) = inl e).
Proof.
  intros Hfails.
  destruct (Hfails (services false (inr Sent)) ctx_mallory e2 (world_with [e1])
              (project_with [e1]) eq_refl) as [e He]; [discriminate|].
  destruct non_leader_caller_run as (_ & _ & reply & w' & Hrun & _).
  rewrite Hrun in He. discriminate He.
Qed.

(** C2, amended: when the verify key of the node that serves the call
    differs from the verify key of the project's [state_sync_leader],
    [broadcast_event] raises "Only the leader of the project can broadcast
    events" and the state is as before: the stored project and its events
    are unchanged, no notification was sent and no peer was called.  This
    holds for every event and whatever the credentials of the caller
    are. *)
Theorem broadcast_event_rejects_non_leader svc context ev w project :
  stash w !! event_project_id ev = Some project ->
  verify_key (state_sync_leader project)
    <> server_verify_key (server context) ->
  broadcast_event svc context ev w =
    (inl (SyftException "Only the leader of the project can broadcast events"),
     w).
Proof.
  intros Hstored Hkey. unfold broadcast_event.
  rewrite (bind_value _ _ w w (Ok project))
    by (unfold stash_get_by_uid; by rewrite Hstored).
  simpl unwrap. rewrite bind_ret.
  rewrite (bind_value _ _ w w
             (Err (SyftException "Only the project leader can do this operation")))
    by (rewrite validate_project_leader_result;
        by rewrite bool_decide_eq_true_2).
  reflexivity.
Qed.

(** The follower's node is asked to broadcast the second event. *)
Lemma broadcast_event_rejects_non_leader_witness :
  broadcast_event (services true (inr Sent)) ctx_follower e2 (world_with [e1])
  = (inl (SyftException "Only the leader of the project can broadcast events"),
     world_with [e1]).
Proof.
  apply (broadcast_event_rejects_non_leader (services true (inr Sent))
           ctx_follower e2 (world_with [e1]) (project_with [e1]));
    [reflexivity | discriminate].
Defined.

(** *** sync *)

Lemma sync_negative svc context uid n w :
  (n < 0)%Z ->
  sync svc context uid n w =
    (inl (SyftException "Input seq_no should be a non negative integer"), w).
Proof.
  intros Hneg. unfold sync. apply Z.ltb_lt in Hneg. by rewrite Hneg.
Qed.

(** For a stored project and a [seq_no] that is not negative, [sync]
    returns [events[seq_no:]] and leaves the state alone, whoever calls:
    what the two checks find has no part in the result. *)
Lemma sync_returns_suffix svc context uid n w project :
  (0 <= n)%Z ->
  stash w !! uid = Some project ->
  sync svc context uid n w = (inr (drop (Z.to_nat n) (events project)), w).
Proof.
  intros Hn Hstored. unfold sync.
  apply Z.ltb_ge in Hn. rewrite Hn.
  rewrite (bind_value _ _ w w (Ok project))
    by (unfold stash_get_by_uid; by rewrite Hstored).
  simpl unwrap. rewrite bind_ret.
  rewrite (bind_value _ _ w w _ (validate_project_leader_result _ _ _)).
  rewrite (bind_value _ _ w w _ (validate_user_permission_result _ _ _ _)).
  reflexivity.
Qed.

Lemma sync_at_end svc context uid w project :
  stash w !! uid = Some project ->
  sync svc context uid (len_events project) w = (inr [], w).
Proof.
  intros Hstored.
  rewrite (sync_returns_suffix _ _ _ _ _ project) by (unfold len_events; lia || done).
  unfold len_events. rewrite Nat2Z.id. by rewrite drop_all.
Qed.

(** C3: [sync] is to fail with a permission error for a caller that fails
    the leader check or the permission check.  It does not: the follower's
    node, serving a user to whom the project grants no permission, asks for
    the events of the project from 0 on; both checks find an error, and
    [sync] returns the events. *)
Theorem sync_hands_events_to_non_leader :
  validate_project_leader ctx_follower (project_with [e1]) (world_with [e1])
    = (inr (Err (SyftException "Only the project leader can do this operation")),
       world_with [e1]) /\
  validate_user_permission_for_project (services false (inr Sent))
    ctx_follower (project_with [e1]) (world_with [e1])
    = (inr (Err (SyftException "User does not have permission to sync events")),
       world_with [e1]) /\
  sync (services false (inr Sent)) ctx_follower "p0000001" 0 (world_with [e1])
    = (inr [e1], world_with [e1]).
Proof. repeat split. Qed.

(** *** Notifications *)

(** When the notification service returns something that is not a
    [SyftError], or raises a [SyftException],
    [check_for_project_request] hands back a value: the exception becomes an
    [Err] value. *)
Lemma check_for_project_request_returns svc project ev context w :
  (forall n,
     notification_send svc context n = inr Sent \/
     exists e, notification_send svc context n = inl e /\
               isinstance_SyftException e = true) ->
  exists res w',
    check_for_project_request svc project ev context w = (inr res, w').
Proof.
  intros Hanswers. unfold check_for_project_request, as_result.
  destruct (event_class ev) as [target|]; [|by eexists _, _].
  case_bool_decide; [|by eexists _, _].
  unfold bind, send_notification.
  match goal with
  | |- context [notification_send svc context ?n] =>
      destruct (Hanswers n) as [-> | (e & -> & He)]
  end.
  - by eexists _, _.
  - rewrite He. by eexists _, _.
Qed.

(** A [SyftError] that the notification service returns ends
    [check_for_project_request] with a [TypeError], which the decorator
    does not catch. *)
Lemma check_for_project_request_syft_error svc project ev context w msg :
  event_class ev = ProjectRequest (server_id (server context)) ->
  (forall n, notification_send svc context n = inr (SyftError msg)) ->
  exists text w',
    check_for_project_request svc project ev context w
      = (inl (TypeError text), w').
Proof.
  intros Hclass Hanswer. unfold check_for_project_request, as_result.
  rewrite Hclass. rewrite bool_decide_eq_true_2 by done.
  unfold bind, send_notification.
  match goal with
  | |- context [notification_send svc context ?n] => rewrite (Hanswer n)
  end.
  by eexists _, _.
Qed.

(** C4: a failure to send the notification is to fail the [add_event] or
    [broadcast_event] call.  It does not when the notification service
    fails by raising a [SyftException]: the leader adds, and broadcasts, a
    request addressed to its own node while the notification service raises
    [SyftException] "mail is down"; the decorator of
    [check_for_project_request] turns the exception into an [Err] value that
    neither caller looks at, and both calls return [SyftSuccess] with the
    event appended. *)
Theorem notification_failure_is_swallowed :
  (exists w',
     check_for_project_request
       (services true (inl (SyftException "mail is down")))
       (append_event (project_with [e1]) e_request) e_request ctx_leader
       (world_with [e1])
     = (inr (Err (SyftException "mail is down")), w')) /\
  (exists reply w',
     add_event (services true (inl (SyftException "mail is down")))
       ctx_leader e_request (world_with [e1]) = (inr reply, w') /\
     message reply = "Project event e0000003 added successfully" /\
     events (value reply) = [e1; e_request]) /\
  (exists reply w',
     broadcast_event (services true (inl (SyftException "mail is down")))
       ctx_leader e_request (world_with [e1]) = (inr reply, w') /\
     message reply = "Event #2 of demo broadcasted successfully" /\
     events (value reply) = [e1; e_request]).
Proof.
  split; [|split].
  - eexists. vm_compute. reflexivity.
  - eexists _, _. split; [vm_compute; reflexivity|]. split; reflexivity.
  - eexists _, _. split; [vm_compute; reflexivity|]. split; reflexivity.
Qed.

End ProjectServiceProofs.

(** ** Further properties of syncing.py *)

Module SyncingMore.
Import Syncing.
Import SyncingProofs.
Import SyncingExamples.

(** *** The prompt for a side *)

Lemma get_user_input_loop_skips bad l rest out :
  Forall (fun b => lower b ∉ ["low"; "high"]) bad ->
  lower l ∈ ["low"; "high"] ->
  get_user_input_loop (bad ++ l :: rest) out =
    (inr (lower l),
     {| stdin := rest;
        stdout := out ++ replicate (length bad)
                           (Line "Please choose between `low` or `high`") |}).
Proof.
  intros Hbad Hl. revert out.
  induction Hbad as [|b bad Hb Hbad IH]; intros out; simpl.
  - rewrite bool_decide_eq_true_2 by done. by rewrite app_nil_r.
  - rewrite bool_decide_eq_false_2 by done. rewrite IH.
    by rewrite <- app_assoc.
Qed.

Lemma get_user_input_loop_exhausted ins out :
  Forall (fun b => lower b ∉ ["low"; "high"]) ins ->
  get_user_input_loop ins out =
    (inl EOFError,
     {| stdin := [];
        stdout := out ++ replicate (length ins)
                           (Line "Please choose between `low` or `high`") |}).
Proof.
  intros Hbad. revert out.
  induction Hbad as [|b bad Hb Hbad IH]; intros out; simpl.
  - by rewrite app_nil_r.
  - rewrite bool_decide_eq_false_2 by done. rewrite IH.
    by rewrite <- app_assoc.
Qed.

(** X1: [get_user_input_for_resolve] prints the question once, skips every
    line that is not "low" or "high" in some capitalisation, printing one
    reminder per skipped line, and returns the first line that is, in lower
    case, leaving the lines after it unread.  When no line is valid it
    raises [EOFError] with the whole input consumed. *)
Theorem get_user_input_for_resolve_first_valid_line bad l rest out :
  Forall (fun b => lower b ∉ ["low"; "high"]) bad ->
  (lower l ∈ ["low"; "high"] ->
   get_user_input_for_resolve {| stdin := bad ++ l :: rest; stdout := out |} =
     (inr (lower l),
      {| stdin := rest;
         stdout :=
           out ++
           Line "Do you want to keep the low state or the high state for these objects? choose 'low' or 'high'"
           :: replicate (length bad)
                (Line "Please choose between `low` or `high`") |})) /\
  get_user_input_for_resolve {| stdin := bad; stdout := out |} =
    (inl EOFError,
     {| stdin := [];
        stdout :=
          out ++
          Line "Do you want to keep the low state or the high state for these objects? choose 'low' or 'high'"
          :: replicate (length bad)
               (Line "Please choose between `low` or `high`") |}).
Proof.
  intros Hbad. unfold get_user_input_for_resolve, print.
  rewrite !bind_modify. simpl stdin. simpl stdout. split.
  - intros Hl. rewrite get_user_input_loop_skips by done.
    by rewrite <- app_assoc.
  - rewrite get_user_input_loop_exhausted by done. by rewrite <- app_assoc.
Qed.

Lemma get_user_input_for_resolve_first_valid_line_witness :
  get_user_input_for_resolve (console ["keep"; "Lower"; "HIGH"; "low"]) =
    (inr "high",
     {| stdin := ["low"];
        stdout :=
          [Line "Do you want to keep the low state or the high state for these objects? choose 'low' or 'high'";
           Line "Please choose between `low` or `high`";
           Line "Please choose between `low` or `high`"] |}).
Proof.
  assert (Hbad : Forall (fun b => lower b ∉ ["low"; "high"]) ["keep"; "Lower"]).
  { repeat constructor; intros H;
      repeat (apply elem_of_cons in H as [H|H]; [discriminate H|]);
      by apply elem_of_nil in H. }
  destruct (get_user_input_for_resolve_first_valid_line
              ["keep"; "Lower"] "HIGH" ["low"] [] Hbad) as [Hfirst _].
  apply Hfirst. apply list_elem_of_further, list_elem_of_here.
Defined.

(** *** The four outcomes of the decision for one diff *)

Lemma decide_diff_cases code unpublished to_share side d sd :
  decide_diff code unpublished to_share side d = inr sd ->
  diff sd = d /\ decision sd = side /\
  ((high_is_job d = true /\
    exists c, code = Some c /\ mockify sd = false /\
              new_permissions_lowside sd = [read_permission d c]) \/
   (high_is_job d = false /\ d ∈ unpublished /\ d ∈ to_share /\
    exists c, code = Some c /\ mockify sd = false /\
              new_permissions_lowside sd = [read_permission d c]) \/
   (high_is_job d = false /\ d ∈ unpublished /\ (d ∉ to_share) /\
    mockify sd = true /\ new_permissions_lowside sd = []) \/
   (high_is_job d = false /\ (d ∉ unpublished) /\
    mockify sd = false /\ new_permissions_lowside sd = [])).
Proof.
  intros Hd. destruct (decide_diff_diff_side _ _ _ _ _ _ Hd) as [Hdiff Hside].
  repeat (split; [done|]).
  unfold decide_diff in Hd.
  destruct (high_is_job d).
  - left. destruct code as [c|]; [|discriminate].
    injection Hd as <-. split; [done|]. by exists c.
  - right. case_bool_decide as Hunp; simpl in Hd.
    + case_bool_decide as Hsel; simpl in Hd.
      * left. destruct code as [c|]; [|discriminate].
        injection Hd as <-. repeat (split; [done|]). by exists c.
      * right. left. by injection Hd as <-.
    + right. right. by injection Hd as <-.
Qed.

(** The loop over the diffs fails only with "Job without user code" when
    nothing is private. *)
Lemma decisions_loop_no_code to_share side ds acc :
  (exists d, d ∈ ds /\ high_is_job d = true) ->
  decisions_loop None [] to_share side ds acc
    = inl (ValueError "Job without user code").
Proof.
  revert acc. induction ds as [|d ds IH]; intros acc (j & Hj & Hjob).
  - by apply elem_of_nil in Hj.
  - simpl. unfold decide_diff.
    destruct (high_is_job d) eqn:Hd; [done|].
    rewrite bool_decide_eq_false_2 by apply not_elem_of_nil. simpl.
    apply IH. exists j. split; [|done].
    apply elem_of_cons in Hj as [->|Hj]; [congruence|done].
Qed.

(** *** When the console is left alone *)

Lemma ask_user_input_permission_nil code c :
  ask_user_input_permission code [] c = (inr [], c).
Proof. reflexivity. Qed.

Lemma get_sync_decisions_console batch side share c :
  share = true \/ unpublished_private_high_diffs batch = [] ->
  snd (get_sync_decisions_for_batch_items batch side share c) = c.
Proof.
  intros Hquiet. unfold get_sync_decisions_for_batch_items.
  destruct (Nat.ltb 1 (length (user_codes_high batch))); [done|].
  destruct (bool_decide (head (user_codes_high batch) = None)
            && negb (Nat.eqb (length (unpublished_private_high_diffs batch)) 0));
    [done|].
  assert (Hshare :
    exists ts,
      private_high_diffs_to_share share (head (user_codes_high batch))
        (unpublished_private_high_diffs batch) c = (inr ts, c)).
  { unfold private_high_diffs_to_share.
    destruct Hquiet as [->| ->]; [by eexists|].
    destruct share; by eexists. }
  destruct Hshare as [ts Hshare].
  by rewrite (bind_value _ _ _ _ _ Hshare).
Qed.

(** *** The exceptions of a batch resolution *)

Lemma decisions_loop_error code unpublished to_share side ds acc e :
  (code = None -> unpublished = []) ->
  decisions_loop code unpublished to_share side ds acc = inl e ->
  e = ValueError "Job without user code".
Proof.
  intros Hgov. revert acc. induction ds as [|d ds IH]; intros acc; simpl;
    [discriminate|].
  destruct (decide_diff code unpublished to_share side d) as [e'|sd] eqn:Hd;
    [|apply IH].
  intros [= ->]. unfold decide_diff in Hd.
  destruct (high_is_job d).
  - destruct code; [discriminate|]. by injection Hd as <-.
  - destruct code as [c|].
    + by repeat (match type of Hd with
                 | context [if ?b then _ else _] => destruct b
                 end).
    + rewrite (Hgov eq_refl) in Hd.
      rewrite bool_decide_eq_false_2 in Hd by apply not_elem_of_nil.
      discriminate.
Qed.

Lemma ask_user_input_permission_error code all c e :
  fst (ask_user_input_permission (Some code) all c) = inl e -> e = EOFError.
Proof.
  unfold ask_user_input_permission. destruct all as [|d all]; [discriminate|].
  unfold print. rewrite bind_modify.
  apply share_loop_raises_only_eof.
Qed.

Lemma get_sync_decisions_raises batch side share c e :
  fst (get_sync_decisions_for_batch_items batch side share c) = inl e ->
  e = ValueError "too many user codes" \/
  e = ValueError "Found unpublished private objects without user code" \/
  e = ValueError "Job without user code" \/
  (share = false /\ unpublished_private_high_diffs batch <> [] /\
   e = EOFError).
Proof.
  unfold get_sync_decisions_for_batch_items.
  destruct (Nat.ltb 1 (length (user_codes_high batch)));
    [intros [= <-]; by left|].
  destruct (bool_decide (head (user_codes_high batch) = None)
            && negb (Nat.eqb (length (unpublished_private_high_diffs batch)) 0))
    eqn:Hgov; [intros [= <-]; right; by left|].
  assert (Hnone : head (user_codes_high batch) = None ->
                  unpublished_private_high_diffs batch = []).
  { intros Hnone. rewrite bool_decide_eq_true_2 in Hgov by done.
    simpl in Hgov. apply negb_false_iff, Nat.eqb_eq in Hgov.
    by apply length_zero_iff_nil. }
  unfold bind, private_high_diffs_to_share.
  destruct share.
  - unfold ret, lift. simpl. intros He.
    apply decisions_loop_error in He; [|done]. right. right. by left.
  - destruct (head (user_codes_high batch)) as [code|] eqn:Hcode.
    + pose proof (ask_user_input_permission_error code
                    (unpublished_private_high_diffs batch) c) as Hask.
      destruct (ask_user_input_permission (Some code)
                  (unpublished_private_high_diffs batch) c)
        as [[e'|ts] c1] eqn:Hrun.
      * intros [= <-]. right. right. right. split; [done|].
        split; [|by apply Hask].
        intros Hnil. rewrite Hnil in Hrun. discriminate.
      * unfold lift. simpl. intros He.
        apply decisions_loop_error in He; [|done]. right. right. by left.
    + rewrite (Hnone eq_refl). rewrite ask_user_input_permission_nil.
      unfold lift. simpl. intros He.
      apply decisions_loop_error in He; [|done]. right. right. by left.
Qed.

(** X2: the only exceptions [get_sync_decisions_for_batch_items] raises are
    the three [ValueError]s "too many user codes", "Found unpublished
    private objects without user code" and "Job without user code", and,
    when it asks the user, [EOFError] on an exhausted input.  In
    particular the access to [user_code_high.user_verify_key] never fails.
    With [share_private_objects] set, or with nothing private in the batch,
    the call neither reads nor prints. *)
Theorem get_sync_decisions_exceptions batch side share c :
  (forall e,
     fst (get_sync_decisions_for_batch_items batch side share c) = inl e ->
     e = ValueError "too many user codes" \/
     e = ValueError "Found unpublished private objects without user code" \/
     e = ValueError "Job without user code" \/
     (share = false /\ unpublished_private_high_diffs batch <> [] /\
      e = EOFError)) /\
  (share = true \/ unpublished_private_high_diffs batch = [] ->
   snd (get_sync_decisions_for_batch_items batch side share c) = c).
Proof.
  split; [apply get_sync_decisions_raises|apply get_sync_decisions_console].
Qed.

Lemma get_sync_decisions_exceptions_witness :
  snd (get_sync_decisions_for_batch_items batch_run "high" true
         (console ["unread"]))
  = console ["unread"].
Proof.
  apply (proj2 (get_sync_decisions_exceptions batch_run "high" true
                  (console ["unread"]))).
  by left.
Defined.

(** X3: a batch with a [Job] among its high-side objects, no [UserCode]
    and nothing private cannot be resolved: the call raises
    [ValueError] "Job without user code", whatever the side and the share
    flag, without reading or printing. *)
Theorem job_without_user_code batch side share c d o :
  user_codes_high batch = [] ->
  unpublished_private_high_diffs batch = [] ->
  d ∈ diffs batch ->
  high_obj d = Some o ->
  obj_class o = IsJob ->
  get_sync_decisions_for_batch_items batch side share c
    = (inl (ValueError "Job without user code"), c).
Proof.
  intros Hcodes Hpriv Hd Ho Hjob.
  unfold get_sync_decisions_for_batch_items. rewrite Hcodes, Hpriv. simpl.
  assert (Hshare : private_high_diffs_to_share share None [] c = (inr [], c))
    by by destruct share.
  rewrite (bind_value _ _ _ _ _ Hshare). unfold lift.
  rewrite decisions_loop_no_code; [done|].
  exists d. split; [done|]. unfold high_is_job. by rewrite Ho, Hjob.
Qed.

Lemma job_without_user_code_witness :
  get_sync_decisions_for_batch_items {| diffs := [d_same; d_job] |} "low"
    false (console ["no"])
  = (inl (ValueError "Job without user code"), console ["no"]).
Proof.
  eapply (job_without_user_code {| diffs := [d_same; d_job] |} "low" false
            (console ["no"]) d_job);
    [reflexivity | reflexivity | | reflexivity | reflexivity].
  apply list_elem_of_further, list_elem_of_here.
Defined.

(** *** What the decisions can hold *)

Lemma decisions_of_run batch side share c sds c' sd :
  get_sync_decisions_for_batch_items batch side share c = (inr sds, c') ->
  sd ∈ sds ->
  exists to_share,
    private_high_diffs_to_share share (head (user_codes_high batch))
      (unpublished_private_high_diffs batch) c = (inr to_share, c') /\
    length (user_codes_high batch) <= 1 /\
    diff sd ∈ diffs batch /\
    decide_diff (head (user_codes_high batch))
      (unpublished_private_high_diffs batch) to_share side (diff sd) = inr sd.
Proof.
  intros Hrun Hsd.
  apply get_sync_decisions_inv in Hrun as (Hlen & _ & to_share & Hshare & Hall).
  exists to_share. repeat (split; [done|]).
  apply list_elem_of_lookup_1 in Hsd as [i Hi].
  destruct (Forall2_lookup_r _ _ _ _ _ Hall Hi) as (d & Hd & Hdec).
  destruct (decide_diff_diff_side _ _ _ _ _ _ Hdec) as [-> _].
  split; [by eapply list_elem_of_lookup_2|done].
Qed.

(** X4: in the result of a batch resolution, every decision has either no
    new permission or exactly one, which is [READ] on the object of the
    decision's own diff for the user of the governing code, the one
    [UserCode] among the high-side objects of the batch.  A decision with a
    permission is for a [Job] or for a private high-side object; a
    mockified decision is for a private high-side object that is not a
    [Job], and it carries no permission. *)
Theorem new_permissions_are_read_grants batch side share c sds c' sd :
  get_sync_decisions_for_batch_items batch side share c = (inr sds, c') ->
  sd ∈ sds ->
  (new_permissions_lowside sd = [] \/
   exists code,
     governing_code batch code /\
     (high_is_job (diff sd) = true \/ is_private_high (diff sd) = true) /\
     new_permissions_lowside sd =
       [ {| uid := object_id (diff sd); permission := READ;
            credentials := user_verify_key code |} ]) /\
  (mockify sd = true ->
   new_permissions_lowside sd = [] /\
   is_private_high (diff sd) = true /\ high_is_job (diff sd) = false).
Proof.
  intros Hrun Hsd.
  destruct (decisions_of_run _ _ _ _ _ _ _ Hrun Hsd)
    as (ts & _ & Hlen & _ & Hdec).
  apply decide_diff_cases in Hdec
    as (_ & _ & [(Hjob & code & Hcode & Hm & Hp)
                |[(Hjob & Hu & _ & code & Hcode & Hm & Hp)
                 |[(Hjob & Hu & _ & Hm & Hp)|(Hjob & _ & Hm & Hp)]]]).
  - split; [|congruence]. right. exists code.
    split; [by apply user_codes_high_governing, head_singleton|].
    split; [by left|done].
  - split; [|congruence]. right. exists code.
    split; [by apply user_codes_high_governing, head_singleton|].
    split; [|done].
    right. by apply elem_of_unpublished in Hu as [_ ?].
  - split; [by left|]. intros _. split; [done|].
    split; [|done]. by apply elem_of_unpublished in Hu as [_ ?].
  - split; [by left|]. congruence.
Qed.

(** The run batch with a log, when the user shares the result only: every
    grant is a [READ] grant to the user of the code of the batch. *)
Lemma new_permissions_are_read_grants_witness :
  exists sds c',
    get_sync_decisions_for_batch_items batch_run_log "high" false
      (console ["abc1"; "no"]) = (inr sds, c') /\
    Forall (fun sd =>
              (new_permissions_lowside sd = [] \/
               new_permissions_lowside sd =
                 [ {| uid := object_id (diff sd); permission := READ;
                      credentials := "key-alice" |} ]) /\
              (mockify sd = true -> new_permissions_lowside sd = [])) sds.
Proof.
  eexists _, _. split; [vm_compute; reflexivity|].
  apply Forall_forall. intros sd Hsd.
  destruct (new_permissions_are_read_grants batch_run_log "high" false
              (console ["abc1"; "no"]) _ _ sd
              ltac:(vm_compute; reflexivity) Hsd)
    as [[Hnone|(code & Hgov & _ & Hperm)] Hmock].
  - split; [by left|]. intros Hm. by apply Hmock.
  - assert (code_alice = code) as <-
      by exact (governing_code_unique batch_run_log code 3 d_code _
                  code_alice Hgov eq_refl eq_refl eq_refl).
    split; [by right|]. intros Hm. by apply Hmock.
Defined.

(** X5: in the result of a batch resolution, a diff whose high-side object
    is absent, or is neither private nor a [Job], is passed on as it is:
    its decision has [mockify = false] and no new permission, whatever was
    chosen for sharing. *)
Theorem public_diff_shared_as_is batch side share c sds c' i d :
  get_sync_decisions_for_batch_items batch side share c = (inr sds, c') ->
  diffs batch !! i = Some d ->
  (forall o, high_obj d = Some o ->
             has_private_sync_attrs o = false /\ obj_class o <> IsJob) ->
  exists sd,
    sds !! i = Some sd /\ diff sd = d /\
    mockify sd = false /\ new_permissions_lowside sd = [].
Proof.
  intros Hrun Hi Hpublic.
  apply get_sync_decisions_inv in Hrun as (_ & _ & to_share & _ & Hall).
  destruct (Forall2_lookup_l _ _ _ _ _ Hall Hi) as (sd & Hsd & Hdec).
  exists sd. split; [done|].
  assert (Hjob : high_is_job d = false).
  { unfold high_is_job. destruct (high_obj d) as [o|] eqn:Ho; [|done].
    destruct (Hpublic o eq_refl) as [_ Hcls]. by destruct (obj_class o). }
  assert (Hpriv : is_private_high d = false).
  { unfold is_private_high. destruct (high_obj d) as [o|] eqn:Ho; [|done].
    by destruct (Hpublic o eq_refl). }
  apply decide_diff_cases in Hdec
    as (Hdiff & _ & [(Hj & _)|[(_ & Hu & _)|[(_ & Hu & _)|(_ & _ & Hm & Hp)]]]);
    try congruence; try done;
    apply elem_of_unpublished in Hu as [_ Hu]; congruence.
Qed.

Lemma public_diff_shared_as_is_witness :
  exists sds c',
    get_sync_decisions_for_batch_items batch_run "high" true (console [])
      = (inr sds, c') /\
    exists sd,
      sds !! 2 = Some sd /\ diff sd = d_code /\
      mockify sd = false /\ new_permissions_lowside sd = [].
Proof.
  eexists _, _. split; [vm_compute; reflexivity|].
  eapply (public_diff_shared_as_is batch_run "high" true (console [])
            _ _ 2 d_code); [vm_compute; reflexivity | reflexivity |].
  intros o [= <-]. split; [reflexivity|discriminate].
Defined.

(** X6: with [share_private_objects] set, a batch resolution reads nothing
    and mockifies nothing: every decision has [mockify = false], and every
    diff with a private high-side object gets the [READ] permission for the
    user of the governing code, the one [UserCode] among the high-side
    objects of the batch. *)
Theorem share_private_objects_shares_all batch side c sds c' sd :
  get_sync_decisions_for_batch_items batch side true c = (inr sds, c') ->
  sd ∈ sds ->
  c' = c /\
  mockify sd = false /\
  (is_private_high (diff sd) = true ->
   exists code,
     governing_code batch code /\
     new_permissions_lowside sd =
       [ {| uid := object_id (diff sd); permission := READ;
            credentials := user_verify_key code |} ]).
Proof.
  intros Hrun Hsd.
  pose proof (get_sync_decisions_console batch side true c (or_introl eq_refl))
    as Hc. rewrite Hrun in Hc. simpl in Hc.
  destruct (decisions_of_run _ _ _ _ _ _ _ Hrun Hsd)
    as (ts & Hts & Hlen & Hin & Hdec).
  simpl in Hts. injection Hts as <- _.
  split; [done|].
  apply decide_diff_cases in Hdec
    as (_ & _ & [(Hjob & code & Hcode & Hm & Hp)
                |[(Hjob & Hu & _ & code & Hcode & Hm & Hp)
                 |[(Hjob & Hu & Hnot & _)|(Hjob & Hnot & Hm & Hp)]]]).
  - split; [done|]. intros _. exists code.
    split; [by apply user_codes_high_governing, head_singleton|done].
  - split; [done|]. intros _. exists code.
    split; [by apply user_codes_high_governing, head_singleton|done].
  - done.
  - split; [done|]. intros Hpriv. exfalso. apply Hnot.
    by apply elem_of_unpublished.
Qed.

(** The run batch with a log: the line on the input is left unread, nothing
    is mockified, and the private result and log are granted to the user of
    the code of the batch. *)
Lemma share_private_objects_shares_all_witness :
  exists sds c',
    get_sync_decisions_for_batch_items batch_run_log "low" true (console ["x"])
      = (inr sds, c') /\
    c' = console ["x"] /\
    Forall (fun sd =>
              mockify sd = false /\
              (is_private_high (diff sd) = true ->
               new_permissions_lowside sd =
                 [ {| uid := object_id (diff sd); permission := READ;
                      credentials := "key-alice" |} ])) sds.
Proof.
  eexists _, _. split; [vm_compute; reflexivity|].
  split; [reflexivity|].
  apply Forall_forall. intros sd Hsd.
  destruct (share_private_objects_shares_all batch_run_log "low"
              (console ["x"]) _ _ sd ltac:(vm_compute; reflexivity) Hsd)
    as (_ & Hmock & Hgrant).
  split; [done|]. intros Hpriv.
  destruct (Hgrant Hpriv) as (code & Hgov & Hperm).
  assert (code_alice = code) as <-
    by exact (governing_code_unique batch_run_log code 3 d_code _
                code_alice Hgov eq_refl eq_refl eq_refl).
  done.
Defined.

(** *** What the user can select *)

Lemma list_remove_spec {A} `{EqDecision A} (x : A) (l l' : list A) :
  list_remove x l = Some l' ->
  (forall y, y ∈ l' -> y ∈ l) /\
  length l = S (length l') /\
  (NoDup l -> NoDup l' /\ x ∉ l').
Proof.
  revert l'. induction l as [|y l IH]; intros l' Hrem; simpl in Hrem;
    [discriminate|].
  destruct (decide (y = x)) as [->|Hne].
  - injection Hrem as <-. split; [intros; by apply list_elem_of_further|].
    split; [done|]. intros Hnd. by apply NoDup_cons in Hnd as [? ?].
  - destruct (list_remove x l) as [r|] eqn:Hr; [|discriminate].
    injection Hrem as <-. destruct (IH r eq_refl) as (Hsub & Hlen & Hnd).
    split; [|split].
    + intros z Hz. apply elem_of_cons in Hz as [->|Hz];
        [apply list_elem_of_here|by apply list_elem_of_further, Hsub].
    + simpl. by rewrite Hlen.
    + intros Hnodup. apply NoDup_cons in Hnodup as [Hy Hl].
      destruct (Hnd Hl) as [Hr' Hx]. split.
      * apply NoDup_cons. split; [|done]. intros Hyr. by apply Hy, Hsub.
      * intros Hxr. apply elem_of_cons in Hxr as [->|Hxr]; [done|by apply Hx].
Qed.

(** The loop ends with the selections it started with: nothing new. *)
Ltac nothing_selected :=
  exists []; rewrite app_nil_r;
  split; [done|];
  split; [intros ? Hnil; by apply elem_of_nil in Hnil|];
  split; [simpl; lia|];
  split; [intros _; constructor|].

(** What a run of the sharing loop returns: the selections it started
    with, followed by candidates it was given, each at most once when the
    candidates are distinct; and it reads the input from the front. *)
Lemma share_loop_sound key remaining to_share ins out sel c' :
  share_loop key remaining to_share ins out = (inr sel, c') ->
  exists new,
    sel = to_share ++ new /\
    (forall d, d ∈ new -> d ∈ remaining) /\
    length new <= length remaining /\
    (NoDup remaining -> NoDup new) /\
    stdin c' `suffix_of` ins.
Proof.
  revert remaining to_share out.
  induction ins as [|res ins IH]; intros remaining to_share out Hrun;
    destruct remaining as [|d0 rem]; simpl in Hrun; try discriminate.
  - injection Hrun as <- <-. nothing_selected. done.
  - injection Hrun as <- <-. nothing_selected. done.
  - change (share_loop key (d0 :: rem) to_share (res :: ins) out
            = (inr sel, c')) in Hrun.
    rewrite share_loop_step in Hrun. cbv zeta in Hrun.
    assert (Hstop : forall o,
      (@inr Exception _ to_share, {| stdin := ins; stdout := o |})
        = (inr sel, c') ->
      exists new, sel = to_share ++ new /\
        (forall d, d ∈ new -> d ∈ d0 :: rem) /\
        length new <= length (d0 :: rem) /\
        (NoDup (d0 :: rem) -> NoDup new) /\
        stdin c' `suffix_of` res :: ins).
    { intros o [= <- <-]. nothing_selected. by apply suffix_cons_r. }
    assert (Hgo : forall o,
      share_loop key (d0 :: rem) to_share ins o = (inr sel, c') ->
      exists new, sel = to_share ++ new /\
        (forall d, d ∈ new -> d ∈ d0 :: rem) /\
        length new <= length (d0 :: rem) /\
        (NoDup (d0 :: rem) -> NoDup new) /\
        stdin c' `suffix_of` res :: ins).
    { intros o Ho. apply IH in Ho as (new & ? & ? & ? & ? & ?).
      exists new. repeat (split; [done|]). by apply suffix_cons_r. }
    destruct (String.eqb res "no"); [by eapply Hstop|].
    destruct (Nat.leb 3 (String.length res)); [|by eapply Hgo].
    destruct (matches_of res (d0 :: rem)) as [|d [|d' ms]] eqn:Hm;
      [by eapply Hgo| |by eapply Hstop].
    destruct (list_remove d (d0 :: rem)) as [rem'|] eqn:Hrem; [|discriminate].
    apply list_remove_spec in Hrem as (Hsub & Hlen & Hnd).
    apply IH in Hrun as (new & -> & Hnew & Hlen' & Hnodup & Hsuf).
    exists (d :: new). split; [by rewrite <- app_assoc|].
    assert (Hd : d ∈ d0 :: rem).
    { apply (matches_of_elem_of res). rewrite Hm. apply list_elem_of_here. }
    split; [|split; [|split]].
    + intros z Hz. apply elem_of_cons in Hz as [->|Hz]; [done|].
      by apply Hsub, Hnew.
    + rewrite Hlen. simpl. lia.
    + intros Hnd0. destruct (Hnd Hnd0) as [Hnd' Hd'].
      apply NoDup_cons. split; [|by apply Hnodup].
      intros Hdn. by apply Hd', Hnew.
    + by apply suffix_cons_r.
Qed.

(** X7: what [ask_user_input_permission] returns is a selection among the
    private diffs it was given: every returned diff is one of them, none is
    returned twice when they are distinct, and the lines left on the input
    are a suffix of the lines there were. *)
Theorem ask_user_input_permission_selects_candidates code all c sel c' :
  ask_user_input_permission code all c = (inr sel, c') ->
  (forall d, d ∈ sel -> d ∈ all) /\
  length sel <= length all /\
  (NoDup all -> NoDup sel) /\
  stdin c' `suffix_of` stdin c.
Proof.
  unfold ask_user_input_permission.
  destruct all as [|d0 all].
  - intros [= <- <-].
    split; [done|]. split; [done|]. split; [intros _; constructor|done].
  - destruct code as [code|]; [|discriminate].
    unfold print. rewrite bind_modify. simpl stdin. simpl stdout.
    intros Hrun. apply share_loop_sound in Hrun
      as (new & -> & Hnew & Hlen & Hnd & Hsuf).
    done.
Qed.

Lemma ask_user_input_permission_selects_candidates_witness :
  exists sel c',
    ask_user_input_permission (Some code_alice) [d_result; d_log]
      (console ["abc2"; "zzzz"; "no"; "abc1"]) = (inr sel, c') /\
    (forall d, d ∈ sel -> d ∈ [d_result; d_log]) /\
    length sel <= 2 /\
    (NoDup [d_result; d_log] -> NoDup sel) /\
    stdin c' `suffix_of` ["abc2"; "zzzz"; "no"; "abc1"].
Proof.
  eexists _, _. split; [vm_compute; reflexivity|].
  eapply (ask_user_input_permission_selects_candidates (Some code_alice)
            [d_result; d_log] (console ["abc2"; "zzzz"; "no"; "abc1"])).
  vm_compute. reflexivity.
Defined.

(** *** The whole of resolve *)

(** One pass of the [resolve] loop on a batch that is not all [SAME], when
    the side was supplied. *)
Lemma resolve_loop_step_given b rest side share low high c :
  all_same b = false ->
  resolve_loop (b :: rest) (Some side) share low high c =
  match get_sync_decisions_for_batch_items b side share
          {| stdin := stdin c; stdout := stdout c ++ [BatchRepr b] |} with
  | (inl e, c2) => (inl e, c2)
  | (inr sds, c2) =>
      resolve_loop rest (Some side) share (add_all low sds) (add_all high sds)
        {| stdin := stdin c2;
           stdout := (((stdout c2 ++ [DecisionLine b side]) ++ [Line ""])
                      ++ [Line rule]) ++ [Line ""] |}
  end.
Proof.
  intros Hsame. simpl. rewrite Hsame. unfold print.
  rewrite bind_modify, bind_ret. unfold bind at 1.
  by destruct (get_sync_decisions_for_batch_items b side share _)
    as [[e|sds] c2].
Qed.

Lemma resolve_loop_quiet hs side low high c :
  stdin (snd (resolve_loop hs (Some side) true low high c)) = stdin c /\
  (forall e,
     fst (resolve_loop hs (Some side) true low high c) = inl e ->
     e = ValueError "too many user codes" \/
     e = ValueError "Found unpublished private objects without user code" \/
     e = ValueError "Job without user code").
Proof.
  revert low high c. induction hs as [|b hs IH]; intros low high c.
  - simpl. split; [done|discriminate].
  - destruct (all_same b) eqn:Hsame.
    + simpl. rewrite Hsame. apply IH.
    + rewrite resolve_loop_step_given by done.
      set (c1 := {| stdin := stdin c; stdout := stdout c ++ [BatchRepr b] |}).
      pose proof (get_sync_decisions_raises b side true c1) as Herr.
      pose proof (get_sync_decisions_console b side true c1
                    (or_introl eq_refl)) as Hcon.
      destruct (get_sync_decisions_for_batch_items b side true c1)
        as [[e|sds] c2]; simpl in Hcon; subst c2.
      * simpl. split; [done|]. intros e' [= <-].
        destruct (Herr e eq_refl) as [?|[?|[?|(? & _)]]]; auto. discriminate.
      * match goal with
        | |- context [resolve_loop hs (Some side) true ?l ?h ?k] =>
            destruct (IH l h k) as [Hin Herr']
        end.
        split; [by rewrite Hin|done].
Qed.

(** X8: with the side supplied and [share_private_objects] set, [resolve]
    never reads the input, so it cannot block on a prompt, and the only
    exceptions it can raise are the three [ValueError]s of a batch
    resolution. *)
Theorem resolve_without_prompts state side c :
  stdin (snd (resolve state (Some side) true c)) = stdin c /\
  (forall e,
     fst (resolve state (Some side) true c) = inl e ->
     e = ValueError "too many user codes" \/
     e = ValueError "Found unpublished private objects without user code" \/
     e = ValueError "Job without user code").
Proof. apply resolve_loop_quiet. Qed.

Lemma get_user_input_for_resolve_side c side c' :
  get_user_input_for_resolve c = (inr side, c') -> side ∈ ["low"; "high"].
Proof.
  unfold get_user_input_for_resolve, print. rewrite bind_modify.
  simpl stdin. simpl stdout. intros Hrun.
  destruct (get_user_input_loop_outcome (stdin c)
              (stdout c ++ [Line "Do you want to keep the low state or the high state for these objects? choose 'low' or 'high'"]))
    as [Heof|(s' & Hs & Hin)]; rewrite Hrun in *; simpl in *.
  - discriminate.
  - by injection Hs as ->.
Qed.

Lemma decisions_carry_side batch side share c sds c' :
  get_sync_decisions_for_batch_items batch side share c = (inr sds, c') ->
  Forall (fun sd => decision sd = side) sds.
Proof.
  intros Hrun. apply Forall_forall. intros sd Hsd.
  destruct (decisions_of_run _ _ _ _ _ _ _ Hrun Hsd)
    as (ts & _ & _ & _ & Hdec).
  by destruct (decide_diff_diff_side _ _ _ _ _ _ Hdec) as [_ Hs].
Qed.

(** What a successful [resolve] loop did to the two states. *)
Lemma resolve_loop_result hs given share low high c low' high' c' :
  resolve_loop hs given share low high c = (inr (low', high'), c') ->
  exists sds,
    decisions low' = decisions low ++ sds /\
    decisions high' = decisions high ++ sds /\
    alias low' = alias low /\ alias high' = alias high /\
    map diff sds =
      concat (map diffs (List.filter (fun b => negb (all_same b)) hs)) /\
    Forall (fun sd => match given with
                      | Some side => decision sd = side
                      | None => decision sd ∈ ["low"; "high"]
                      end) sds.
Proof.
  revert low high c. induction hs as [|b hs IH]; intros low high c Hrun;
    simpl in Hrun.
  - injection Hrun as <- <- <-. exists []. by rewrite !app_nil_r.
  - simpl. destruct (all_same b) eqn:Hsame; simpl; [by apply IH in Hrun|].
    unfold bind in Hrun.
    destruct (print (BatchRepr b) c) as [[?|[]] c1]; [done|].
    destruct (match given with
              | Some side => ret side
              | None => get_user_input_for_resolve
              end c1) as [[?|side] c2] eqn:Hside; [done|].
    destruct (get_sync_decisions_for_batch_items b side share c2)
      as [[?|new] c3] eqn:Hnew; [done|].
    simpl in Hrun.
    apply IH in Hrun as (sds & Hlow & Hhigh & Hal & Hah & Hmap & Hsides).
    destruct (add_all_decisions low new) as [Hl Hla].
    destruct (add_all_decisions high new) as [Hh Hha].
    rewrite Hl in Hlow. rewrite Hh in Hhigh. rewrite Hla in Hal.
    rewrite Hha in Hah.
    exists (new ++ sds). rewrite !app_assoc.
    repeat (split; [done|]). split.
    + rewrite map_app, Hmap. f_equal. by eapply decisions_follow_diffs.
    + apply Forall_app. split; [|done].
      eapply Forall_impl; [by eapply decisions_carry_side|].
      intros sd ->. destruct given as [s0|].
      * by injection Hside as ->.
      * by eapply get_user_input_for_resolve_side.
Qed.

(** X9: when [resolve] returns, the two states keep their aliases "low"
    and "high" and hold the same decisions: one per diff of every batch
    that is not all [SAME], in the order of the batches and of their
    diffs.  Every decision carries the side that was supplied, as it was
    supplied; when none was supplied, a side that is "low" or "high". *)
Theorem resolve_fills_both_states state given share c low high c' :
  resolve state given share c = (inr (low, high), c') ->
  alias low = "low" /\ alias high = "high" /\
  decisions low = decisions high /\
  map diff (decisions low) =
    concat (map diffs
              (List.filter (fun b => negb (all_same b)) (hierarchies state))) /\
  Forall (fun sd => match given with
                    | Some side => decision sd = side
                    | None => decision sd ∈ ["low"; "high"]
                    end) (decisions low).
Proof.
  intros Hrun. apply resolve_loop_result in Hrun
    as (sds & Hlow & Hhigh & Hal & Hah & Hmap & Hsides).
  simpl in Hlow, Hhigh, Hal, Hah. rewrite Hlow, Hhigh.
  by repeat split.
Qed.

Lemma resolve_fills_both_states_witness :
  exists low high c',
    resolve {| hierarchies := [batch_same; batch_run; batch_run_log] |}
      None false (console ["High"; "no"; "low"; "abc2"; "no"])
    = (inr (low, high), c') /\
    alias low = "low" /\ alias high = "high" /\
    decisions low = decisions high /\
    map diff (decisions low) =
      [d_result; d_job; d_code; d_result; d_log; d_job; d_code] /\
    Forall (fun sd => decision sd ∈ ["low"; "high"]) (decisions low).
Proof.
  eexists _, _, _. split; [vm_compute; reflexivity|].
  eapply (resolve_fills_both_states
            {| hierarchies := [batch_same; batch_run; batch_run_log] |}
            None false (console ["High"; "no"; "low"; "abc2"; "no"])).
  vm_compute. reflexivity.
Defined.

End SyncingMore.

(** ** Further properties of project_service.py *)

Module ProjectServiceMore.
Import ProjectService.
Import ProjectServiceProofs.
Import ProjectExamples.

(** *** Reading the stash *)

Lemma stash_get_found key u w project :
  stash w !! u = Some project ->
  stash_get_by_uid key u w = (inr (Ok project), w).
Proof. intros H. unfold stash_get_by_uid. by rewrite H. Qed.

Lemma stash_get_missing key u w :
  stash w !! u = None ->
  exists msg,
    stash_get_by_uid key u w = (inr (Err (NotFoundException msg)), w).
Proof. intros H. unfold stash_get_by_uid. rewrite H. by eexists. Qed.

Lemma event_of_unknown_project svc context ev w :
  stash w !! event_project_id ev = None ->
  exists msg,
    add_event svc context ev w = (inl (NotFoundException msg), w) /\
    broadcast_event svc context ev w = (inl (NotFoundException msg), w).
Proof.
  intros Hnone.
  destruct (stash_get_missing (server_verify_key (server context)) _ _ Hnone)
    as [msg Hget].
  exists msg. unfold add_event, broadcast_event.
  rewrite !(bind_value _ _ _ _ _ Hget). done.
Qed.

(** X10: for an event of a project that is not in the stash, [add_event]
    and [broadcast_event] raise [NotFoundException], and so does [sync] for
    the id of such a project and a [seq_no] that is not negative; the stash
    is as before, nothing is sent and no peer is called. *)
Theorem unknown_project_is_not_found svc context ev uid n w :
  (stash w !! event_project_id ev = None ->
   exists msg,
     add_event svc context ev w = (inl (NotFoundException msg), w) /\
     broadcast_event svc context ev w = (inl (NotFoundException msg), w)) /\
  (stash w !! uid = None -> (0 <= n)%Z ->
   exists msg, sync svc context uid n w = (inl (NotFoundException msg), w)).
Proof.
  split; [apply event_of_unknown_project|].
  - intros Hnone Hn.
    destruct (stash_get_missing (server_verify_key (server context)) _ _ Hnone)
      as [msg Hget].
    exists msg. unfold sync. apply Z.ltb_ge in Hn. rewrite Hn.
    by rewrite (bind_value _ _ _ _ _ Hget).
Qed.

Lemma unknown_project_is_not_found_witness :
  exists msg,
    sync (services true (inr Sent)) ctx_leader "p0000002" 0 (world_with [e1])
    = (inl (NotFoundException msg), world_with [e1]).
Proof.
  apply (unknown_project_is_not_found (services true (inr Sent)) ctx_leader
           e1 "p0000002" 0 (world_with [e1])); [reflexivity | lia].
Defined.

(** *** Who may add an event *)

Lemma add_event_refused svc context ev w project :
  stash w !! event_project_id ev = Some project ->
  (verify_key (state_sync_leader project)
     <> server_verify_key (server context) ->
   add_event svc context ev w =
     (inl (SyftException
             "Project Events should be passed to leader by broadcast endpoint"),
      w)) /\
  (verify_key (state_sync_leader project)
     = server_verify_key (server context) ->
   credentials context <> verify_key (state_sync_leader project) ->
   add_event svc context ev w =
     (inl (SyftException "Only the leader of the project can add events"),
      w)).
Proof.
  intros Hstored. unfold add_event.
  rewrite (bind_value _ _ _ _ _ (stash_get_found _ _ _ _ Hstored)).
  simpl unwrap. rewrite bind_ret.
  rewrite (bind_value _ _ _ _ _ (validate_project_leader_result _ _ _)).
  split.
  - intros Hkey. by rewrite bool_decide_eq_true_2.
  - intros Hkey Hcred. rewrite bool_decide_eq_false_2 by (by intros ?).
    simpl unwrap. rewrite bind_ret. unfold is_project_leader.
    by rewrite bool_decide_eq_false_2.
Qed.

(** X11: [add_event] refuses, with the state unchanged, an event for a
    stored project when the node that serves the call is not the project's
    leader ("Project Events should be passed to leader by broadcast
    endpoint"), and, on the leader's node, when the credentials of the
    caller are not the leader's verify key ("Only the leader of the project
    can add events"). *)
Theorem add_event_refuses_non_leader svc context ev w project :
  stash w !! event_project_id ev = Some project ->
  (verify_key (state_sync_leader project)
     <> server_verify_key (server context) ->
   add_event svc context ev w =
     (inl (SyftException
             "Project Events should be passed to leader by broadcast endpoint"),
      w)) /\
  (verify_key (state_sync_leader project)
     = server_verify_key (server context) ->
   credentials context <> verify_key (state_sync_leader project) ->
   add_event svc context ev w =
     (inl (SyftException "Only the leader of the project can add events"),
      w)).
Proof. apply add_event_refused. Qed.

Lemma add_event_refuses_non_leader_witness :
  add_event (services true (inr Sent)) ctx_follower e2 (world_with [e1]) =
    (inl (SyftException
            "Project Events should be passed to leader by broadcast endpoint"),
     world_with [e1]) /\
  add_event (services true (inr Sent))
    {| credentials := "key-alice"; server := leader_server |} e2
    (world_with [e1]) =
    (inl (SyftException "Only the leader of the project can add events"),
     world_with [e1]).
Proof.
  split.
  - apply (add_event_refuses_non_leader (services true (inr Sent))
             ctx_follower e2 (world_with [e1]) (project_with [e1]));
      [reflexivity | discriminate].
  - apply (add_event_refuses_non_leader (services true (inr Sent))
             {| credentials := "key-alice"; server := leader_server |} e2
             (world_with [e1]) (project_with [e1]));
      [reflexivity | reflexivity | discriminate].
Defined.

(** *** Notifications for requests *)

(** X12: [check_for_project_request] hands a notification to the
    notification service exactly when the event is a [ProjectRequest] whose
    linked request is on this node.  The notification goes from the caller
    to the node's own verify key and links the project; the stash and the
    peers are not touched.  A [SyftException] that the notification service
    raises becomes an [Err] result; a [SyftError] that it returns ends the
    call with a [TypeError].  For any other event nothing happens. *)
Theorem request_notification svc project ev context w :
  (event_class ev <> ProjectRequest (server_id (server context)) ->
   check_for_project_request svc project ev context w = (inr (Ok tt), w)) /\
  (event_class ev = ProjectRequest (server_id (server context)) ->
   exists n,
     to_user_verify_key n = server_verify_key (server context) /\
     from_user_verify_key n = credentials context /\
     linked_object_uid (linked_obj n) = project_id project /\
     snd (check_for_project_request svc project ev context w) =
       {| stash := stash w;
          notifications := notifications w ++ [n];
          remote_add_events := remote_add_events w |} /\
     (notification_send svc context n = inr Sent ->
      fst (check_for_project_request svc project ev context w)
        = inr (Ok tt)) /\
     (forall msg,
        notification_send svc context n = inl (SyftException msg) ->
        fst (check_for_project_request svc project ev context w)
          = inr (Err (SyftException msg))) /\
     (forall msg,
        notification_send svc context n = inr (SyftError msg) ->
        exists text,
          fst (check_for_project_request svc project ev context w)
            = inl (TypeError text))).
Proof.
  unfold check_for_project_request, as_result. split.
  - intros Hother. destruct (event_class ev) as [u|]; [|done].
    case_bool_decide; [congruence|done].
  - intros ->. rewrite bool_decide_eq_true_2 by done.
    eexists. split; [|split; [|split; [|split; [|split; [|split]]]]].
    4: { unfold bind, send_notification.
         destruct (notification_send svc context _) as [e|[msg|]];
           [by destruct (isinstance_SyftException e)|done|done]. }
    1-3: reflexivity.
    + intros Hsent. unfold bind, send_notification. by rewrite Hsent.
    + intros msg Herr. unfold bind, send_notification. by rewrite Herr.
    + intros msg Herr. unfold bind, send_notification. rewrite Herr.
      by eexists.
Qed.

(** The leader adds a request addressed to its own node while the
    notification service raises. *)
Lemma request_notification_witness :
  exists n,
    to_user_verify_key n = "key-leader" /\
    from_user_verify_key n = "key-leader" /\
    linked_object_uid (linked_obj n) = "p0000001" /\
    snd (check_for_project_request
           (services true (inl (SyftException "down")))
           (project_with [e1]) e_request ctx_leader (world_with [e1])) =
      {| stash := stash (world_with [e1]);
         notifications := [n];
         remote_add_events := [] |} /\
    fst (check_for_project_request
           (services true (inl (SyftException "down")))
           (project_with [e1]) e_request ctx_leader (world_with [e1]))
      = inr (Err (SyftException "down")).
Proof.
  destruct (request_notification (services true (inl (SyftException "down")))
              (project_with [e1]) e_request ctx_leader (world_with [e1]))
    as [_ Hrequest].
  destruct (Hrequest eq_refl)
    as (n & Hto & Hfrom & Hlink & Hstate & _ & Hraised & _).
  exists n. repeat (split; [done|]).
  by apply Hraised.
Defined.

(** What [check_for_project_request] leaves alone, whatever it does. *)
Lemma check_for_project_request_frame svc project ev context w :
  stash (snd (check_for_project_request svc project ev context w)) = stash w /\
  remote_add_events (snd (check_for_project_request svc project ev context w))
    = remote_add_events w.
Proof.
  unfold check_for_project_request, as_result.
  destruct (event_class ev) as [u|]; [|done].
  case_bool_decide; [|done].
  unfold bind, send_notification.
  destruct (notification_send svc context _) as [e|[msg|]];
    [by destruct (isinstance_SyftException e)|done|done].
Qed.

(** *** Adding an event *)

(** The rest of [add_event] once the project is found and the two leader
    checks are passed. *)
Lemma add_event_run svc context ev w project :
  stash w !! event_project_id ev = Some project ->
  verify_key (state_sync_leader project) = server_verify_key (server context) ->
  credentials context = verify_key (state_sync_leader project) ->
  add_event svc context ev w =
    (check_for_project_request svc (append_event project ev) ev context ;;;
     updated <- stash_update (server_verify_key (server context))
                  (append_event project ev) ;;
     updated_project <- unwrap updated None ;;
     ret {| message := "Project event " +:+ event_id ev
                       +:+ " added successfully";
            value := updated_project |})%py w.
Proof.
  intros Hstored Hkey Hcred. unfold add_event.
  rewrite (bind_value _ _ _ _ _ (stash_get_found _ _ _ _ Hstored)).
  simpl unwrap. rewrite bind_ret.
  rewrite (bind_value _ _ _ _ _ (validate_project_leader_result _ _ _)).
  rewrite bool_decide_eq_false_2 by (by intros ?).
  simpl unwrap. rewrite bind_ret. unfold is_project_leader.
  by rewrite bool_decide_eq_true_2.
Qed.

(** Writing a project back under an id that is stored. *)
Lemma stash_update_stored key project w :
  is_Some (stash w !! project_id project) ->
  stash_update key project w =
    (inr (Ok project),
     {| stash := <[project_id project := project]> (stash w);
        notifications := notifications w;
        remote_add_events := remote_add_events w |}).
Proof. intros [q Hq]. unfold stash_update. by rewrite Hq. Qed.

Lemma stash_update_missing key project w :
  stash w !! project_id project = None ->
  exists msg,
    stash_update key project w = (inr (Err (NotFoundException msg)), w).
Proof. intros Hq. unfold stash_update. rewrite Hq. by eexists. Qed.

(** What a successful [add_event] went through and did. *)
Lemma add_event_inv svc context ev w reply w' :
  add_event svc context ev w = (inr reply, w') ->
  exists project,
    stash w !! event_project_id ev = Some project /\
    verify_key (state_sync_leader project)
      = server_verify_key (server context) /\
    credentials context = verify_key (state_sync_leader project) /\
    value reply = append_event project ev /\
    stash w' = <[project_id project := append_event project ev]> (stash w) /\
    remote_add_events w' = remote_add_events w.
Proof.
  intros Hrun.
  destruct (stash w !! event_project_id ev) as [project|] eqn:Hstored.
  2: { destruct (event_of_unknown_project svc context ev w Hstored)
         as (msg & Hadd & _). congruence. }
  exists project. split; [done|].
  destruct (add_event_refused svc context ev w project Hstored)
    as [Hnode Hcaller].
  destruct (decide (verify_key (state_sync_leader project)
                    = server_verify_key (server context))) as [Hkey|Hkey];
    [|rewrite (Hnode Hkey) in Hrun; discriminate].
  destruct (decide (credentials context
                    = verify_key (state_sync_leader project))) as [Hcred|Hcred];
    [|rewrite (Hcaller Hkey Hcred) in Hrun; discriminate].
  repeat (split; [done|]).
  rewrite (add_event_run _ _ _ _ _ Hstored Hkey Hcred) in Hrun.
  destruct (check_for_project_request_frame svc (append_event project ev)
              ev context w) as [Hstash Hremote].
  unfold bind at 1 in Hrun.
  destruct (check_for_project_request svc (append_event project ev) ev
              context w) as [[e|res] w1]; [discriminate|].
  simpl in Hstash, Hremote.
  destruct (stash w1 !! project_id (append_event project ev)) eqn:Hq.
  - rewrite (bind_value _ _ _ _ _
               (stash_update_stored _ _ _ (mk_is_Some _ _ Hq))) in Hrun.
    simpl unwrap in Hrun. rewrite bind_ret in Hrun.
    injection Hrun as <- <-. simpl. by rewrite Hstash.
  - destruct (stash_update_missing (server_verify_key (server context))
                _ _ Hq) as [msg Hupd].
    rewrite (bind_value _ _ _ _ _ Hupd) in Hrun. discriminate.
Qed.

(** X13: [add_event] returns only for the leader: whenever it returns, the
    project of the event is stored, the node serving the call has the
    verify key of the project's [state_sync_leader], and so has the caller.
    The project returned is the stored one with the event appended and
    indexed under its id, and it is what the stash then holds under the
    project's id; no peer is called. *)
Theorem add_event_only_for_leader svc context ev w reply w' :
  add_event svc context ev w = (inr reply, w') ->
  exists project,
    stash w !! event_project_id ev = Some project /\
    server_verify_key (server context) = verify_key (state_sync_leader project) /\
    credentials context = verify_key (state_sync_leader project) /\
    events (value reply) = events project ++ [ev] /\
    event_id_hashmap (value reply) !! event_id ev = Some ev /\
    stash w' !! project_id project = Some (value reply) /\
    remote_add_events w' = remote_add_events w.
Proof.
  intros Hrun.
  apply add_event_inv in Hrun
    as (project & Hstored & Hkey & Hcred & -> & Hstash & Hremote).
  exists project. repeat (split; [done|]).
  split; [apply lookup_insert_eq|].
  split; [|done]. rewrite Hstash. apply lookup_insert_eq.
Qed.

Lemma add_event_only_for_leader_witness :
  exists reply w',
    add_event (services true (inr Sent)) ctx_leader e2 (world_with [e1])
      = (inr reply, w') /\
    exists project,
      stash (world_with [e1]) !! event_project_id e2 = Some project /\
      server_verify_key (server ctx_leader)
        = verify_key (state_sync_leader project) /\
      credentials ctx_leader = verify_key (state_sync_leader project) /\
      events (value reply) = events project ++ [e2] /\
      event_id_hashmap (value reply) !! event_id e2 = Some e2 /\
      stash w' !! project_id project = Some (value reply) /\
      remote_add_events w' = remote_add_events (world_with [e1]).
Proof.
  eexists _, _. split; [vm_compute; reflexivity|].
  eapply (add_event_only_for_leader (services true (inr Sent)) ctx_leader e2
            (world_with [e1])).
  vm_compute. reflexivity.
Defined.

(** *** The fan-out to the members *)

(** The world after the event was passed to the given peers, in order. *)
Lemma broadcast_loop_inv svc context ev ms w w' :
  broadcast_loop svc context ev ms w = (inr tt, w') ->
  exists peers,
    Forall2
      (fun m peer =>
         network_get_by_verify_key svc (server_verify_key (server context))
           (verify_key m) = Ok peer /\
         client_with_context svc peer context = Ok tt)
      (List.filter
         (fun m => bool_decide (verify_key m
                                <> server_verify_key (server context))) ms)
      peers /\
    w' = {| stash := stash w;
            notifications := notifications w;
            remote_add_events :=
              remote_add_events w ++ map (fun peer => (peer_id peer, ev)) peers |}.
Proof.
  revert w. induction ms as [|m ms IH]; intros w Hrun; simpl in Hrun.
  - injection Hrun as <-. exists []. split; [constructor|].
    destruct w. simpl. by rewrite app_nil_r.
  - simpl. case_bool_decide as Hself; simpl.
    + destruct (network_get_by_verify_key svc _ (verify_key m))
        as [peer|e] eqn:Hpeer; [|discriminate].
      destruct (client_with_context svc peer context) as [[]|e] eqn:Hclient;
        [|discriminate].
      unfold remote_add_event in Hrun. rewrite bind_modify in Hrun.
      apply IH in Hrun as (peers & Hall & ->).
      exists (peer :: peers). split; [by constructor|].
      simpl. by rewrite <- app_assoc.
    + by apply IH.
Qed.

(** X14: when [broadcast_loop] returns, it has called [add_event] with the
    event on one peer for every member whose verify key is not the node's
    own, in the order of [project.members], each peer being the one the
    network service has for the member's key; a member with the node's own
    key is not called.  The stash and the notifications are untouched. *)
Theorem broadcast_reaches_every_other_member svc context ev ms w w' :
  broadcast_loop svc context ev ms w = (inr tt, w') ->
  stash w' = stash w /\ notifications w' = notifications w /\
  exists calls,
    remote_add_events w' = remote_add_events w ++ calls /\
    Forall2
      (fun m call =>
         exists peer,
           network_get_by_verify_key svc (server_verify_key (server context))
             (verify_key m) = Ok peer /\
           call = (peer_id peer, ev))
      (List.filter
         (fun m => bool_decide (verify_key m
                                <> server_verify_key (server context))) ms)
      calls.
Proof.
  intros Hrun. apply broadcast_loop_inv in Hrun as (peers & Hall & ->).
  simpl. repeat (split; [done|]).
  exists (map (fun peer => (peer_id peer, ev)) peers). split; [done|].
  induction Hall as [|m peer ms' peers' [Hpeer _] Hall IH]; simpl;
    constructor; [by exists peer|done].
Qed.

Lemma broadcast_reaches_every_other_member_witness :
  exists w',
    broadcast_loop (services true (inr Sent)) ctx_leader e2 [leader; follower]
      (world_with [e1]) = (inr tt, w') /\
    remote_add_events w' = [("f0110e00", e2)].
Proof.
  eexists. split; [vm_compute; reflexivity|].
  destruct (broadcast_reaches_every_other_member (services true (inr Sent))
              ctx_leader e2 [leader; follower] (world_with [e1]) _
              ltac:(vm_compute; reflexivity)) as (_ & _ & calls & Hcalls & _).
  reflexivity.
Defined.

(** The run of the loop up to the first member that cannot be reached. *)
Lemma broadcast_loop_unreachable svc context ev pre m post w peers :
  Forall2
    (fun m' peer =>
       network_get_by_verify_key svc (server_verify_key (server context))
         (verify_key m') = Ok peer /\
       client_with_context svc peer context = Ok tt)
    (List.filter
       (fun m' => bool_decide (verify_key m'
                               <> server_verify_key (server context))) pre)
    peers ->
  verify_key m <> server_verify_key (server context) ->
  let reached :=
    {| stash := stash w;
       notifications := notifications w;
       remote_add_events :=
         remote_add_events w ++ map (fun peer => (peer_id peer, ev)) peers |} in
  (forall e,
     network_get_by_verify_key svc (server_verify_key (server context))
       (verify_key m) = Err e ->
     broadcast_loop svc context ev (pre ++ m :: post) w =
       (inl (AttributeError
               "'ServerIdentity' object has no attribute 'name'"),
        reached)) /\
  (forall peer e,
     network_get_by_verify_key svc (server_verify_key (server context))
       (verify_key m) = Ok peer ->
     client_with_context svc peer context = Err e ->
     broadcast_loop svc context ev (pre ++ m :: post) w =
       (inl (SyftException
               ("Failed to create remote client for peer: "
                +:+ peer_id peer +:+ ". Error: " +:+ str_exception e)),
        reached)).
Proof.
  intros Hpre Hother reached. subst reached.
  revert w peers Hpre. induction pre as [|m0 pre IH]; intros w peers Hpre.
  - simpl in Hpre. inversion Hpre; subst. simpl map. rewrite app_nil_r.
    simpl app. simpl broadcast_loop.
    rewrite bool_decide_eq_true_2 by done.
    split.
    + intros e ->. by destruct w.
    + intros peer e -> ->. by destruct w.
  - simpl in Hpre. simpl app. simpl broadcast_loop.
    case_bool_decide as Hself; simpl in Hpre.
    + inversion Hpre as [|? peer0 ? peers0 [Hp Hc] Hrest]; subst.
      rewrite Hp, Hc. unfold remote_add_event. rewrite bind_modify.
      match goal with
      | |- context [broadcast_loop _ _ _ _ ?w1] =>
          destruct (IH w1 _ Hrest) as [Hnet Hcli]
      end.
      simpl in Hnet, Hcli.
      split.
      * intros e He. rewrite (Hnet e He). simpl. by rewrite <- app_assoc.
      * intros peer e Hpeer He. rewrite (Hcli peer e Hpeer He). simpl.
        by rewrite <- app_assoc.
    + by apply IH.
Qed.

(** X15: the member loop of [broadcast_event] stops at the first member,
    other than the node itself, for whom the network service has no peer or
    whose remote session cannot be opened.  For a member without peer the
    loop ends with an [AttributeError], raised while the message that was
    to name the member is built; for a peer whose session cannot be opened
    it ends with a [SyftException].  In both cases the event has been
    passed to the peers of the members before that one, and to no other. *)
Theorem broadcast_stops_at_first_unreachable svc context ev pre m post w peers :
  Forall2
    (fun m' peer =>
       network_get_by_verify_key svc (server_verify_key (server context))
         (verify_key m') = Ok peer /\
       client_with_context svc peer context = Ok tt)
    (List.filter
       (fun m' => bool_decide (verify_key m'
                               <> server_verify_key (server context))) pre)
    peers ->
  verify_key m <> server_verify_key (server context) ->
  let run := broadcast_loop svc context ev (pre ++ m :: post) w in
  let called :=
    remote_add_events w ++ map (fun peer => (peer_id peer, ev)) peers in
  (forall e,
     network_get_by_verify_key svc (server_verify_key (server context))
       (verify_key m) = Err e ->
     (exists text, fst run = inl (AttributeError text)) /\
     remote_add_events (snd run) = called) /\
  (forall peer e,
     network_get_by_verify_key svc (server_verify_key (server context))
       (verify_key m) = Ok peer ->
     client_with_context svc peer context = Err e ->
     (exists text, fst run = inl (SyftException text)) /\
     remote_add_events (snd run) = called).
Proof.
  intros Hpre Hother run called. subst run called.
  destruct (broadcast_loop_unreachable svc context ev pre m post w peers
              Hpre Hother) as [Hnet Hcli].
  split.
  - intros e He. rewrite (Hnet e He). simpl. split; [by eexists|done].
  - intros peer e Hpeer He. rewrite (Hcli peer e Hpeer He). simpl.
    split; [by eexists|done].
Qed.

(** The leader broadcasts to the members leader, follower, a stranger for
    whom it has no peer, and the follower again: the follower's node is
    called once. *)
Lemma broadcast_stops_at_first_unreachable_witness :
  (exists text,
     fst (broadcast_loop (services true (inr Sent)) ctx_leader e2
            ([leader; follower]
             ++ {| verify_key := "key-stranger" |} :: [follower])
            (world_with [e1]))
     = inl (AttributeError text)) /\
  remote_add_events
    (snd (broadcast_loop (services true (inr Sent)) ctx_leader e2
            ([leader; follower]
             ++ {| verify_key := "key-stranger" |} :: [follower])
            (world_with [e1])))
  = [("f0110e00", e2)].
Proof.
  assert (Hpre :
    Forall2
      (fun m' peer =>
         network_get_by_verify_key (services true (inr Sent))
           (server_verify_key (server ctx_leader)) (verify_key m') = Ok peer /\
         client_with_context (services true (inr Sent)) peer ctx_leader = Ok tt)
      (List.filter
         (fun m' => bool_decide (verify_key m'
                                 <> server_verify_key (server ctx_leader)))
         [leader; follower])
      [ {| peer_id := "f0110e00" |} ])
    by (repeat constructor).
  destruct (broadcast_stops_at_first_unreachable (services true (inr Sent))
              ctx_leader e2 [leader; follower]
              {| verify_key := "key-stranger" |}
              [follower] (world_with [e1]) _ Hpre ltac:(discriminate))
    as [Hunknown _].
  apply (Hunknown (NotFoundException "no such peer")). reflexivity.
Defined.

(** *** Broadcasting an event *)

(** The rest of [broadcast_event] once the project is found, the node is
    the leader's and the sequence number is accepted. *)
Lemma broadcast_event_run svc context ev w project :
  stash w !! event_project_id ev = Some project ->
  verify_key (state_sync_leader project) = server_verify_key (server context) ->
  validate_project_event_seq svc ev project w = (inr (Ok tt), w) ->
  broadcast_event svc context ev w =
    (check_for_project_request svc (append_event project ev) ev context ;;;
     broadcast_loop svc context ev (members (append_event project ev)) ;;;
     updated <- stash_update (server_verify_key (server context))
                  (append_event project ev) ;;
     updated_project <- unwrap updated None ;;
     ret {| message := "Event #" +:+ str_seq_no (seq_no ev)
                       +:+ " of " +:+ project_name (append_event project ev)
                       +:+ " broadcasted successfully";
            value := updated_project |})%py w.
Proof.
  intros Hstored Hkey Hseq. unfold broadcast_event.
  rewrite (bind_value _ _ _ _ _ (stash_get_found _ _ _ _ Hstored)).
  simpl unwrap. rewrite bind_ret.
  rewrite (bind_value _ _ _ _ _ (validate_project_leader_result _ _ _)).
  rewrite bool_decide_eq_false_2 by (by intros ?).
  simpl unwrap. rewrite bind_ret.
  rewrite (bind_value _ _ _ _ _ (validate_user_permission_result _ _ _ _)).
  rewrite (bind_value _ _ _ _ _ Hseq).
  simpl unwrap. by rewrite bind_ret.
Qed.

(** On the leader's node, a sequence check that fails is raised. *)
Lemma broadcast_event_out_of_sequence svc context ev w project e :
  stash w !! event_project_id ev = Some project ->
  verify_key (state_sync_leader project) = server_verify_key (server context) ->
  validate_project_event_seq svc ev project w = (inr (Err e), w) ->
  broadcast_event svc context ev w = (inl e, w).
Proof.
  intros Hstored Hkey Hseq. unfold broadcast_event.
  rewrite (bind_value _ _ _ _ _ (stash_get_found _ _ _ _ Hstored)).
  simpl unwrap. rewrite bind_ret.
  rewrite (bind_value _ _ _ _ _ (validate_project_leader_result _ _ _)).
  rewrite bool_decide_eq_false_2 by (by intros ?).
  simpl unwrap. rewrite bind_ret.
  rewrite (bind_value _ _ _ _ _ (validate_user_permission_result _ _ _ _)).
  by rewrite (bind_value _ _ _ _ _ Hseq).
Qed.

(** X16: on the leader's node, [broadcast_event] raises what the sequence
    check finds and changes nothing: an event without [seq_no], an event
    whose [seq_no] is at most the length of a log that is not empty ("out
    of sync"), and an event whose [seq_no] is beyond the length plus one
    ("out of order") are not appended, not notified and not passed to any
    peer. *)
Theorem broadcast_event_rejects_bad_seq_no svc context ev w project :
  stash w !! event_project_id ev = Some project ->
  verify_key (state_sync_leader project) = server_verify_key (server context) ->
  (seq_no ev = None ->
   broadcast_event svc context ev w =
     (inl (SyftException (repr svc ev +:+ ".seq_no is None")), w)) /\
  (forall n, seq_no ev = Some n ->
     (n <= len_events project)%Z -> events project <> [] ->
     broadcast_event svc context ev w =
       (inl (SyftException "Project events are out of sync"), w)) /\
  (forall n, seq_no ev = Some n ->
     (len_events project + 1 < n)%Z ->
     broadcast_event svc context ev w =
       (inl (SyftException "Project events are out of order!"), w)).
Proof.
  intros Hstored Hkey. split; [|split].
  - intros Hnone. apply (broadcast_event_out_of_sequence _ _ _ _ project);
      [done..|].
    unfold validate_project_event_seq, as_result. by rewrite Hnone.
  - intros n Hn Hle Hne.
    apply (broadcast_event_out_of_sequence _ _ _ _ project); [done..|].
    assert (Hpos : (0 < len_events project)%Z).
    { unfold len_events. destruct (events project); [done|simpl; lia]. }
    destruct (validate_project_event_seq_cases svc ev project n w Hn)
      as [(_ & _ & Hr)|[(H1 & H2 & _)|(H1 & H2 & _)]]; [done|..];
      exfalso; apply H2; by split.
  - intros n Hn Hgt.
    apply (broadcast_event_out_of_sequence _ _ _ _ project); [done..|].
    destruct (validate_project_event_seq_cases svc ev project n w Hn)
      as [(H1 & H2 & _)|[(_ & _ & Hr)|(H1 & _)]]; [lia|done|lia].
Qed.

Lemma broadcast_event_rejects_bad_seq_no_witness :
  broadcast_event (services true (inr Sent)) ctx_leader e1 (world_with [e1])
  = (inl (SyftException "Project events are out of sync"), world_with [e1]).
Proof.
  destruct (broadcast_event_rejects_bad_seq_no (services true (inr Sent))
              ctx_leader e1 (world_with [e1]) (project_with [e1])
              eq_refl eq_refl) as (_ & Hsync & _).
  apply (Hsync 1%Z);
    [reflexivity | unfold len_events; simpl; lia | discriminate].
Defined.

(** A node that is not the leader's raises before anything else. *)
Lemma broadcast_event_not_leader svc context ev w project :
  stash w !! event_project_id ev = Some project ->
  verify_key (state_sync_leader project)
    <> server_verify_key (server context) ->
  exists e, broadcast_event svc context ev w = (inl e, w).
Proof.
  intros Hstored Hkey. unfold broadcast_event.
  rewrite (bind_value _ _ _ _ _ (stash_get_found _ _ _ _ Hstored)).
  simpl unwrap. rewrite bind_ret.
  rewrite (bind_value _ _ _ _ _ (validate_project_leader_result _ _ _)).
  rewrite bool_decide_eq_true_2 by done. by eexists.
Qed.

(** What a successful [broadcast_event] went through and did. *)
Lemma broadcast_event_inv svc context ev w reply w' :
  broadcast_event svc context ev w = (inr reply, w') ->
  exists project n peers,
    stash w !! event_project_id ev = Some project /\
    verify_key (state_sync_leader project)
      = server_verify_key (server context) /\
    seq_no ev = Some n /\
    (n <= len_events project + 1)%Z /\
    ~ ((n <= len_events project)%Z /\ (0 < len_events project)%Z) /\
    value reply = append_event project ev /\
    stash w' = <[project_id project := append_event project ev]> (stash w) /\
    Forall2
      (fun m peer =>
         network_get_by_verify_key svc (server_verify_key (server context))
           (verify_key m) = Ok peer /\
         client_with_context svc peer context = Ok tt)
      (List.filter
         (fun m => bool_decide (verify_key m
                                <> server_verify_key (server context)))
         (members project))
      peers /\
    remote_add_events w' =
      remote_add_events w ++ map (fun peer => (peer_id peer, ev)) peers.
Proof.
  intros Hrun.
  destruct (stash w !! event_project_id ev) as [project|] eqn:Hstored.
  2: { destruct (event_of_unknown_project svc context ev w Hstored)
         as (msg & _ & Hbc). congruence. }
  destruct (decide (verify_key (state_sync_leader project)
                    = server_verify_key (server context))) as [Hkey|Hkey].
  2: { destruct (broadcast_event_not_leader svc _ _ _ _ Hstored Hkey)
         as [e He]. congruence. }
  destruct (seq_no ev) as [n|] eqn:Hn.
  2: { rewrite (broadcast_event_out_of_sequence _ _ _ _ project
                  (SyftException (repr svc ev +:+ ".seq_no is None")))
         in Hrun; [discriminate|done|done|].
       unfold validate_project_event_seq, as_result. by rewrite Hn. }
  exists project, n.
  destruct (validate_project_event_seq_cases svc ev project n w Hn)
    as [(_ & _ & Hr)|[(_ & _ & Hr)|(Hle & Hnot & Hr)]].
  1-2: rewrite (broadcast_event_out_of_sequence _ _ _ _ _ _ Hstored Hkey Hr)
         in Hrun; discriminate.
  rewrite (broadcast_event_run _ _ _ _ _ Hstored Hkey Hr) in Hrun.
  destruct (check_for_project_request_frame svc (append_event project ev)
              ev context w) as [Hstash Hremote].
  unfold bind at 1 in Hrun.
  destruct (check_for_project_request svc (append_event project ev) ev
              context w) as [[e|res] w1]; [discriminate|].
  simpl in Hstash, Hremote.
  unfold bind at 1 in Hrun.
  destruct (broadcast_loop svc context ev (members (append_event project ev))
              w1) as [[e|[]] w2] eqn:Hloop; [discriminate|].
  apply broadcast_loop_inv in Hloop as (peers & Hpeers & Hw2).
  assert (Hs2 : stash w2 = stash w) by (by rewrite Hw2).
  assert (Hr2 : remote_add_events w2 =
                remote_add_events w ++ map (fun peer => (peer_id peer, ev)) peers)
    by (rewrite Hw2; simpl; by rewrite Hremote).
  clear Hw2.
  exists peers. repeat (split; [done|]).
  destruct (stash w2 !! project_id (append_event project ev)) eqn:Hq.
  - rewrite (bind_value _ _ _ _ _
               (stash_update_stored _ _ _ (mk_is_Some _ _ Hq))) in Hrun.
    simpl unwrap in Hrun. rewrite bind_ret in Hrun.
    injection Hrun as <- <-. simpl. by rewrite Hs2.
  - destruct (stash_update_missing (server_verify_key (server context))
                _ _ Hq) as [msg Hupd].
    rewrite (bind_value _ _ _ _ _ Hupd) in Hrun. discriminate.
Qed.

(** X17: [broadcast_event] returns only on the leader's node and only for
    an event whose [seq_no] the sequence check accepts.  When it returns,
    the project returned is the stored one with the event appended, the
    stash holds it under the project's id, and [add_event] was called with
    the event on one peer for every member other than the node itself, in
    the order of the members. *)
Theorem broadcast_event_only_by_leader_in_sequence svc context ev w reply w' :
  broadcast_event svc context ev w = (inr reply, w') ->
  exists project n,
    stash w !! event_project_id ev = Some project /\
    server_verify_key (server context)
      = verify_key (state_sync_leader project) /\
    seq_no ev = Some n /\
    (events project <> [] -> n = (len_events project + 1)%Z) /\
    (events project = [] -> (n <= 1)%Z) /\
    events (value reply) = events project ++ [ev] /\
    stash w' !! project_id project = Some (value reply) /\
    exists calls,
      remote_add_events w' = remote_add_events w ++ calls /\
      Forall2
        (fun m call =>
           exists peer,
             network_get_by_verify_key svc (server_verify_key (server context))
               (verify_key m) = Ok peer /\
             call = (peer_id peer, ev))
        (List.filter
           (fun m => bool_decide (verify_key m
                                  <> server_verify_key (server context)))
           (members project))
        calls.
Proof.
  intros Hrun.
  apply broadcast_event_inv in Hrun
    as (project & n & peers & Hstored & Hkey & Hn & Hle & Hnot & -> & Hstash
        & Hpeers & Hremote).
  exists project, n. repeat (split; [done|]).
  pose proof (len_events_nil project) as Hnil.
  assert (HN : (0 <= len_events project)%Z) by (unfold len_events; lia).
  split; [intros Hne; assert (len_events project <> 0%Z) by tauto; lia|].
  split; [intros Hempty; apply Hnil in Hempty; lia|].
  split; [done|].
  split; [rewrite Hstash; apply lookup_insert_eq|].
  exists (map (fun peer => (peer_id peer, ev)) peers). split; [done|].
  clear -Hpeers.
  induction Hpeers as [|m peer ms' peers' [Hpeer _] Hall IH]; simpl;
    constructor; [by exists peer|done].
Qed.

Lemma broadcast_event_only_by_leader_in_sequence_witness :
  exists reply w',
    broadcast_event (services true (inr Sent)) ctx_leader e2 (world_with [e1])
      = (inr reply, w') /\
    events (value reply) = [e1; e2] /\
    remote_add_events w' = [("f0110e00", e2)].
Proof.
  eexists _, _. split; [vm_compute; reflexivity|].
  destruct (broadcast_event_only_by_leader_in_sequence
              (services true (inr Sent)) ctx_leader e2 (world_with [e1]) _ _
              ltac:(vm_compute; reflexivity)) as (project & n & _).
  split; reflexivity.
Defined.

(** X18: an event that was broadcast cannot be broadcast again.  After a
    successful [broadcast_event], in a stash that holds the project under
    its own id, the same call on the resulting state raises "Project events
    are out of sync" and changes nothing. *)
Theorem broadcast_event_no_replay svc context ev w reply w' project :
  stash w !! event_project_id ev = Some project ->
  project_id project = event_project_id ev ->
  broadcast_event svc context ev w = (inr reply, w') ->
  broadcast_event svc context ev w' =
    (inl (SyftException "Project events are out of sync"), w').
Proof.
  intros Hstored Hid Hrun.
  apply broadcast_event_inv in Hrun
    as (project' & n & peers & Hstored' & Hkey & Hn & Hle & Hnot & _ & Hstash
        & _).
  rewrite Hstored in Hstored'. injection Hstored' as <-.
  assert (Hnew : stash w' !! event_project_id ev
                 = Some (append_event project ev)).
  { rewrite Hstash, Hid. apply lookup_insert_eq. }
  apply (broadcast_event_out_of_sequence _ _ _ _ (append_event project ev));
    [done|done|].
  destruct (validate_project_event_seq_cases svc ev (append_event project ev)
              n w' Hn) as [(_ & _ & Hr)|[(H1 & _)|(_ & H2 & _)]]; [done|..].
  - unfold len_events in *. simpl in H1. rewrite length_app in H1.
    simpl in H1. lia.
  - exfalso. apply H2. unfold len_events in *. simpl.
    rewrite length_app. simpl. lia.
Qed.

Lemma broadcast_event_no_replay_witness :
  exists reply w',
    broadcast_event (services true (inr Sent)) ctx_leader e2 (world_with [e1])
      = (inr reply, w') /\
    broadcast_event (services true (inr Sent)) ctx_leader e2 w' =
      (inl (SyftException "Project events are out of sync"), w').
Proof.
  eexists _, _. split; [vm_compute; reflexivity|].
  eapply (broadcast_event_no_replay (services true (inr Sent)) ctx_leader e2
            (world_with [e1]) _ _ (project_with [e1]));
    [reflexivity | reflexivity | vm_compute; reflexivity].
Defined.

(** *** Adding, then reading *)

(** X19: on the leader's node, for the leader as caller, a stash that
    holds the project under its own id and a notification service that
    accepts what it is sent, [add_event] returns; afterwards [sync] from
    the old length of the log returns exactly the added event, and [sync]
    from 0 returns the old log followed by it, for every caller. *)
Theorem added_event_is_synced svc context ev w project :
  stash w !! event_project_id ev = Some project ->
  project_id project = event_project_id ev ->
  verify_key (state_sync_leader project) = server_verify_key (server context) ->
  credentials context = verify_key (state_sync_leader project) ->
  (forall n, notification_send svc context n = inr Sent) ->
  exists reply w',
    add_event svc context ev w = (inr reply, w') /\
    forall svc' context',
      sync svc' context' (event_project_id ev) (len_events project) w'
        = (inr [ev], w') /\
      sync svc' context' (event_project_id ev) 0 w'
        = (inr (events project ++ [ev]), w').
Proof.
  intros Hstored Hid Hkey Hcred Hanswers.
  rewrite (add_event_run _ _ _ _ _ Hstored Hkey Hcred).
  destruct (check_for_project_request_returns svc (append_event project ev)
              ev context w (fun n => or_introl (Hanswers n)))
    as (res & w1 & Hcheck).
  destruct (check_for_project_request_frame svc (append_event project ev)
              ev context w) as [Hstash _].
  rewrite Hcheck in Hstash. simpl in Hstash.
  rewrite (bind_value _ _ _ _ _ Hcheck).
  assert (Hq : is_Some (stash w1 !! project_id (append_event project ev))).
  { simpl. rewrite Hstash, Hid, Hstored. by eexists. }
  rewrite (bind_value _ _ _ _ _ (stash_update_stored _ _ _ Hq)).
  simpl unwrap. rewrite !bind_ret.
  eexists _, _. split; [reflexivity|].
  intros svc' context'.
  assert (Hnew : forall n, (0 <= n)%Z ->
    sync svc' context' (event_project_id ev) n
      {| stash := <[project_id (append_event project ev)
                    := append_event project ev]> (stash w1);
         notifications := notifications w1;
         remote_add_events := remote_add_events w1 |}
    = (inr (drop (Z.to_nat n) (events project ++ [ev])),
       {| stash := <[project_id (append_event project ev)
                     := append_event project ev]> (stash w1);
          notifications := notifications w1;
          remote_add_events := remote_add_events w1 |})).
  { intros n Hn.
    apply (sync_returns_suffix svc' context' _ n _ (append_event project ev));
      [done|]. simpl. rewrite Hid. apply lookup_insert_eq. }
  split.
  - rewrite Hnew by (unfold len_events; lia).
    unfold len_events. rewrite Nat2Z.id. by rewrite drop_app_length.
  - by rewrite Hnew.
Qed.

(** The leader adds a request addressed to its own node, and the
    notification is accepted. *)
Lemma added_event_is_synced_witness :
  exists reply w',
    add_event (services true (inr Sent)) ctx_leader e_request
      (world_with [e1]) = (inr reply, w') /\
    forall svc' context',
      sync svc' context' "p0000001" 1 w' = (inr [e_request], w') /\
      sync svc' context' "p0000001" 0 w' = (inr [e1; e_request], w').
Proof.
  apply (added_event_is_synced (services true (inr Sent))
           ctx_leader e_request (world_with [e1]) (project_with [e1]));
    [reflexivity | reflexivity | reflexivity | reflexivity |].
  intros n. reflexivity.
Defined.

(** X20: [sync] cuts the log at [seq_no], whoever calls: for a stored
    project and a [seq_no] that is not negative it returns the events from
    position [seq_no] on, so that the first [seq_no] events followed by the
    result are the log; a [seq_no] at or beyond the end gives the empty
    list, not an error.  A negative [seq_no] is refused before the project
    is looked up.  The state is never changed. *)
Theorem sync_cuts_the_log svc context uid n w project :
  stash w !! uid = Some project ->
  ((n < 0)%Z ->
   sync svc context uid n w =
     (inl (SyftException "Input seq_no should be a non negative integer"), w)) /\
  ((0 <= n)%Z ->
   exists rest,
     sync svc context uid n w = (inr rest, w) /\
     take (Z.to_nat n) (events project) ++ rest = events project /\
     ((n <= len_events project)%Z ->
      Z.of_nat (length rest) = (len_events project - n)%Z) /\
     ((len_events project <= n)%Z -> rest = [])).
Proof.
  intros Hstored. split; [apply sync_negative|].
  intros Hn. exists (drop (Z.to_nat n) (events project)).
  split; [by apply sync_returns_suffix|].
  split; [apply take_drop|].
  unfold len_events. split.
  - intros Hle. rewrite length_drop. lia.
  - intros Hge. apply drop_ge. lia.
Qed.

Lemma sync_cuts_the_log_witness :
  sync (services true (inr Sent)) ctx_leader "p0000001" (-1)
    (world_with [e1; e2])
  = (inl (SyftException "Input seq_no should be a non negative integer"),
     world_with [e1; e2]) /\
  exists rest,
    sync (services true (inr Sent)) ctx_leader "p0000001" 5
      (world_with [e1; e2]) = (inr rest, world_with [e1; e2]) /\
    rest = [].
Proof.
  destruct (sync_cuts_the_log (services true (inr Sent)) ctx_leader
              "p0000001" (-1) (world_with [e1; e2]) (project_with [e1; e2])
              eq_refl) as [Hneg _].
  destruct (sync_cuts_the_log (services true (inr Sent)) ctx_leader
              "p0000001" 5 (world_with [e1; e2]) (project_with [e1; e2])
              eq_refl) as [_ Hpos].
  split; [apply Hneg; lia|].
  destruct (Hpos ltac:(lia)) as (rest & Hrun & _ & _ & Hend).
  exists rest. split; [done|]. apply Hend. unfold len_events. simpl. lia.
Defined.

(** *** The index of events *)

(** X21: appending an event keeps the index of events by id: if
    [event_id_hashmap] maps every id to the latest event of the log with
    that id, it still does in the project that [add_event] and
    [broadcast_event] return. *)
Theorem returned_project_is_indexed svc context ev w reply w' project :
  stash w !! event_project_id ev = Some project ->
  (forall i,
     event_id_hashmap project !! i
       = last (filter (fun e => event_id e = i) (events project))) ->
  add_event svc context ev w = (inr reply, w') \/
  broadcast_event svc context ev w = (inr reply, w') ->
  forall i,
    event_id_hashmap (value reply) !! i
      = last (filter (fun e => event_id e = i) (events (value reply))).
Proof.
  intros Hstored Hindex Hrun i.
  assert (Hvalue : value reply = append_event project ev).
  { destruct Hrun as [Hrun|Hrun].
    - apply add_event_inv in Hrun as (p' & Hp' & _ & _ & -> & _). congruence.
    - apply broadcast_event_inv in Hrun
        as (p' & n & peers & Hp' & _ & _ & _ & _ & -> & _). congruence. }
  rewrite Hvalue. simpl. rewrite filter_app.
  destruct (decide (event_id ev = i)) as [<-|Hne].
  - rewrite lookup_insert_eq.
    rewrite filter_cons_True by done. rewrite filter_nil.
    by rewrite last_snoc.
  - rewrite lookup_insert_ne by done.
    rewrite filter_cons_False by done. rewrite filter_nil, app_nil_r.
    apply Hindex.
Qed.

Lemma returned_project_is_indexed_witness :
  exists reply w',
    add_event (services true (inr Sent)) ctx_leader e2 (world_with [e1])
      = (inr reply, w') /\
    forall i,
      event_id_hashmap (value reply) !! i
        = last (filter (fun e => event_id e = i) (events (value reply))).
Proof.
  eexists _, _. split; [vm_compute; reflexivity|].
  eapply (returned_project_is_indexed (services true (inr Sent)) ctx_leader e2
            (world_with [e1]) _ _ (project_with [e1]));
    [reflexivity | | left; vm_compute; reflexivity].
  intros i. simpl. destruct (decide ("e0000001" = i)) as [<-|Hne].
  - reflexivity.
  - rewrite lookup_insert_ne by done.
    by rewrite filter_cons_False by done.
Defined.

(** *** The permission predicate *)

(** X22: what [broadcast_event] does is independent of
    [project.has_permission]: with two sets of collaborators that differ in
    nothing but the permission predicate, the call has the same outcome and
    leaves the same state.  The permission check is performed, but what it
    finds is not looked at. *)
Theorem broadcast_event_ignores_has_permission svc svc' context ev w :
  repr svc = repr svc' ->
  network_get_by_verify_key svc = network_get_by_verify_key svc' ->
  client_with_context svc = client_with_context svc' ->
  notification_send svc = notification_send svc' ->
  broadcast_event svc context ev w = broadcast_event svc' context ev w.
Proof.
  destruct svc as [perm r net cl ns], svc' as [perm' r' net' cl' ns'].
  simpl. intros <- <- <- <-.
  unfold broadcast_event.
  destruct (stash w !! event_project_id ev) as [project|] eqn:Hstored.
  - rewrite !(bind_value _ _ _ _ _ (stash_get_found _ _ _ _ Hstored)).
    simpl unwrap. rewrite !bind_ret.
    rewrite !(bind_value _ _ _ _ _ (validate_project_leader_result _ _ _)).
    case_bool_decide; [done|].
    simpl unwrap. rewrite !bind_ret.
    rewrite (bind_value _ _ _ _ _
               (validate_user_permission_result
                  {| has_permission := perm; repr := r;
                     network_get_by_verify_key := net;
                     client_with_context := cl;
                     notification_send := ns |} _ _ _)).
    rewrite (bind_value _ _ _ _ _
               (validate_user_permission_result
                  {| has_permission := perm'; repr := r;
                     network_get_by_verify_key := net;
                     client_with_context := cl;
                     notification_send := ns |} _ _ _)).
    reflexivity.
  - destruct (stash_get_missing (server_verify_key (server context)) _ _
                Hstored) as [msg Hget].
    by rewrite !(bind_value _ _ _ _ _ Hget).
Qed.

Lemma broadcast_event_ignores_has_permission_witness :
  broadcast_event (services false (inr Sent)) ctx_leader e2 (world_with [e1])
  = broadcast_event (services true (inr Sent)) ctx_leader e2 (world_with [e1]).
Proof.
  apply (broadcast_event_ignores_has_permission (services false (inr Sent))
           (services true (inr Sent)) ctx_leader e2 (world_with [e1]));
    reflexivity.
Defined.

End ProjectServiceMore.

(** ** Properties of the queries of project_service.py *)

Module ProjectQueriesProofs.
Import ProjectService.
Import ProjectServiceProofs.
Import ProjectServiceMore.
Import ProjectQueries.
Import ProjectExamples.

Lemma get_by_uid_found context uid w project :
  stash w !! uid = Some project ->
  get_by_uid context uid w = (inr project, w).
Proof.
  intros Hstored. unfold get_by_uid.
  by rewrite (bind_value _ _ _ _ _ (stash_get_found _ _ _ _ Hstored)).
Qed.

(** X23: [project_exists] never raises and never changes the state; it
    answers [True] for exactly the ids under which the stash holds a
    project, and these are the ids for which [get_by_uid] returns, with the
    stored project.  For any other id [get_by_uid] raises
    [NotFoundException] with the message "Project <uid> not found". *)
Theorem project_exists_iff_get_by_uid context uid w :
  (forall project,
     stash w !! uid = Some project ->
     project_exists context {| submit_id := uid |} w = (inr (Ok true), w) /\
     get_by_uid context uid w = (inr project, w)) /\
  (stash w !! uid = None ->
   project_exists context {| submit_id := uid |} w = (inr (Ok false), w) /\
   get_by_uid context uid w =
     (inl (NotFoundException ("Project " +:+ uid +:+ " not found")), w)).
Proof.
  split.
  - intros project Hstored. split; [|by apply get_by_uid_found].
    unfold project_exists, as_result.
    by rewrite (bind_value _ _ _ _ _ (stash_get_found _ _ _ _ Hstored)).
  - intros Hnone.
    destruct (stash_get_missing (server_verify_key (server context)) _ _ Hnone)
      as [msg Hget].
    unfold project_exists, as_result, get_by_uid.
    by rewrite !(bind_value _ _ _ _ _ Hget).
Qed.

Lemma project_exists_iff_get_by_uid_witness :
  project_exists ctx_leader {| submit_id := "p0000009" |} (world_with [e1])
    = (inr (Ok false), world_with [e1]) /\
  get_by_uid ctx_leader "p0000009" (world_with [e1])
    = (inl (NotFoundException "Project p0000009 not found"), world_with [e1]).
Proof.
  apply (project_exists_iff_get_by_uid ctx_leader "p0000009"
           (world_with [e1])).
  reflexivity.
Defined.

(** X24: what [add_event] and [broadcast_event] return is what
    [get_by_uid] returns afterwards: after either call returned a project,
    [get_by_uid] for the id of that project, on the resulting state and for
    any caller, returns the same project. *)
Theorem get_by_uid_after_append svc context ev w reply w' :
  add_event svc context ev w = (inr reply, w') \/
  broadcast_event svc context ev w = (inr reply, w') ->
  forall context',
    get_by_uid context' (project_id (value reply)) w'
      = (inr (value reply), w').
Proof.
  intros Hrun context'. apply get_by_uid_found.
  destruct Hrun as [Hrun|Hrun].
  - apply add_event_inv in Hrun as (p & _ & _ & _ & -> & -> & _).
    simpl. apply lookup_insert_eq.
  - apply broadcast_event_inv in Hrun
      as (p & n & peers & _ & _ & _ & _ & _ & -> & -> & _).
    simpl. apply lookup_insert_eq.
Qed.

Lemma get_by_uid_after_append_witness :
  exists reply w',
    broadcast_event (services true (inr Sent)) ctx_leader e2 (world_with [e1])
      = (inr reply, w') /\
    forall context',
      get_by_uid context' (project_id (value reply)) w'
        = (inr (value reply), w').
Proof.
  eexists _, _. split; [vm_compute; reflexivity|].
  eapply (get_by_uid_after_append (services true (inr Sent)) ctx_leader e2
            (world_with [e1])).
  right. vm_compute. reflexivity.
Defined.

(** *** Signing keys *)

Lemma add_signing_keys_known dir context user ps w :
  user_get_by_verify_key dir (credentials context) (credentials context)
    = Ok user ->
  add_signing_keys dir context ps w =
    (inr (map (fun p => {| signed := p;
                           user_signing_key := signing_key user |}) ps), w).
Proof.
  intros Huser. induction ps as [|p ps IH]; simpl; [done|].
  unfold add_signing_key_to_project at 1. rewrite Huser, bind_ret.
  by rewrite (bind_value _ _ _ _ _ IH).
Qed.

(** X25: [get_all] returns the projects the stash lists for the caller, in
    the same order, each with the signing key of the caller's own user
    record.  When the caller has no user record it raises
    [NotFoundException] "User not found! Please register the user first",
    unless the stash lists no project: then it returns the empty list.  The
    state is unchanged. *)
Theorem get_all_signs_every_project dir context w ps :
  stash_get_all dir (credentials context) w = Ok ps ->
  (forall user,
     user_get_by_verify_key dir (credentials context) (credentials context)
       = Ok user ->
     get_all dir context w =
       (inr (map (fun p => {| signed := p;
                              user_signing_key := signing_key user |}) ps),
        w)) /\
  (forall msg,
     user_get_by_verify_key dir (credentials context) (credentials context)
       = Err (NotFoundException msg) ->
     get_all dir context w =
       match ps with
       | [] => (inr [], w)
       | _ :: _ =>
           (inl (NotFoundException
                   "User not found! Please register the user first"), w)
       end).
Proof.
  intros Hps. unfold get_all.
  assert (Hlist : (fun w0 => unwrap (stash_get_all dir (credentials context) w0)
                               None w0) w = (inr ps, w))
    by by rewrite Hps.
  rewrite (bind_value _ _ _ _ _ Hlist). split.
  - intros user Huser. by apply add_signing_keys_known.
  - intros msg Huser. destruct ps as [|p ps]; [done|]. simpl.
    unfold add_signing_key_to_project at 1. by rewrite Huser.
Qed.

Lemma get_all_signs_every_project_witness :
  get_all
    {| user_get_by_verify_key := fun _ _ => Ok {| signing_key := "sk-leader" |};
       stash_get_all := fun _ _ => Ok [project_with [e1]];
       stash_get_by_name := fun _ _ _ => Err (NotFoundException "") |}
    ctx_leader (world_with [e1])
  = (inr [ {| signed := project_with [e1];
              user_signing_key := "sk-leader" |} ],
     world_with [e1]).
Proof.
  apply (proj1 (get_all_signs_every_project
                  {| user_get_by_verify_key :=
                       fun _ _ => Ok {| signing_key := "sk-leader" |};
                     stash_get_all := fun _ _ => Ok [project_with [e1]];
                     stash_get_by_name :=
                       fun _ _ _ => Err (NotFoundException "") |}
                  ctx_leader (world_with [e1]) [project_with [e1]] eq_refl)
           {| signing_key := "sk-leader" |}).
  reflexivity.
Defined.

(** X26: [get_by_name] returns the project the stash finds under the name
    for the caller, with the signing key of the caller's user record.  For
    a name the stash does not find it raises [NotFoundException] with one
    fixed message, in which the name is not filled in; for a caller
    without user record it raises "User not found! Please register the
    user first".  The state is unchanged. *)
Theorem get_by_name_signs_the_project dir context name w :
  (forall msg,
     stash_get_by_name dir (credentials context) name w
       = Err (NotFoundException msg) ->
     get_by_name dir context name w =
       (inl (NotFoundException "Project '{name}' does not exist"), w)) /\
  (forall project,
     stash_get_by_name dir (credentials context) name w = Ok project ->
     (forall user,
        user_get_by_verify_key dir (credentials context) (credentials context)
          = Ok user ->
        get_by_name dir context name w =
          (inr {| signed := project;
                  user_signing_key := signing_key user |}, w)) /\
     (forall msg,
        user_get_by_verify_key dir (credentials context) (credentials context)
          = Err (NotFoundException msg) ->
        get_by_name dir context name w =
          (inl (NotFoundException
                  "User not found! Please register the user first"), w))).
Proof.
  unfold get_by_name. split.
  - intros msg Hname. unfold bind. by rewrite Hname.
  - intros project Hname. unfold bind. rewrite Hname. simpl.
    unfold add_signing_key_to_project. split.
    + by intros user ->.
    + by intros msg ->.
Qed.

Lemma get_by_name_signs_the_project_witness :
  get_by_name
    {| user_get_by_verify_key := fun _ _ => Ok {| signing_key := "sk-leader" |};
       stash_get_all := fun _ _ => Ok [];
       stash_get_by_name := fun _ _ _ => Err (NotFoundException "no name") |}
    ctx_leader "demo" (world_with [e1])
  = (inl (NotFoundException "Project '{name}' does not exist"),
     world_with [e1]).
Proof.
  apply (get_by_name_signs_the_project
           {| user_get_by_verify_key :=
                fun _ _ => Ok {| signing_key := "sk-leader" |};
              stash_get_all := fun _ _ => Ok [];
              stash_get_by_name :=
                fun _ _ _ => Err (NotFoundException "no name") |}
           ctx_leader "demo" (world_with [e1])) with (msg := "no name").
  reflexivity.
Defined.

End ProjectQueriesProofs.

(** ** Properties of _paginate *)

Module UserServiceProofs.
Import UserService.

Lemma lookup_map {A B} (f : A -> B) (l : list A) (i : nat) :
  map f l !! i = f <$> (l !! i).
Proof.
  revert i. induction l as [|x l IH]; intros [|i]; simpl; auto.
Qed.

(** With a positive page size [s] there are ceil(n / s) pages, and page
    [i] exists exactly when [i * s < n]. *)
Lemma page_exists (n s : Z) (i : nat) :
  (0 < s)%Z -> (0 <= n)%Z ->
  i < Z.to_nat ((n + s - 1) / s) <-> (Z.of_nat i * s < n)%Z.
Proof.
  intros Hs Hn.
  pose proof (Z.mul_div_le (n + s - 1) s Hs) as Hlow.
  pose proof (Z.mul_succ_div_gt (n + s - 1) s Hs) as Hhigh.
  assert (Hq : (0 <= (n + s - 1) / s)%Z) by (apply Z.div_pos; lia).
  split; intros Hi; nia.
Qed.

(** The list of pages that [_paginate] builds, page by page. *)
Lemma pages_explicit {A} (l : list A) (s : Z) :
  (0 < s)%Z ->
  map (fun i => py_slice l i (i + s)) (py_range (Z.of_nat (length l)) s) =
  map (fun i : nat => take (Z.to_nat s) (drop (i * Z.to_nat s) l))
    (seq 0 (Z.to_nat ((Z.of_nat (length l) + s - 1) / s))).
Proof.
  intros Hs. unfold py_range.
  destruct (Z.ltb_spec 0 s) as [_|?]; [|lia].
  rewrite map_map. apply map_ext. intros i. unfold py_slice.
  f_equal; [f_equal; lia|].
  f_equal. rewrite Z2Nat.inj_mul by lia. by rewrite Nat2Z.id.
Qed.

Lemma concat_pages {A} (l : list A) (m a k : nat) :
  concat (map (fun i : nat => take m (drop (i * m) l)) (seq a k)) =
  take (k * m) (drop (a * m) l).
Proof.
  revert a. induction k as [|k IH]; intros a; simpl; [done|].
  rewrite IH. rewrite <- take_take_drop. f_equal. f_equal.
  rewrite drop_drop. f_equal. lia.
Qed.

(** [l[i]] for an index that is not negative. *)
Lemma py_getitem_nonneg {A} (l : list A) (i : Z) :
  (0 <= i)%Z ->
  py_getitem l i =
    match l !! Z.to_nat i with
    | Some x => inr x
    | None => inl index_out_of_range
    end.
Proof.
  intros Hi. unfold py_getitem.
  destruct (Z.ltb_spec i 0) as [?|_]; [lia|].
  destruct (Z.leb_spec 0 i) as [_|?]; [|lia]. simpl.
  destruct (Z.ltb_spec i (Z.of_nat (length l))) as [Hlt|Hge]; [done|].
  rewrite lookup_ge_None_2; [done|lia].
Qed.

(** [l[i]] for a negative index. *)
Lemma py_getitem_neg {A} (l : list A) (i : Z) :
  (i < 0)%Z ->
  py_getitem l i =
    if (0 <=? i + Z.of_nat (length l))%Z
    then py_getitem l (i + Z.of_nat (length l))
    else inl index_out_of_range.
Proof.
  intros Hi. unfold py_getitem at 1.
  destruct (Z.ltb_spec i 0) as [_|?]; [|lia].
  destruct (Z.leb_spec 0 (i + Z.of_nat (length l))) as [Hin|Hout]; simpl;
    [|done].
  rewrite py_getitem_nonneg by done.
  destruct (Z.ltb_spec (i + Z.of_nat (length l)) (Z.of_nat (length l)));
    [done|lia].
Qed.

Lemma py_getitem_nil {A} (i : Z) :
  py_getitem ([] : list A) i = inl index_out_of_range.
Proof.
  unfold py_getitem. simpl length.
  set (k' := if (i <? 0)%Z then (i + Z.of_nat 0)%Z else i).
  destruct (Z.leb_spec 0 k'), (Z.ltb_spec k' (Z.of_nat 0)); simpl;
    (done || lia).
Qed.

Lemma paginate_positive {A} (l : list A) (s : Z) (index : option Z) :
  (0 < s)%Z ->
  _paginate l (Some s) index =
    py_getitem
      (map (fun i : nat => take (Z.to_nat s) (drop (i * Z.to_nat s) l))
         (seq 0 (Z.to_nat ((Z.of_nat (length l) + s - 1) / s))))
      (default 0%Z index).
Proof.
  intros Hs. unfold _paginate, truthy.
  destruct (Z.eqb_spec s 0) as [?|_]; [lia|]. simpl negb. cbv iota.
  change (default 0%Z (Some s)) with s. rewrite pages_explicit by done.
  by destruct index.
Qed.

(** X27: with a positive page size [s], the pages of [_paginate] cut the
    list into consecutive pieces: there are ceil(len / s) pages, page [i]
    is the slice of at most [s] elements that starts at position [i * s],
    no page is empty, and the pages in order make up the list.  An index
    at or beyond the number of pages raises [IndexError]; so every index
    does on the empty list.  Without index the first page is returned. *)
Theorem paginate_pages_partition {A} (l : list A) (s : Z) :
  (0 < s)%Z ->
  exists pages,
    concat pages = l /\
    Z.of_nat (length pages) = ((Z.of_nat (length l) + s - 1) / s)%Z /\
    (forall i pg,
       pages !! i = Some pg ->
       pg = take (Z.to_nat s) (drop (i * Z.to_nat s) l) /\ pg <> []) /\
    (forall i,
       (0 <= i)%Z ->
       _paginate l (Some s) (Some i) =
         match pages !! Z.to_nat i with
         | Some pg => inr pg
         | None => inl index_out_of_range
         end) /\
    _paginate l (Some s) None = _paginate l (Some s) (Some 0%Z).
Proof.
  intros Hs.
  set (n := Z.of_nat (length l)).
  set (k := Z.to_nat ((n + s - 1) / s)).
  assert (Hq : (0 <= (n + s - 1) / s)%Z) by (apply Z.div_pos; lia).
  exists (map (fun i : nat => take (Z.to_nat s) (drop (i * Z.to_nat s) l))
            (seq 0 k)).
  split; [|split; [|split; [|split]]].
  - rewrite concat_pages. simpl drop. apply take_ge.
    pose proof (Z.mul_succ_div_gt (n + s - 1) s Hs). unfold k, n in *. nia.
  - rewrite length_map, length_seq. unfold k. lia.
  - intros i pg Hpg. rewrite lookup_map in Hpg.
    destruct (seq 0 k !! i) as [j|] eqn:Hj; [|discriminate].
    apply lookup_seq in Hj as [-> Hik]. simpl in Hpg. injection Hpg as <-.
    split; [done|].
    apply (page_exists n s i Hs) in Hik; [|lia].
    intros Hnil. apply (f_equal length) in Hnil.
    rewrite length_take, length_drop in Hnil. simpl in Hnil.
    unfold n in Hik. nia.
  - intros i Hi. rewrite paginate_positive by done. simpl default.
    by rewrite py_getitem_nonneg.
  - by rewrite !paginate_positive.
Qed.

Lemma paginate_pages_partition_witness :
  exists pages,
    concat pages = [1; 2; 3; 4; 5] /\
    Z.of_nat (length pages) = ((Z.of_nat 5 + 2 - 1) / 2)%Z /\
    (forall i pg,
       pages !! i = Some pg ->
       pg = take 2 (drop (i * 2) [1; 2; 3; 4; 5]) /\ pg <> []) /\
    (forall i,
       (0 <= i)%Z ->
       _paginate [1; 2; 3; 4; 5] (Some 2%Z) (Some i) =
         match pages !! Z.to_nat i with
         | Some pg => inr pg
         | None => inl index_out_of_range
         end) /\
    _paginate [1; 2; 3; 4; 5] (Some 2%Z) None
      = _paginate [1; 2; 3; 4; 5] (Some 2%Z) (Some 0%Z).
Proof. apply (paginate_pages_partition [1; 2; 3; 4; 5] 2). lia. Defined.

(** X28: a negative page index counts pages from the end: with a positive
    page size and [k] pages, index [i < 0] gives the page of index [i + k]
    when that is not negative and raises [IndexError] otherwise.  So -1
    gives the last page, which is what is left of the list after the pages
    before it. *)
Theorem paginate_negative_index {A} (l : list A) (s i : Z) :
  (0 < s)%Z ->
  (i < 0)%Z ->
  let k := ((Z.of_nat (length l) + s - 1) / s)%Z in
  _paginate l (Some s) (Some i) =
    (if (0 <=? i + k)%Z then _paginate l (Some s) (Some (i + k)%Z)
     else inl index_out_of_range) /\
  (i = (-1)%Z -> l <> [] ->
   _paginate l (Some s) (Some i) = inr (drop (Z.to_nat ((k - 1) * s)) l)).
Proof.
  intros Hs Hi k.
  assert (Hq : (0 <= k)%Z) by (apply Z.div_pos; lia).
  pose proof (Z.mul_div_le (Z.of_nat (length l) + s - 1) s Hs) as Hlow.
  pose proof (Z.mul_succ_div_gt (Z.of_nat (length l) + s - 1) s Hs) as Hhigh.
  fold k in Hlow, Hhigh.
  assert (Hlen :
    Z.of_nat (length
      (map (fun j : nat => take (Z.to_nat s) (drop (j * Z.to_nat s) l))
         (seq 0 (Z.to_nat k)))) = k)
    by (rewrite length_map, length_seq; lia).
  assert (Hfirst :
    _paginate l (Some s) (Some i) =
    if (0 <=? i + k)%Z then _paginate l (Some s) (Some (i + k)%Z)
    else inl index_out_of_range).
  { rewrite !paginate_positive by done. simpl default.
    rewrite py_getitem_neg by done. fold k. by rewrite Hlen. }
  split; [done|].
  intros -> Hne. rewrite Hfirst.
  assert (Hk : (1 <= k)%Z).
  { destruct l; [done|]. simpl length in *. nia. }
  destruct (Z.leb_spec 0 (-1 + k)) as [_|?]; [|lia].
  rewrite paginate_positive by done. simpl default.
  rewrite py_getitem_nonneg by lia. fold k.
  rewrite lookup_map, lookup_seq_lt by lia. simpl.
  f_equal. replace (Z.to_nat ((k - 1) * s)) with (Z.to_nat (-1 + k) * Z.to_nat s)
    by nia.
  apply take_ge. rewrite length_drop. nia.
Qed.

Lemma paginate_negative_index_witness :
  _paginate [1; 2; 3; 4; 5] (Some 2%Z) (Some (-1)%Z) = inr [5].
Proof.
  apply (paginate_negative_index [1; 2; 3; 4; 5] 2 (-1));
    [lia | lia | reflexivity | discriminate].
Defined.

(** X29: without page size, or with page size 0, [_paginate] returns the
    whole list whatever the index is, the empty list included.  With a
    negative page size it raises [IndexError] for every list and index, and
    with any page size other than 0 it raises [IndexError] on the empty
    list. *)
Theorem paginate_edge_cases {A} (l : list A) (index : option Z) :
  _paginate l None index = inr l /\
  _paginate l (Some 0%Z) index = inr l /\
  (forall s, (s < 0)%Z ->
     _paginate l (Some s) index = inl index_out_of_range) /\
  (forall s, s <> 0%Z ->
     _paginate ([] : list A) (Some s) index = inl index_out_of_range).
Proof.
  split; [done|]. split; [done|].
  assert (Hneg : forall (l' : list A) s, (s < 0)%Z ->
            _paginate l' (Some s) index = inl index_out_of_range).
  { intros l' s Hs. unfold _paginate, truthy.
    destruct (Z.eqb_spec s 0) as [?|_]; [lia|]. simpl negb. cbv iota.
    unfold py_range. simpl default.
    destruct (Z.ltb_spec 0 s) as [?|_]; [lia|]. simpl map.
    destruct index; apply py_getitem_nil. }
  split; [apply Hneg|].
  intros s Hs. destruct (Z.lt_trichotomy s 0) as [Hlt|[?|Hgt]];
    [by apply Hneg|done|].
  rewrite paginate_positive by done. simpl length.
  replace ((Z.of_nat 0 + s - 1) / s)%Z with 0%Z; [apply py_getitem_nil|].
  symmetry. apply Z.div_small. lia.
Qed.

Lemma paginate_edge_cases_witness :
  _paginate ([] : list nat) (Some 10%Z) (Some 0%Z) = inl index_out_of_range /\
  _paginate [1; 2; 3] (Some (-2)%Z) None = inl index_out_of_range.
Proof.
  split.
  - apply (paginate_edge_cases ([] : list nat) (Some 0%Z)). discriminate.
  - apply (paginate_edge_cases [1; 2; 3] None). lia.
Defined.

End UserServiceProofs.
